(** * chat_voice: request lifecycle of the voice-chat widget

    A shallow embedding of the two Next.js route handlers
    ([src/app/api/chat/route.ts], [src/app/api/token/route.ts]), of the
    text-to-speech flow and of the [useChat] hook's [sendAudioToApi],
    followed by the properties of the rate limiter, of the speech pipeline
    and of the client controller.

    Conventions of the embedding:
    - a JavaScript string is the list of its UTF-16 code units;
    - instants and durations are integers (milliseconds), as [Date.now()]
      produces them;
    - a [Map] is a [gmap]; the mutation [current.count++] of a stored record
      is the re-insertion of the updated record under the same key;
    - a promise that rejects, or a [throw], is the [Thrown] outcome. *)

From Stdlib Require Import ZArith NArith Lia Bool String Ascii DecimalString Sorted.
From stdpp Require Import base option list gmap fin_maps.

Open Scope Z_scope.

(** ** JavaScript strings *)

Abbreviation jsstring := (list N).

Module Js.

(** Code units of an ASCII literal. *)
Fixpoint lit (s : string) : jsstring :=
  match s with
  | EmptyString => []
  | String a r => N_of_ascii a :: lit r
  end.
#[global] Arguments lit : simpl never.

(** [s.startsWith(p)] *)
Fixpoint startsWith (s p : jsstring) : bool :=
  match p, s with
  | [], _ => true
  | _ :: _, [] => false
  | a :: p', b :: s' => N.eqb a b && startsWith s' p'
  end.

(** [s.includes(needle)] *)
Fixpoint includes (s needle : jsstring) : bool :=
  startsWith s needle ||
  match s with
  | [] => false
  | _ :: s' => includes s' needle
  end.

(** WhiteSpace and LineTerminator code points, the ones [trim] strips. *)
Definition isWhiteSpace (c : N) : bool :=
  (bool_decide (c ∈ [9; 10; 11; 12; 13; 32; 160; 5760; 8232; 8233;
                     8239; 8287; 12288; 65279]%N))
  || (N.leb 8192 c && N.leb c 8202).

Fixpoint trimStart (s : jsstring) : jsstring :=
  match s with
  | [] => []
  | c :: r => if isWhiteSpace c then trimStart r else s
  end.

Definition trimEnd (s : jsstring) : jsstring := rev (trimStart (rev s)).

(** [s.trim()] *)
Definition trim (s : jsstring) : jsstring := trimEnd (trimStart s).

(** Truthiness of a string: every string but the empty one. *)
Definition truthy (s : jsstring) : bool :=
  match s with [] => false | _ => true end.

(** [a || b] on strings. *)
Definition orElse (a : option jsstring) (b : jsstring) : jsstring :=
  match a with
  | Some s => if truthy s then s else b
  | None => b
  end.

(** [s.split(',')[0]]: the text before the first separator. *)
Fixpoint beforeFirst (sep : N) (s : jsstring) : jsstring :=
  match s with
  | [] => []
  | c :: r => if N.eqb c sep then [] else c :: beforeFirst sep r
  end.

(** [s.substring(s.indexOf(sep) + 1)]: the text after the first separator,
    the whole string when there is none. *)
Fixpoint dropThrough (sep : N) (s : jsstring) : option jsstring :=
  match s with
  | [] => None
  | c :: r => if N.eqb c sep then Some r else dropThrough sep r
  end.

Definition afterFirst (sep : N) (s : jsstring) : jsstring :=
  default s (dropThrough sep s).

(** [n.toString()] and [`${n}`] for an integer [n]. *)
Definition toString (n : Z) : jsstring :=
  lit (NilZero.string_of_int (Z.to_int n)).

(** [Math.ceil(a / b)] for integers [a] and [b > 0]. *)
Definition ceilDiv (a b : Z) : Z := - ((- a) / b).

End Js.

Notation "'js' s" := (Js.lit s%string) (at level 9, s at level 0, only parsing).

(** ** Outcomes of fallible calls *)

(** What a [catch] clause can receive: an [Error] instance with its [name]
    and [message], or some other thrown value. *)
Inductive thrown :=
| ErrorObj (name message : jsstring)
| NonError.

Inductive outcome (A : Type) :=
| Returned (a : A)
| Thrown (e : thrown).
Arguments Returned {A} a.
Arguments Thrown {A} e.

(** [new Error(message)] *)
Definition newError (message : jsstring) : thrown := ErrorObj (js "Error") message.

(** ** Fixed-window rate limiter *)

Record RateRecord := { count : Z; resetTime : Z }.

Record RateResult := { allowed : bool; remaining : Z; resetIn : Z }.

(** [const TIME_WINDOW = 60 * 1000], the same in both routes. *)
Definition TIME_WINDOW : Z := 60 * 1000.

Section FixedWindow.

(** The ceiling: [REQUEST_LIMIT] or [TOKEN_REQUEST_LIMIT]. *)
Variable limit : Z.

(** The body shared, up to the ceiling and the map it works on, by
    [checkRateLimit] and [checkTokenRateLimit]. *)
Definition fixedWindowCheck (now : Z) (key : jsstring)
    (counts : gmap jsstring RateRecord) : RateResult * gmap jsstring RateRecord :=
  let record := counts !! key in
  let counts :=
    match record with
    | Some r => if now >? resetTime r then delete key counts else counts
    | None => counts
    end in
  match counts !! key with
  | None =>
      ({| allowed := true; remaining := limit - 1; resetIn := TIME_WINDOW |},
       <[key := {| count := 1; resetTime := now + TIME_WINDOW |}]> counts)
  | Some current =>
      if count current >=? limit then
        ({| allowed := false; remaining := 0;
            resetIn := Z.max 0 (resetTime current - now) |}, counts)
      else
        let current := {| count := count current + 1;
                          resetTime := resetTime current |} in
        ({| allowed := true; remaining := limit - count current;
            resetIn := resetTime current - now |},
         <[key := current]> counts)
  end.

End FixedWindow.

(** The [setInterval] callback of both routes: drop every record whose
    reset time has passed. *)
Definition purgeExpired (now : Z) (counts : gmap jsstring RateRecord)
    : gmap jsstring RateRecord :=
  filter (λ kr, ¬ (now > resetTime kr.2)) counts.

(** Traffic seen by one counter map: rate checks and sweeps, each at the
    instant [Date.now()] returned to it. *)
Inductive event :=
| Probe (now : Z) (key : jsstring)
| Sweep (now : Z).

Section Traffic.

Variable check : Z → jsstring → gmap jsstring RateRecord
                 → RateResult * gmap jsstring RateRecord.

Definition step (ev : event) (counts : gmap jsstring RateRecord)
    : gmap jsstring RateRecord :=
  match ev with
  | Probe now key => (check now key counts).2
  | Sweep now => purgeExpired now counts
  end.

Fixpoint run (evs : list event) (counts : gmap jsstring RateRecord)
    : gmap jsstring RateRecord :=
  match evs with
  | [] => counts
  | ev :: evs' => run evs' (step ev counts)
  end.

(** The answers given to the checks of [key], in order, each with the
    instant of its check. *)
Fixpoint answers (key : jsstring) (evs : list event)
    (counts : gmap jsstring RateRecord) : list (Z * RateResult) :=
  match evs with
  | [] => []
  | ev :: evs' =>
      match ev with
      | Probe now k =>
          if decide (k = key)
          then (now, (check now k counts).1) :: answers key evs' (step ev counts)
          else answers key evs' (step ev counts)
      | Sweep _ => answers key evs' (step ev counts)
      end
  end.

End Traffic.

(** ** The AI flows and the text-to-speech flow *)

(** What the routes take from the AI provider. [transcribeUserSpeech] and
    [generateAIResponse] are the two prompt flows: each either returns its
    output or rejects. [aiGenerateSpeech] is the [ai.generate] call of the
    text-to-speech flow, answering with the URL of the media it produced, if
    any; [toWav] is the PCM-to-WAV container step, applied to the base64
    payload of that URL and answering in base64. *)
Class AiFlows := {
  transcribeUserSpeech : jsstring → outcome jsstring;
  generateAIResponse : jsstring → outcome jsstring;
  aiGenerateSpeech : jsstring → outcome (option jsstring);
  toWav : jsstring → outcome jsstring;
}.

(** [convertTextToSpeechFlow] *)
Definition convertTextToSpeech {flows : AiFlows} (text : jsstring) : outcome jsstring :=
  if negb (Js.truthy (Js.trim text)) then Returned []
  else
    match aiGenerateSpeech text with
    | Thrown e => Thrown e
    | Returned None => Thrown (newError (js "no media returned"))
    | Returned (Some url) =>
        match toWav (Js.afterFirst 44 url) with
        | Thrown e => Thrown e
        | Returned wav => Returned (js "data:audio/wav;base64," ++ wav)
        end
    end.

(** ** POST /api/chat *)

Module ChatRoute.

Definition REQUEST_LIMIT : Z := 10.

(** The request as the handler reads it: the two address headers and the
    result of [await req.json()] followed by the destructuring of
    [audioDataUri] ([None]: the field is absent; the field is a string when
    present, as the widget sends it). *)
Record Request := {
  xForwardedFor : option jsstring;
  xRealIp : option jsstring;
  json : outcome (option jsstring);
}.

Record AiResponse := { text : jsstring; audioDataUri : jsstring }.

(** The JSON bodies the handler produces; a field it leaves out is [None]
    (or [false] for the two flags). An instant stands for its ISO-8601
    rendering. *)
Record Json := {
  error : option jsstring;
  rateLimitExceeded : bool;
  retryAfter : option Z;
  quotaExceeded : bool;
  timestamp : option Z;
  transcription : option jsstring;
  aiResponse : option AiResponse;
}.

Inductive HeaderValue :=
| HText (s : jsstring)
| HInstant (t : Z).

Record Response := {
  status : Z;
  headers : list (string * HeaderValue);
  body : Json;
}.

(** The external calls a request caused, in order. *)
Inductive StageCall :=
| CallTranscribe (audioDataUri : jsstring)
| CallGenerate (transcription : jsstring)
| CallSpeech (text : jsstring).

Definition errorJson (message : jsstring) : Json :=
  {| error := Some message; rateLimitExceeded := false; retryAfter := None;
     quotaExceeded := false; timestamp := None; transcription := None;
     aiResponse := None |}.

Definition quotaJson (message : jsstring) : Json :=
  {| error := Some message; rateLimitExceeded := false; retryAfter := None;
     quotaExceeded := true; timestamp := None; transcription := None;
     aiResponse := None |}.

Definition replyJson (transcription text audioDataUri : jsstring) : Json :=
  {| error := None; rateLimitExceeded := false; retryAfter := None;
     quotaExceeded := false; timestamp := None;
     transcription := Some transcription;
     aiResponse := Some {| text := text; audioDataUri := audioDataUri |} |}.

(** [NextResponse.json(body)] and [NextResponse.json(body, {status})] *)
Definition respond (status : Z) (body : Json) : Response :=
  {| status := status; headers := []; body := body |}.

Definition getRateLimitKey (req : Request) : jsstring :=
  match xForwardedFor req with
  | Some forwarded =>
      if Js.truthy forwarded then Js.beforeFirst 44 forwarded
      else Js.orElse (xRealIp req) (js "unknown")
  | None => Js.orElse (xRealIp req) (js "unknown")
  end.

Definition checkRateLimit (now : Z) (key : jsstring)
    (requestCounts : gmap jsstring RateRecord)
    : RateResult * gmap jsstring RateRecord :=
  let record := requestCounts !! key in
  let requestCounts :=
    match record with
    | Some r => if now >? resetTime r then delete key requestCounts
                else requestCounts
    | None => requestCounts
    end in
  match requestCounts !! key with
  | None =>
      ({| allowed := true; remaining := REQUEST_LIMIT - 1;
          resetIn := TIME_WINDOW |},
       <[key := {| count := 1; resetTime := now + TIME_WINDOW |}]> requestCounts)
  | Some current =>
      if count current >=? REQUEST_LIMIT then
        ({| allowed := false; remaining := 0;
            resetIn := Z.max 0 (resetTime current - now) |}, requestCounts)
      else
        let current := {| count := count current + 1;
                          resetTime := resetTime current |} in
        ({| allowed := true; remaining := REQUEST_LIMIT - count current;
            resetIn := resetTime current - now |},
         <[key := current]> requestCounts)
  end.

(** The test of both inner [catch] clauses. *)
Definition isQuotaError (e : thrown) : bool :=
  match e with
  | ErrorObj _ message =>
      Js.includes message (js "quota")
      || Js.includes message (js "rate limit")
      || Js.includes message (js "429")
  | NonError => false
  end.

(** The pipeline, from stage 1 to the success response: the calls made and
    either the response returned or the exception left to the handler's
    outer [catch]. [sent] is the instant at which the success response is
    assembled. *)
Definition pipeline {flows : AiFlows} (sent : Z) (limiter : RateResult)
    (audioDataUri : jsstring) : list StageCall * outcome Response :=
  match transcribeUserSpeech audioDataUri with
  | Thrown e =>
      ([CallTranscribe audioDataUri],
       if isQuotaError e then
         Returned (respond 429 (quotaJson
           (js "AI service quota exceeded. Please try again in a few moments.")))
       else Thrown e)
  | Returned transcription =>
      if negb (Js.truthy transcription) || negb (Js.truthy (Js.trim transcription))
      then
        ([CallTranscribe audioDataUri],
         Returned (respond 200 (replyJson []
           (js "Sorry, I couldn't understand that. Please try again.") [])))
      else
        match generateAIResponse transcription with
        | Thrown e =>
            ([CallTranscribe audioDataUri; CallGenerate transcription],
             if isQuotaError e then
               Returned (respond 429 (quotaJson
                 (js "AI service is busy. Please try again shortly.")))
             else Thrown e)
        | Returned aiTextResponse =>
            if negb (Js.truthy aiTextResponse)
               || negb (Js.truthy (Js.trim aiTextResponse))
            then
              ([CallTranscribe audioDataUri; CallGenerate transcription],
               Returned (respond 200 (replyJson transcription
                 (js "I'm not sure how to respond to that.") [])))
            else
              let calls := [CallTranscribe audioDataUri;
                            CallGenerate transcription;
                            CallSpeech aiTextResponse] in
              match convertTextToSpeech aiTextResponse with
              | Thrown _ =>
                  (calls,
                   Returned (respond 200 (replyJson transcription aiTextResponse [])))
              | Returned aiAudioDataUri =>
                  (calls,
                   Returned
                     {| status := 200;
                        headers :=
                          [("X-RateLimit-Limit"%string,
                            HText (Js.toString REQUEST_LIMIT));
                           ("X-RateLimit-Remaining"%string,
                            HText (Js.toString (remaining limiter)));
                           ("X-RateLimit-Reset"%string,
                            HInstant (sent + resetIn limiter))];
                        body := replyJson transcription aiTextResponse
                                  aiAudioDataUri |})
              end
        end
  end.

(** The outer [catch]: the response for an exception that escaped. *)
Definition failure (sent : Z) (e : thrown) : Response :=
  let '(statusCode, errorMessage) :=
    match e with
    | ErrorObj _ message =>
        if Js.includes message (js "timeout") then
          (504, js "Request timeout. Please try again.")
        else if Js.includes message (js "network") then
          (503, js "Service temporarily unavailable.")
        else if Js.includes message (js "quota")
                || Js.includes message (js "rate limit") then
          (429, js "Too many requests. Please wait a moment.")
        else (500, message)
    | NonError => (500, js "Internal Server Error")
    end in
  respond statusCode
    {| error := Some errorMessage; rateLimitExceeded := false;
       retryAfter := None; quotaExceeded := false; timestamp := Some sent;
       transcription := None; aiResponse := None |}.

(** What one request leaves behind. *)
Record Handled := {
  response : Response;
  calls : list StageCall;
  counts : gmap jsstring RateRecord;
}.

(** [export async function POST(req)]. [now] is the instant of the rate
    check, [sent] the instant at which the response is assembled. *)
Definition POST {flows : AiFlows} (now sent : Z) (req : Request)
    (requestCounts : gmap jsstring RateRecord) : Handled :=
  let rateLimitKey := getRateLimitKey req in
  let '(limiter, requestCounts) := checkRateLimit now rateLimitKey requestCounts in
  if negb (allowed limiter) then
    let waitSeconds := Js.ceilDiv (resetIn limiter) 1000 in
    {| response :=
         {| status := 429;
            headers :=
              [("Retry-After"%string, HText (Js.toString waitSeconds));
               ("X-RateLimit-Limit"%string, HText (Js.toString REQUEST_LIMIT));
               ("X-RateLimit-Remaining"%string, HText (js "0"));
               ("X-RateLimit-Reset"%string, HInstant (sent + resetIn limiter))];
            body :=
              {| error := Some (js "Rate limit exceeded. Please wait "
                                ++ Js.toString waitSeconds
                                ++ js " seconds before trying again.");
                 rateLimitExceeded := true; retryAfter := Some waitSeconds;
                 quotaExceeded := false; timestamp := None;
                 transcription := None; aiResponse := None |} |};
       calls := []; counts := requestCounts |}
  else
    match json req with
    | Thrown e =>
        {| response := failure sent e; calls := []; counts := requestCounts |}
    | Returned field =>
        match field with
        | None =>
            {| response := respond 400 (errorJson (js "Missing audioDataUri"));
               calls := []; counts := requestCounts |}
        | Some audioDataUri =>
            if negb (Js.truthy audioDataUri) then
              {| response := respond 400 (errorJson (js "Missing audioDataUri"));
                 calls := []; counts := requestCounts |}
            else if negb (Js.startsWith audioDataUri (js "data:audio/")) then
              {| response := respond 400 (errorJson (js "Invalid audio data format"));
                 calls := []; counts := requestCounts |}
            else
              match pipeline sent limiter audioDataUri with
              | (calls, Returned r) =>
                  {| response := r; calls := calls; counts := requestCounts |}
              | (calls, Thrown e) =>
                  {| response := failure sent e; calls := calls;
                     counts := requestCounts |}
              end
        end
    end.

End ChatRoute.

(** ** POST /api/token *)

(** The credential the route asks the media-session SDK to sign: the
    constructor's options and the grant added to it. *)
Record VideoGrant := {
  room : jsstring;
  roomJoin : bool;
  canPublish : bool;
  canSubscribe : bool;
  canPublishData : bool;
}.

Record AccessToken := {
  apiKey : jsstring;
  apiSecret : jsstring;
  identity : jsstring;
  name : jsstring;
  ttl : jsstring;
  metadataCreatedAt : Z;
  metadataRoomName : jsstring;
  grant : VideoGrant;
}.

(** [at.toJwt()] of the SDK: the signed token, or a rejection. *)
Class LiveKitSdk := { toJwt : AccessToken → outcome jsstring }.

Module TokenRoute.

Definition TOKEN_REQUEST_LIMIT : Z := 20.

(** The request as the handler reads it: the two address headers and the
    result of [await req.json()] followed by the destructuring of the two
    identifiers ([None]: the field is absent; a field is a string when
    present, as the widget sends it). *)
Record Request := {
  xForwardedFor : option jsstring;
  xRealIp : option jsstring;
  json : outcome (option jsstring * option jsstring);
}.

(** [process.env] as the handler reads it. *)
Record Env := {
  LIVEKIT_API_KEY : option jsstring;
  LIVEKIT_API_SECRET : option jsstring;
  NEXT_PUBLIC_LIVEKIT_URL : option jsstring;
}.

Record Credential := {
  token : jsstring;
  url : jsstring;
  expiresIn : Z;
  roomName : jsstring;
  participantName : jsstring;
}.

Record Json := {
  error : option jsstring;
  rateLimitExceeded : bool;
  retryAfter : option Z;
  timestamp : option Z;
  credential : option Credential;
}.

Inductive HeaderValue :=
| HText (s : jsstring)
| HInstant (t : Z).

Record Response := {
  status : Z;
  headers : list (string * HeaderValue);
  body : Json;
}.

Definition errorJson (message : jsstring) : Json :=
  {| error := Some message; rateLimitExceeded := false; retryAfter := None;
     timestamp := None; credential := None |}.

Definition respond (status : Z) (body : Json) : Response :=
  {| status := status; headers := []; body := body |}.

Definition getRateLimitKey (req : Request) : jsstring :=
  match xForwardedFor req with
  | Some forwarded =>
      if Js.truthy forwarded then Js.beforeFirst 44 forwarded
      else Js.orElse (xRealIp req) (js "unknown")
  | None => Js.orElse (xRealIp req) (js "unknown")
  end.

Definition checkTokenRateLimit (now : Z) (key : jsstring)
    (tokenRequestCounts : gmap jsstring RateRecord)
    : RateResult * gmap jsstring RateRecord :=
  let record := tokenRequestCounts !! key in
  let tokenRequestCounts :=
    match record with
    | Some r => if now >? resetTime r then delete key tokenRequestCounts
                else tokenRequestCounts
    | None => tokenRequestCounts
    end in
  match tokenRequestCounts !! key with
  | None =>
      ({| allowed := true; remaining := TOKEN_REQUEST_LIMIT - 1;
          resetIn := TIME_WINDOW |},
       <[key := {| count := 1; resetTime := now + TIME_WINDOW |}]>
         tokenRequestCounts)
  | Some current =>
      if count current >=? TOKEN_REQUEST_LIMIT then
        ({| allowed := false; remaining := 0;
            resetIn := Z.max 0 (resetTime current - now) |}, tokenRequestCounts)
      else
        let current := {| count := count current + 1;
                          resetTime := resetTime current |} in
        ({| allowed := true; remaining := TOKEN_REQUEST_LIMIT - count current;
            resetIn := resetTime current - now |},
         <[key := current]> tokenRequestCounts)
  end.

(** One item of a character class: a range [a-z] or a single character. *)
Inductive ClassItem :=
| Range (lo hi : N)
| Single (c : N).

Definition inItem (c : N) (i : ClassItem) : bool :=
  match i with
  | Range lo hi => N.leb lo c && N.leb c hi
  | Single x => N.eqb c x
  end.

Definition inClass (cls : list ClassItem) (c : N) : bool :=
  existsb (inItem c) cls.

(** [/^[cls]+$/.test(s)]: one or more characters of the class, from the
    start of the input to its end (no [m] flag: [$] is the end of input). *)
Definition testOneOrMore (cls : list ClassItem) (s : jsstring) : bool :=
  match s with
  | [] => false
  | _ :: _ => forallb (inClass cls) s
  end.

(** The class [[a-zA-Z0-9_-]]. *)
Definition identifierClass : list ClassItem :=
  [Range 97 122; Range 65 90; Range 48 57; Single 95; Single 45].

(** The outer [catch]. *)
Definition failure (sent : Z) (e : thrown) : Response :=
  let '(statusCode, errorMessage) :=
    match e with
    | ErrorObj _ message =>
        if Js.includes message (js "Invalid API key") then
          (401, js "Invalid LiveKit credentials.")
        else if Js.includes message (js "timeout") then
          (504, js "Token generation timeout. Please try again.")
        else (500, message)
    | NonError => (500, js "Internal Server Error")
    end in
  respond statusCode
    {| error := Some errorMessage; rateLimitExceeded := false;
       retryAfter := None; timestamp := Some sent; credential := None |}.

(** A value that passes the [!x] tests of the route: a string that is
    neither missing nor empty. *)
Definition present (v : option jsstring) : option jsstring :=
  match v with
  | Some s => if Js.truthy s then Some s else None
  | None => None
  end.

(** [export async function POST(req)]. [now] is the instant of the rate
    check, [sent] the instant at which the token's metadata and the
    response are assembled. *)
Definition POST {sdk : LiveKitSdk} (env : Env) (now sent : Z) (req : Request)
    (tokenRequestCounts : gmap jsstring RateRecord)
    : Response * gmap jsstring RateRecord :=
  let rateLimitKey := getRateLimitKey req in
  let '(limiter, tokenRequestCounts) :=
    checkTokenRateLimit now rateLimitKey tokenRequestCounts in
  if negb (allowed limiter) then
    let waitSeconds := Js.ceilDiv (resetIn limiter) 1000 in
    ({| status := 429;
        headers :=
          [("Retry-After"%string, HText (Js.toString waitSeconds));
           ("X-RateLimit-Limit"%string, HText (Js.toString TOKEN_REQUEST_LIMIT));
           ("X-RateLimit-Remaining"%string, HText (js "0"));
           ("X-RateLimit-Reset"%string, HInstant (sent + resetIn limiter))];
        body :=
          {| error := Some (js "Too many token requests. Please wait "
                            ++ Js.toString waitSeconds ++ js " seconds.");
             rateLimitExceeded := true; retryAfter := Some waitSeconds;
             timestamp := None; credential := None |} |},
     tokenRequestCounts)
  else
    match json req with
    | Thrown e => (failure sent e, tokenRequestCounts)
    | Returned (roomName, participantName) =>
        match present roomName, present participantName with
        | Some roomName, Some participantName =>
            let validRoomName := testOneOrMore identifierClass roomName in
            let validParticipantName :=
              testOneOrMore identifierClass participantName in
            if negb validRoomName || negb validParticipantName then
              (respond 400 (errorJson (js
                 "Invalid roomName or participantName format. Use only letters, numbers, hyphens, and underscores.")),
               tokenRequestCounts)
            else
              match present (LIVEKIT_API_KEY env),
                    present (LIVEKIT_API_SECRET env),
                    present (NEXT_PUBLIC_LIVEKIT_URL env) with
              | Some apiKey, Some apiSecret, Some wsUrl =>
                  if negb (Js.startsWith wsUrl (js "ws://"))
                     && negb (Js.startsWith wsUrl (js "wss://")) then
                    (respond 500 (errorJson (js "Invalid LiveKit URL configuration.")),
                     tokenRequestCounts)
                  else
                    let at_ :=
                      {| apiKey := apiKey; apiSecret := apiSecret;
                         identity := participantName; name := participantName;
                         ttl := js "10m";
                         metadataCreatedAt := sent;
                         metadataRoomName := roomName;
                         grant := {| room := roomName; roomJoin := true;
                                     canPublish := true; canSubscribe := true;
                                     canPublishData := true |} |} in
                    match toJwt at_ with
                    | Thrown e => (failure sent e, tokenRequestCounts)
                    | Returned token =>
                        ({| status := 200;
                            headers :=
                              [("X-RateLimit-Limit"%string,
                                HText (Js.toString TOKEN_REQUEST_LIMIT));
                               ("X-RateLimit-Remaining"%string,
                                HText (Js.toString (remaining limiter)));
                               ("X-RateLimit-Reset"%string,
                                HInstant (sent + resetIn limiter))];
                            body :=
                              {| error := None; rateLimitExceeded := false;
                                 retryAfter := None; timestamp := None;
                                 credential :=
                                   Some {| token := token; url := wsUrl;
                                           expiresIn := 600;
                                           roomName := roomName;
                                           participantName := participantName |} |} |},
                         tokenRequestCounts)
                    end
              | _, _, _ =>
                  (respond 500 (errorJson (js
                     "Server configuration error: LiveKit credentials not set.")),
                   tokenRequestCounts)
              end
        | _, _ =>
            (respond 400 (errorJson (js "Missing roomName or participantName")),
             tokenRequestCounts)
        end
    end.

End TokenRoute.

(** ** The client controller: [useChat] *)

(** What the hook takes from the browser: the identifiers [uuidv4()] draws,
    in drawing order, and whether [new Audio(uri).play()] rejects. *)
Class Browser := {
  uuidv4 : nat → jsstring;
  audioPlay : jsstring → option thrown;
}.

Module UseChat.

Definition RATE_LIMIT_COOLDOWN : Z := 5000.
Definition MAX_RETRIES : Z := 2.
Definition RETRY_DELAY : Z := 3000.

Inductive Role := user | assistant.

Record Message := {
  id : jsstring;
  text : jsstring;
  role : Role;
  timestamp : option Z;
}.

(** The recorded audio: [new Blob(chunks, {type})], by its type and the
    base64 rendering of its bytes. *)
Record Blob := { type : jsstring; base64 : jsstring }.

(** [reader.readAsDataURL(blob)], as [reader.result] holds it. *)
Definition readAsDataURL (b : Blob) : jsstring :=
  js "data:" ++ type b ++ js ";base64," ++ base64 b.

(** A pending [setTimeout(() => sendAudioToApi(audioBlob, retryCount), delay)]. *)
Record Timer := { delay : Z; payload : Blob; nextRetryCount : Z }.

(** A [fetch('/api/chat', ...)] made: when, with which [audioDataUri], on
    which attempt. *)
Record Dispatch := { at_ : Z; sentUri : jsstring; attempt : Z }.

(** The hook's state and the effects it has had: the transcript, the flags
    and refs [sendAudioToApi] writes, the pending retry timers, the requests
    sent, the audio elements started and the errors handed to [onError]. *)
Record State := {
  messages : list Message;
  isThinking : bool;
  lastRequestTime : Z;
  cooldownRemaining : Z;
  idsDrawn : nat;
  timers : list Timer;
  dispatched : list Dispatch;
  played : list jsstring;
  reported : list thrown;
}.

Definition initial : State :=
  {| messages := []; isThinking := false; lastRequestTime := 0;
     cooldownRemaining := 0; idsDrawn := 0%nat; timers := [];
     dispatched := []; played := []; reported := [] |}.

(** [addMessage({text, role})] at instant [now]:
    [setMessages(prev => [...prev, {id: uuidv4(), timestamp: Date.now(), ...message}])]. *)
Definition addMessage {browser : Browser} (now : Z) (text : jsstring) (role : Role)
    (st : State) : State :=
  {| messages := messages st ++
                 [{| id := uuidv4 (idsDrawn st); text := text; role := role;
                     timestamp := Some now |}];
     isThinking := isThinking st; lastRequestTime := lastRequestTime st;
     cooldownRemaining := cooldownRemaining st;
     idsDrawn := S (idsDrawn st); timers := timers st;
     dispatched := dispatched st; played := played st;
     reported := reported st |}.

Definition setIsThinking (b : bool) (st : State) : State :=
  {| messages := messages st; isThinking := b;
     lastRequestTime := lastRequestTime st;
     cooldownRemaining := cooldownRemaining st; idsDrawn := idsDrawn st;
     timers := timers st; dispatched := dispatched st; played := played st;
     reported := reported st |}.

(** [lastRequestTimeRef.current = Date.now(); startCooldownTimer()], up to
    the first update of the countdown (its later ticks only redraw it). *)
Definition stampRequest (now : Z) (st : State) : State :=
  {| messages := messages st; isThinking := isThinking st;
     lastRequestTime := now;
     cooldownRemaining :=
       Z.max 0 (Js.ceilDiv (now + RATE_LIMIT_COOLDOWN - now) 1000);
     idsDrawn := idsDrawn st; timers := timers st;
     dispatched := dispatched st; played := played st;
     reported := reported st |}.

Definition setTimeout (t : Timer) (st : State) : State :=
  {| messages := messages st; isThinking := isThinking st;
     lastRequestTime := lastRequestTime st;
     cooldownRemaining := cooldownRemaining st; idsDrawn := idsDrawn st;
     timers := timers st ++ [t]; dispatched := dispatched st;
     played := played st; reported := reported st |}.

Definition recordDispatch (d : Dispatch) (st : State) : State :=
  {| messages := messages st; isThinking := isThinking st;
     lastRequestTime := lastRequestTime st;
     cooldownRemaining := cooldownRemaining st; idsDrawn := idsDrawn st;
     timers := timers st; dispatched := dispatched st ++ [d];
     played := played st; reported := reported st |}.

(** [onError?.(error)] *)
Definition onError (e : thrown) (st : State) : State :=
  {| messages := messages st; isThinking := isThinking st;
     lastRequestTime := lastRequestTime st;
     cooldownRemaining := cooldownRemaining st; idsDrawn := idsDrawn st;
     timers := timers st; dispatched := dispatched st; played := played st;
     reported := reported st ++ [e] |}.

(** [new Audio(uri).play().catch(e => onError?.(e))] *)
Definition playAudio {browser : Browser} (uri : jsstring) (st : State) : State :=
  let st :=
    {| messages := messages st; isThinking := isThinking st;
       lastRequestTime := lastRequestTime st;
       cooldownRemaining := cooldownRemaining st; idsDrawn := idsDrawn st;
       timers := timers st; dispatched := dispatched st;
       played := played st ++ [uri]; reported := reported st |} in
  match audioPlay uri with
  | Some e => onError e st
  | None => st
  end.

(** [response.ok] *)
Definition ok (r : ChatRoute.Response) : bool :=
  (200 <=? ChatRoute.status r) && (ChatRoute.status r <=? 299).

Definition rateLimitError : thrown :=
  ErrorObj (js "RateLimitError") (js "Rate limit reached. Please wait a moment.").

Definition errorName (e : thrown) : option jsstring :=
  match e with
  | ErrorObj name _ => Some name
  | NonError => None
  end.

(** [`${error.message}`] *)
Definition errorMessage (e : thrown) : jsstring :=
  match e with
  | ErrorObj _ message => message
  | NonError => js "undefined"
  end.

Definition isRateLimitError (e : thrown) : bool :=
  bool_decide (errorName e = Some (js "RateLimitError")).

(** The [try] block of [reader.onloadend], from the answer of [fetch] on:
    the state it leaves and the exception it raises, if any. *)
Definition receive {browser : Browser} (now : Z) (answer : outcome ChatRoute.Response)
    (st : State) : State * option thrown :=
  match answer with
  | Thrown e => (st, Some e)
  | Returned response =>
      if negb (ok response) then
        let errorData := ChatRoute.body response in
        let errorMessage :=
          Js.orElse (ChatRoute.error errorData)
                    (js "Failed to get response from chat API") in
        if Js.includes errorMessage (js "Quota exceeded")
           || Js.includes errorMessage (js "rate limit")
        then (st, Some rateLimitError)
        else (st, Some (newError errorMessage))
      else
        let data := ChatRoute.body response in
        let st :=
          match ChatRoute.transcription data with
          | Some transcription =>
              if Js.truthy transcription
              then addMessage now transcription user st
              else st
          | None => st
          end in
        let st :=
          match ChatRoute.aiResponse data with
          | Some ai =>
              if Js.truthy (ChatRoute.text ai)
                 && Js.truthy (ChatRoute.audioDataUri ai)
              then playAudio (ChatRoute.audioDataUri ai)
                     (addMessage now (ChatRoute.text ai) assistant st)
              else st
          | None => st
          end in
        (st, None)
  end.

(** The [catch] block. *)
Definition recover {browser : Browser} (now : Z) (audioBlob : Blob) (retryCount : Z)
    (e : thrown) (st : State) : State :=
  if isRateLimitError e && (retryCount <? MAX_RETRIES) then
    let waitTime := RETRY_DELAY * (retryCount + 1) in
    let st :=
      addMessage now
        ([9203%N] ++ js " Rate limit reached. Retrying in "
         ++ Js.toString (waitTime / 1000) ++ js " seconds... ("
         ++ Js.toString (retryCount + 1) ++ js "/"
         ++ Js.toString MAX_RETRIES ++ js ")")
        assistant st in
    setTimeout {| delay := waitTime; payload := audioBlob;
                  nextRetryCount := retryCount + 1 |} st
  else
    let st :=
      if isRateLimitError e then
        addMessage now
          ([9888%N; 65039%N]
           ++ js " Too many requests! Please wait 30 seconds and try again.")
          assistant st
      else
        addMessage now ([10060%N] ++ js " Error: " ++ errorMessage e)
          assistant st in
    onError e st.

(** [sendAudioToApi(audioBlob, retryCount)], with the [onloadend] handler
    of its reader run to completion: [fetch] answers the request whose
    [audioDataUri] it is given; [now] is the instant of the call, [landed]
    the instant at which the answer is handled. The [finally] clause runs
    on every path, the scheduling of a retry included. *)
Definition sendAudioToApi {browser : Browser}
    (fetch : jsstring → outcome ChatRoute.Response) (now landed : Z)
    (audioBlob : Blob) (retryCount : Z) (st : State) : State :=
  let st := setIsThinking true st in
  let st := stampRequest now st in
  let audioDataUri := readAsDataURL audioBlob in
  let st := recordDispatch {| at_ := now; sentUri := audioDataUri;
                              attempt := retryCount |} st in
  let st :=
    match receive landed (fetch audioDataUri) st with
    | (st, None) => st
    | (st, Some e) => recover landed audioBlob retryCount e st
    end in
  setIsThinking false st.

(** The timer of a scheduled retry fires: it leaves the queue and its
    callback runs, [delay] after it was set. *)
Definition popTimer (st : State) : option (Timer * State) :=
  match timers st with
  | [] => None
  | t :: rest =>
      Some (t,
            {| messages := messages st; isThinking := isThinking st;
               lastRequestTime := lastRequestTime st;
               cooldownRemaining := cooldownRemaining st;
               idsDrawn := idsDrawn st; timers := rest;
               dispatched := dispatched st; played := played st;
               reported := reported st |})
  end.

(** One dispatch and the retries it leads to. Each element of [exchanges]
    is what the network does with one request, in order: how long the
    round trip takes and the answer. *)
Fixpoint conversation {browser : Browser}
    (exchanges : list (Z * outcome ChatRoute.Response)) (now : Z)
    (audioBlob : Blob) (retryCount : Z) (st : State) : State :=
  match exchanges with
  | [] => st
  | (latency, answer) :: later =>
      let landed := now + latency in
      let st := sendAudioToApi (λ _, answer) now landed audioBlob retryCount st in
      match popTimer st with
      | None => st
      | Some (t, st) =>
          conversation later (landed + delay t) (payload t) (nextRetryCount t) st
      end
  end.

(** The widget's request, as the route reads it. *)
Definition chatRequest (xForwardedFor xRealIp : option jsstring)
    (audioDataUri : jsstring) : ChatRoute.Request :=
  {| ChatRoute.xForwardedFor := xForwardedFor; ChatRoute.xRealIp := xRealIp;
     ChatRoute.json := Returned (Some audioDataUri) |}.

End UseChat.

(** ** Vocabulary of the properties *)

(** *** Rate limiter *)

(** A record is live at [now] unless [now] is strictly past its reset time. *)
Definition expired (now : Z) (o : option RateRecord) : Prop :=
  match o with
  | None => True
  | Some r => now > resetTime r
  end.

(** The events of the window that a check of [key] opened at [t0]: until the
    record's reset instant [t0 + TIME_WINDOW], that instant included, the
    record is neither replaced by a check nor purged by a sweep. *)
Definition in_window (t0 : Z) (key : jsstring) (ev : event) : Prop :=
  match ev with
  | Probe t k => k = key → t0 ≤ t ≤ t0 + TIME_WINDOW
  | Sweep t => t ≤ t0 + TIME_WINDOW
  end.

(** Every stored count lies between one and the ceiling. *)
Definition within_ceiling (limit : Z) (counts : gmap jsstring RateRecord) : Prop :=
  ∀ (k : jsstring) r, counts !! k = Some r → 1 ≤ count r ≤ limit.

(** The two limiters of the source with their ceilings. *)
Definition limiter_of
    (check : Z → jsstring → gmap jsstring RateRecord
             → RateResult * gmap jsstring RateRecord) (N : Z) : Prop :=
  (check = ChatRoute.checkRateLimit ∧ N = ChatRoute.REQUEST_LIMIT)
  ∨ (check = TokenRoute.checkTokenRateLimit ∧ N = TokenRoute.TOKEN_REQUEST_LIMIT).

(** The record a check leaves under its key when it allows the request. *)
Definition counted_record (now : Z) (before : option RateRecord) : RateRecord :=
  match before with
  | Some r =>
      if decide (now > resetTime r)
      then {| count := 1; resetTime := now + TIME_WINDOW |}
      else {| count := count r + 1; resetTime := resetTime r |}
  | None => {| count := 1; resetTime := now + TIME_WINDOW |}
  end.

(** The request has been counted: the record of its key is new or one
    higher, the records of the other keys are as before. *)
Definition counted (now : Z) (key : jsstring)
    (before after : gmap jsstring RateRecord) : Prop :=
  after = <[key := counted_record now (before !! key)]> before
  ∧ after !! key ≠ before !! key.

(** *** Speech pipeline *)

(** A request reaches the pipeline when the limiter allows it and its body
    carries an audio data URI. *)
Definition reaches_pipeline (now : Z) (req : ChatRoute.Request)
    (counts : gmap jsstring RateRecord) (uri : jsstring) : Prop :=
  allowed (ChatRoute.checkRateLimit now (ChatRoute.getRateLimitKey req) counts).1 = true
  ∧ ChatRoute.json req = Returned (Some uri)
  ∧ Js.startsWith uri (js "data:audio/") = true.

(** The transcription stage fails with [e], or it yields a transcription
    with content and the response-generation stage fails with [e]. *)
Definition stage_failure {flows : AiFlows} (uri : jsstring) (e : thrown) : Prop :=
  transcribeUserSpeech uri = Thrown e
  ∨ ∃ T, transcribeUserSpeech uri = Returned T ∧ Js.trim T ≠ []
         ∧ generateAIResponse T = Thrown e.

(** The two messages of the quota-exceeded responses. *)
Definition quota_message (message : jsstring) : Prop :=
  message = js "AI service quota exceeded. Please try again in a few moments."
  ∨ message = js "AI service is busy. Please try again shortly.".

(** The status of the outer handler's answer to an exception that is not
    of the quota kind. *)
Definition generic_status (e : thrown) : Z :=
  match e with
  | ErrorObj _ message =>
      if Js.includes message (js "timeout") then 504
      else if Js.includes message (js "network") then 503
      else 500
  | NonError => 500
  end.

(** *** Token issuance *)

(** Letters, digits, hyphen and underscore. *)
Definition identifier_char (c : N) : Prop :=
  (97 ≤ c ≤ 122 ∨ 65 ≤ c ≤ 90 ∨ 48 ≤ c ≤ 57 ∨ c = 45 ∨ c = 95)%N.

(** A non-empty string of such characters. *)
Definition identifier (s : jsstring) : Prop :=
  s ≠ [] ∧ Forall identifier_char s.

(** Both fields of the body are present and are identifiers. *)
Definition both_identifiers (roomName participantName : option jsstring) : Prop :=
  ∃ room part, roomName = Some room ∧ participantName = Some part
               ∧ identifier room ∧ identifier part.

(** The provider configuration is present: key, secret and a WebSocket URL. *)
Definition configured (env : TokenRoute.Env) : Prop :=
  ∃ key secret wsUrl,
    TokenRoute.LIVEKIT_API_KEY env = Some key ∧ key ≠ []
    ∧ TokenRoute.LIVEKIT_API_SECRET env = Some secret ∧ secret ≠ []
    ∧ TokenRoute.NEXT_PUBLIC_LIVEKIT_URL env = Some wsUrl
    ∧ (Js.startsWith wsUrl (js "ws://") = true
       ∨ Js.startsWith wsUrl (js "wss://") = true).

(** *** Client controller *)

(** The message [addMessage] appends at instant [now] when [n] identifiers
    have been drawn. *)
Definition message_of {browser : Browser} (n : nat) (now : Z) (text : jsstring)
    (role : UseChat.Role) : UseChat.Message :=
  {| UseChat.id := uuidv4 n; UseChat.text := text; UseChat.role := role;
     UseChat.timestamp := Some now |}.

(** An answer that the controller takes for a rate-limit condition: not in
    the 2xx range, with an [error] text containing "Quota exceeded" or
    "rate limit". *)
Definition taken_for_rate_limit (r : ChatRoute.Response) : Prop :=
  UseChat.ok r = false
  ∧ (Js.includes (Js.orElse (ChatRoute.error (ChatRoute.body r))
                    (js "Failed to get response from chat API"))
       (js "Quota exceeded")
     || Js.includes (Js.orElse (ChatRoute.error (ChatRoute.body r))
                       (js "Failed to get response from chat API"))
          (js "rate limit")) = true.

(** The texts of the controller's rate-limit messages. *)
Definition retry_notice (seconds attempt : Z) : jsstring :=
  [9203%N] ++ js " Rate limit reached. Retrying in " ++ Js.toString seconds
  ++ js " seconds... (" ++ Js.toString attempt ++ js "/"
  ++ Js.toString UseChat.MAX_RETRIES ++ js ")".

Definition too_many_requests_notice : jsstring :=
  [9888%N; 65039%N] ++ js " Too many requests! Please wait 30 seconds and try again.".

(** ** Sample inputs *)

Definition client_a : jsstring := js "203.0.113.7".
Definition client_b : jsstring := js "198.51.100.2".

(** A window of [client_a] with traffic of another client and a sweep in
    between, and a last check at the reset instant. *)
Definition sample_window : list event :=
  [Probe 10 client_a; Sweep 20; Probe 30 client_b; Probe 60000 client_a].

(** Nine more checks at the opening instant, then one at the reset instant. *)
Definition burst_then_reset_instant : list event :=
  replicate 9 (Probe 0 client_a) ++ [Probe 60000 client_a].

(** A token window used up, resetting at instant 60000. *)
Definition exhausted_window : gmap jsstring RateRecord :=
  {[ client_a := {| count := 20; resetTime := 60000 |} ]}.

Definition sample_uri : jsstring := js "data:audio/webm;base64,GkXfo59ChoEB".

Definition sample_blob : UseChat.Blob :=
  {| UseChat.type := js "audio/webm"; UseChat.base64 := js "GkXfo59ChoEB" |}.

Definition sample_request : ChatRoute.Request :=
  {| ChatRoute.xForwardedFor := Some client_a; ChatRoute.xRealIp := None;
     ChatRoute.json := Returned (Some sample_uri) |}.

(** A chat request without the [audioDataUri] field. *)
Definition request_without_audio : ChatRoute.Request :=
  {| ChatRoute.xForwardedFor := Some client_a; ChatRoute.xRealIp := None;
     ChatRoute.json := Returned None |}.

(** Collaborators that answer every call the same way. *)
Definition scriptedFlows (t g : outcome jsstring) (m : outcome (option jsstring))
    (w : outcome jsstring) : AiFlows :=
  {| transcribeUserSpeech := λ _, t; generateAIResponse := λ _, g;
     aiGenerateSpeech := λ _, m; toWav := λ _, w |}.

(** The transcription stage times out. *)
Definition timeoutFlows : AiFlows :=
  scriptedFlows (Thrown (newError (js "upstream timeout")))
                (Returned (js "Hello!")) (Returned None) (Returned []).

(** The response-generation stage meets the provider's quota. *)
Definition quotaFlows : AiFlows :=
  scriptedFlows (Returned (js "what time is it"))
                (Thrown (newError (js "[429 Too Many Requests] quota exceeded")))
                (Returned None) (Returned []).

(** Silence. *)
Definition silentFlows : AiFlows :=
  scriptedFlows (Returned (js "  ")) (Returned (js "Hello!"))
                (Returned None) (Returned []).

(** The speech stage produces no media. *)
Definition muteFlows : AiFlows :=
  scriptedFlows (Returned (js "what time is it")) (Returned (js "Noon."))
                (Returned None) (Returned []).

(** Every stage answers. *)
Definition workingFlows : AiFlows :=
  scriptedFlows (Returned (js "what time is it")) (Returned (js "Noon."))
                (Returned (Some (js "data:audio/L16;base64,AAAA")))
                (Returned (js "UklGRg==")).

(** A browser that numbers the identifiers it draws and plays every audio. *)
Definition scriptedBrowser : Browser :=
  {| uuidv4 := λ n, js "id-" ++ Js.toString (Z.of_nat n);
     audioPlay := λ _, None |}.

(** An answer outside the 2xx range that carries a rate-limit wording. *)
Definition rate_limit_reply : ChatRoute.Response :=
  ChatRoute.respond 500 (ChatRoute.errorJson (js "Quota exceeded for this project")).

Definition sample_env : TokenRoute.Env :=
  {| TokenRoute.LIVEKIT_API_KEY := Some (js "APIkey");
     TokenRoute.LIVEKIT_API_SECRET := Some (js "secret");
     TokenRoute.NEXT_PUBLIC_LIVEKIT_URL := Some (js "wss://voice.example.livekit.cloud") |}.

(** A signer that always returns. *)
Definition scriptedSdk : LiveKitSdk :=
  {| toJwt := λ at_, Returned (js "jwt." ++ identity at_ ++ js "." ++ room (grant at_)) |}.

Definition token_request (roomName participantName : option jsstring)
    : TokenRoute.Request :=
  {| TokenRoute.xForwardedFor := Some client_a; TokenRoute.xRealIp := None;
     TokenRoute.json := Returned (roomName, participantName) |}.

(** ** Further vocabulary *)

(** The instant of an event. *)
Definition event_time (ev : event) : Z :=
  match ev with
  | Probe now _ => now
  | Sweep now => now
  end.

(** No record resets later than a window length after [now]. *)
Definition resets_within (now : Z) (counts : gmap jsstring RateRecord) : Prop :=
  ∀ (k : jsstring) r, counts !! k = Some r → resetTime r ≤ now + TIME_WINDOW.

(** [response.headers.get(name)] on an answer of the chat route. *)
Definition chat_header (name : string) (r : ChatRoute.Response)
    : option ChatRoute.HeaderValue :=
  snd <$> List.find (λ h, String.eqb h.1 name) (ChatRoute.headers r).

(** The body carries an audio data URI: the field is there and starts with
    the audio prefix. *)
Definition audio_uri (field : option jsstring) : Prop :=
  ∃ uri, field = Some uri ∧ Js.startsWith uri (js "data:audio/") = true.

(** A JSON value, by what the guards of the chat route observe of it: its
    kind and, for [!value], whether it is falsy ([null], [false], the number
    0, the empty string). [JStructured] is an object or an array. *)
Inductive JsonValue :=
| JNull
| JBool (b : bool)
| JNumber (isZero : bool)
| JString (s : jsstring)
| JStructured.

(** [!!value] *)
Definition truthyValue (v : JsonValue) : bool :=
  match v with
  | JNull => false
  | JBool b => b
  | JNumber isZero => negb isZero
  | JString s => Js.truthy s
  | JStructured => true
  end.

(** What [audioDataUri.startsWith('data:audio/')] throws on a value without
    that method, with the message of the route's runtime. *)
Definition startsWithTypeError : thrown :=
  ErrorObj (js "TypeError") (js "audioDataUri.startsWith is not a function").

(** [const { audioDataUri } = await req.json()] on a body that is a JSON
    object whose [audioDataUri] is [field] ([None]: absent), as the two
    guards that follow it use the value and as [ChatRoute.Request] holds
    it: a falsy value, whatever its kind, is missing for [!audioDataUri];
    a truthy value that is not a string has no [startsWith], so the second
    guard throws, inside the handler's outer [try]. *)
Definition readAudioDataUri (field : option JsonValue) : outcome (option jsstring) :=
  match field with
  | None => Returned None
  | Some (JString s) => Returned (Some s)
  | Some v => if truthyValue v then Thrown startsWithTypeError else Returned None
  end.

(** The field is absent or falsy. *)
Definition falsy_field (field : option JsonValue) : Prop :=
  match field with
  | None => True
  | Some v => truthyValue v = false
  end.

(** The field is a non-empty string without the audio prefix. *)
Definition lacks_audio_prefix (field : option JsonValue) : Prop :=
  ∃ s, field = Some (JString s) ∧ s ≠ []
       ∧ Js.startsWith s (js "data:audio/") = false.

(** The field is truthy and not a string: a non-zero number, [true], an
    object or an array. *)
Definition truthy_non_string (field : option JsonValue) : Prop :=
  ∃ v, field = Some v ∧ truthyValue v = true ∧ ∀ s, v ≠ JString s.

(** Two sets of collaborators answer alike along the chain of a request for
    [uri]: the transcription of [uri]; when it has content, the reply to it;
    when that has content, the speech for it. *)
Definition agree_along_chain (flows flows' : AiFlows) (uri : jsstring) : Prop :=
  transcribeUserSpeech (AiFlows := flows) uri
  = transcribeUserSpeech (AiFlows := flows') uri
  ∧ ∀ T, transcribeUserSpeech (AiFlows := flows) uri = Returned T →
         Js.trim T ≠ [] →
         generateAIResponse (AiFlows := flows) T
         = generateAIResponse (AiFlows := flows') T
         ∧ ∀ R, generateAIResponse (AiFlows := flows) T = Returned R →
                Js.trim R ≠ [] →
                convertTextToSpeech (flows := flows) R
                = convertTextToSpeech (flows := flows') R.

(** Collaborators that answer as [workingFlows] only along the chain of
    [sample_uri]: any other audio fails to transcribe, any other
    transcription gets another reply, any other reply gets no media. *)
Definition pickyFlows : AiFlows :=
  {| transcribeUserSpeech := λ uri,
       if bool_decide (uri = sample_uri) then Returned (js "what time is it")
       else Thrown (newError (js "unsupported audio"));
     generateAIResponse := λ T,
       if bool_decide (T = js "what time is it") then Returned (js "Noon.")
       else Returned (js "Pardon?");
     aiGenerateSpeech := λ R,
       if bool_decide (R = js "Noon.")
       then Returned (Some (js "data:audio/L16;base64,AAAA"))
       else Returned None;
     toWav := λ _, Returned (js "UklGRg==") |}.

(** A chat request whose [audioDataUri] is a number. *)
Definition request_with_number : ChatRoute.Request :=
  {| ChatRoute.xForwardedFor := Some client_a; ChatRoute.xRealIp := None;
     ChatRoute.json := readAudioDataUri (Some (JNumber false)) |}.

(** A chat request whose body is not JSON. *)
Definition unparsable_request : ChatRoute.Request :=
  {| ChatRoute.xForwardedFor := Some client_a; ChatRoute.xRealIp := None;
     ChatRoute.json :=
       Thrown (ErrorObj (js "SyntaxError") (js "Unexpected end of JSON input")) |}.

(** The reply is empty. *)
Definition speechlessFlows : AiFlows :=
  scriptedFlows (Returned (js "what time is it")) (Returned (js " "))
                (Returned None) (Returned []).

(** Ten checks of [client_a] at instant 0: its chat window is used up. *)
Definition ten_probes : list event := replicate 10 (Probe 0 client_a).

(** ** GET /api/token *)

Module TokenHealth.

Record Json := {
  status : jsstring;
  configured : bool;
  url : jsstring;
  credentials : jsstring;
  timestamp : Z;
}.

(** Truthiness of [process.env.X]. *)
Definition set (v : option jsstring) : bool :=
  match v with
  | Some s => Js.truthy s
  | None => false
  end.

(** [export async function GET(req)]; the answer's HTTP status is 200 on
    every path. *)
Definition GET (env : TokenRoute.Env) (sent : Z) : Json :=
  let apiKey := TokenRoute.LIVEKIT_API_KEY env in
  let apiSecret := TokenRoute.LIVEKIT_API_SECRET env in
  let wsUrl := TokenRoute.NEXT_PUBLIC_LIVEKIT_URL env in
  let isConfigured := set apiKey && set apiSecret && set wsUrl in
  {| status := if isConfigured then js "ok" else js "misconfigured";
     configured := isConfigured;
     url := if set wsUrl then [9989%N] ++ js " Set" else [10060%N] ++ js " Missing";
     credentials := if set apiKey && set apiSecret
                    then [9989%N] ++ js " Set" else [10060%N] ++ js " Missing";
     timestamp := sent |}.

End TokenHealth.

(** ** The widget's identifiers *)

Module Widget.

(** [const roomName = 'landing-voice-ai-room'] *)
Definition roomName : jsstring := js "landing-voice-ai-room".

(** [const participantName = `user-${uuidv4()}`], for the [n]-th identifier
    drawn. *)
Definition participantName {browser : Browser} (n : nat) : jsstring :=
  js "user-" ++ uuidv4 n.

End Widget.

(** The characters of a UUID: lower-case hexadecimal digits and hyphens. *)
Definition uuid_char (c : N) : Prop :=
  (48 ≤ c ≤ 57 ∨ 97 ≤ c ≤ 102 ∨ c = 45)%N.

(** A key without its secret. *)
Definition half_env : TokenRoute.Env :=
  {| TokenRoute.LIVEKIT_API_KEY := Some (js "APIkey");
     TokenRoute.LIVEKIT_API_SECRET := None;
     TokenRoute.NEXT_PUBLIC_LIVEKIT_URL := Some (js "wss://voice.example.livekit.cloud") |}.

(** A browser whose identifiers have the UUID shape. *)
Definition uuidBrowser : Browser :=
  {| uuidv4 := λ n, js "3f2a9c1e-0000-4000-8000-" ++ Js.toString (Z.of_nat n);
     audioPlay := λ _, None |}.

(** ** The rest of the client controller *)

(** [newRoom.connect(url, token)] of the media-session client: it resolves,
    or rejects with what it throws. *)
Class MediaSession := { roomConnect : jsstring → jsstring → option thrown }.

(** The base64 rendering of a blob's bytes, as [readAsDataURL] produces it. *)
Class Base64 := { toBase64 : list N → jsstring }.

Module Hook.

(** [canMakeRequest()] at instant [now]: whether a request may be made, and
    the state it leaves. *)
Definition canMakeRequest {browser : Browser} (now : Z) (st : UseChat.State)
    : bool * UseChat.State :=
  let timeSinceLastRequest := now - UseChat.lastRequestTime st in
  if timeSinceLastRequest <? UseChat.RATE_LIMIT_COOLDOWN then
    let waitSeconds :=
      Js.ceilDiv (UseChat.RATE_LIMIT_COOLDOWN - timeSinceLastRequest) 1000 in
    (false,
     UseChat.addMessage now
       ([9203%N] ++ js " Please wait " ++ Js.toString waitSeconds
        ++ js " seconds before sending another message.")
       UseChat.assistant st)
  else (true, st).

(** [updateTimer] of [startCooldownTimer], run at instant [now]: the value
    it gives to [cooldownRemaining] and whether it sets its next timer. *)
Definition updateTimer (endTime now : Z) : Z * bool :=
  let remaining := Z.max 0 (Js.ceilDiv (endTime - now) 1000) in
  (remaining, 0 <? remaining).

(** The values [cooldownRemaining] takes, from the update at [now] on, when
    the successive one-second timers fire after [delays]. *)
Fixpoint countdown (endTime now : Z) (delays : list Z) : list Z :=
  let '(remaining, again) := updateTimer endTime now in
  remaining ::
    (if again then
       match delays with
       | [] => []
       | d :: later => countdown endTime (now + d) later
       end
     else []).

(** [response.ok] on an answer of the token route. *)
Definition ok (r : TokenRoute.Response) : bool :=
  (200 <=? TokenRoute.status r) && (TokenRoute.status r <=? 299).

(** [getLiveKitInfo()], given what [fetch('/api/token', ...)] answers: the
    body it returns ([None] for [null]) and the state it leaves. *)
Definition getLiveKitInfo (answer : outcome TokenRoute.Response)
    (st : UseChat.State) : option TokenRoute.Json * UseChat.State :=
  match answer with
  | Thrown e => (None, UseChat.onError e st)
  | Returned response =>
      if negb (ok response) then
        let errorData := TokenRoute.body response in
        (None,
         UseChat.onError
           (newError (Js.orElse (TokenRoute.error errorData)
                        (js "Failed to fetch LiveKit info")))
           st)
      else (Some (TokenRoute.body response), st)
  end.

(** The hook's state beyond what [sendAudioToApi] touches: the room ([None]
    for [null], else the URL and token it was connected with), the flags
    and the refs of a recording. *)
Record Session := {
  chat : UseChat.State;
  room : option (jsstring * jsstring);
  isConnected : bool;
  isRecording : bool;
  mediaRecorder : bool;
  audioChunks : list (list N);
  localAudioTrack : bool;
}.

Definition initial : Session :=
  {| chat := UseChat.initial; room := None; isConnected := false;
     isRecording := false; mediaRecorder := false; audioChunks := [];
     localAudioTrack := false |}.

Definition withChat (c : UseChat.State) (s : Session) : Session :=
  {| chat := c; room := room s; isConnected := isConnected s;
     isRecording := isRecording s; mediaRecorder := mediaRecorder s;
     audioChunks := audioChunks s; localAudioTrack := localAudioTrack s |}.

(** [liveKitInfo.token] and [liveKitInfo.url], when both are there and
    non-empty. *)
Definition connectionInfo (info : option TokenRoute.Json)
    : option (jsstring * jsstring) :=
  match info with
  | Some data =>
      match TokenRoute.credential data with
      | Some c =>
          if Js.truthy (TokenRoute.token c) && Js.truthy (TokenRoute.url c)
          then Some (TokenRoute.url c, TokenRoute.token c)
          else None
      | None => None
      end
  | None => None
  end.

(** [connect()], given what the token route answers. The [Connected] event
    of a room that connects sets [isConnected]. *)
Definition connect {media : MediaSession} (answer : outcome TokenRoute.Response)
    (s : Session) : Session :=
  let '(liveKitInfo, c) := getLiveKitInfo answer (chat s) in
  match connectionInfo liveKitInfo with
  | None =>
      withChat (UseChat.onError (newError (js "Missing token or LiveKit URL.")) c) s
  | Some (url, token) =>
      match roomConnect url token with
      | None =>
          {| chat := c; room := Some (url, token); isConnected := true;
             isRecording := isRecording s; mediaRecorder := mediaRecorder s;
             audioChunks := audioChunks s; localAudioTrack := localAudioTrack s |}
      | Some e => withChat (UseChat.onError e c) s
      end
  end.

(** The [catch] clause of [startRecording]. *)
Definition microphoneFailure {browser : Browser} (now : Z) (e : thrown)
    (c : UseChat.State) : UseChat.State :=
  UseChat.addMessage now
    ([10060%N] ++ js " Failed to access microphone. Please check permissions.")
    UseChat.assistant (UseChat.onError e c).

(** [startRecording()] at instant [now]. [mic], [publish], [recorder] and
    [started] are what [getUserMedia], [publishTrack], [new MediaRecorder]
    and [mediaRecorder.start()] do: they return, or throw. [isRecording] and
    [isThinking] are the values the callback closes over. *)
Definition startRecording {browser : Browser} (now : Z)
    (mic publish recorder started : outcome unit) (s : Session) : Session :=
  if negb (bool_decide (is_Some (room s))) || isRecording s
     || UseChat.isThinking (chat s)
  then s
  else
    let '(may, c) := canMakeRequest now (chat s) in
    if negb may then withChat c s
    else
      match mic with
      | Thrown e => withChat (microphoneFailure now e c) s
      | Returned _ =>
          match publish with
          | Thrown e => withChat (microphoneFailure now e c) s
          | Returned _ =>
              match recorder with
              | Thrown e =>
                  {| chat := microphoneFailure now e c; room := room s;
                     isConnected := isConnected s; isRecording := isRecording s;
                     mediaRecorder := mediaRecorder s;
                     audioChunks := audioChunks s; localAudioTrack := true |}
              | Returned _ =>
                  match started with
                  | Thrown e =>
                      {| chat := microphoneFailure now e c; room := room s;
                         isConnected := isConnected s;
                         isRecording := isRecording s; mediaRecorder := true;
                         audioChunks := audioChunks s; localAudioTrack := true |}
                  | Returned _ =>
                      {| chat := c; room := room s; isConnected := isConnected s;
                         isRecording := true; mediaRecorder := true;
                         audioChunks := audioChunks s; localAudioTrack := true |}
                  end
              end
          end
      end.

(** [mediaRecorder.ondataavailable] *)
Definition onDataAvailable (data : list N) (s : Session) : Session :=
  if 0 <? Z.of_nat (length data) then
    {| chat := chat s; room := room s; isConnected := isConnected s;
       isRecording := isRecording s; mediaRecorder := mediaRecorder s;
       audioChunks := audioChunks s ++ [data]; localAudioTrack := localAudioTrack s |}
  else s.

(** [new Blob(audioChunksRef.current, {type: 'audio/webm'})] *)
Definition recordedBlob {codec : Base64} (chunks : list (list N)) : UseChat.Blob :=
  {| UseChat.type := js "audio/webm"; UseChat.base64 := toBase64 (concat chunks) |}.

(** [stopRecording()], with the events of the recorder it stops run to
    completion: the recorder hands over [final], the data it still holds,
    then its [onstop] handler builds the blob, empties the chunks and calls
    [sendAudioToApi] at instant [now]. *)
Definition stopRecording {browser : Browser} {codec : Base64}
    (fetch : jsstring → outcome ChatRoute.Response) (now landed : Z)
    (final : list N) (s : Session) : Session :=
  if mediaRecorder s && isRecording s then
    let s := onDataAvailable final s in
    let audioBlob := recordedBlob (audioChunks s) in
    {| chat := UseChat.sendAudioToApi fetch now landed audioBlob 0 (chat s);
       room := room s; isConnected := isConnected s; isRecording := false;
       mediaRecorder := mediaRecorder s; audioChunks := [];
       localAudioTrack := false |}
  else s.

End Hook.

(** A media session that accepts every connection. *)
Definition openMedia : MediaSession := {| roomConnect := λ _ _, None |}.

(** A stand-in rendering for the worked instances: two code units a byte. *)
Definition sampleCodec : Base64 :=
  {| toBase64 := λ bytes, flat_map (λ b, [N.div b 16 + 65; N.modulo b 16 + 65]%N) bytes |}.

(** A session connected to a room, idle. *)
Definition connected_session : Hook.Session :=
  {| Hook.chat := UseChat.initial;
     Hook.room := Some (js "wss://voice.example.livekit.cloud", js "jwt");
     Hook.isConnected := true; Hook.isRecording := false;
     Hook.mediaRecorder := false; Hook.audioChunks := [];
     Hook.localAudioTrack := false |}.

(** The text of the cooldown message. *)
Definition wait_notice (waitSeconds : Z) : jsstring :=
  [9203%N] ++ js " Please wait " ++ Js.toString waitSeconds
  ++ js " seconds before sending another message.".

(** What the [try] block of [sendAudioToApi] raises on an answer: what
    [fetch] rejects with, or, for an answer outside the 2xx range, the error
    made from its [error] text. *)
Definition raised_by (answer : outcome ChatRoute.Response) (e : thrown) : Prop :=
  answer = Thrown e
  ∨ ∃ r, answer = Returned r ∧ UseChat.ok r = false
         ∧ e = if Js.includes
                    (Js.orElse (ChatRoute.error (ChatRoute.body r))
                       (js "Failed to get response from chat API"))
                    (js "Quota exceeded")
                  || Js.includes
                       (Js.orElse (ChatRoute.error (ChatRoute.body r))
                          (js "Failed to get response from chat API"))
                       (js "rate limit")
                then UseChat.rateLimitError
                else newError
                       (Js.orElse (ChatRoute.error (ChatRoute.body r))
                          (js "Failed to get response from chat API")).

(** A state that has just dispatched, at instant 1000. *)
Definition just_dispatched : UseChat.State :=
  UseChat.sendAudioToApi (browser := scriptedBrowser)
    (λ _, Returned (ChatRoute.respond 200 (ChatRoute.replyJson [] [] [])))
    1000 1200 sample_blob 0 UseChat.initial.

(** What [getLiveKitInfo] reports for an answer that gives no connection
    info: what [fetch] rejects with, or, for an answer outside the 2xx
    range, the error made from its [error] text. *)
Definition token_refusal (answer : outcome TokenRoute.Response) (e : thrown) : Prop :=
  answer = Thrown e
  ∨ ∃ r, answer = Returned r ∧ Hook.ok r = false
         ∧ e = newError (Js.orElse (TokenRoute.error (TokenRoute.body r))
                           (js "Failed to fetch LiveKit info")).

(** The first of the four steps of [startRecording] that throws, and what
    it throws. *)
Definition first_failure (mic publish recorder started : outcome unit)
    (e : thrown) : Prop :=
  mic = Thrown e
  ∨ (mic = Returned () ∧ publish = Thrown e)
  ∨ (mic = Returned () ∧ publish = Returned () ∧ recorder = Thrown e)
  ∨ (mic = Returned () ∧ publish = Returned () ∧ recorder = Returned ()
     ∧ started = Thrown e).

(** A session that may start recording at [now]: connected to a room, idle,
    its cooldown over. *)
Definition may_record (now : Z) (s : Hook.Session) : Prop :=
  is_Some (Hook.room s)
  ∧ Hook.isRecording s = false
  ∧ UseChat.isThinking (Hook.chat s) = false
  ∧ UseChat.lastRequestTime (Hook.chat s) + 5000 ≤ now.

(** The recorder's [dataavailable] events, in order. *)
Definition record (chunks : list (list N)) (s : Hook.Session) : Hook.Session :=
  foldl (λ s data, Hook.onDataAvailable data s) s chunks.

(** The text of the message of [startRecording]'s [catch] clause. *)
Definition microphone_notice : jsstring :=
  [10060%N] ++ js " Failed to access microphone. Please check permissions.".

(** The value that an update of the countdown shows at [now]. *)
Definition seconds_left (endTime now : Z) : Z :=
  Z.max 0 (Js.ceilDiv (endTime - now) 1000).

(** A microphone permission that is denied. *)
Definition notAllowed : thrown :=
  ErrorObj (js "NotAllowedError") (js "Permission denied").

(** Whether a step returned. *)
Definition returned {A : Type} (o : outcome A) : bool :=
  match o with
  | Returned _ => true
  | Thrown _ => false
  end.

(** * Properties *)

(** ** The rate limiter *)

Lemma checkRateLimit_fixedWindow :
  ChatRoute.checkRateLimit = fixedWindowCheck ChatRoute.REQUEST_LIMIT.
Proof. reflexivity. Qed.

Lemma checkTokenRateLimit_fixedWindow :
  TokenRoute.checkTokenRateLimit = fixedWindowCheck TokenRoute.TOKEN_REQUEST_LIMIT.
Proof. reflexivity. Qed.

Lemma purge_lookup (now : Z) (counts : gmap jsstring RateRecord) (k : jsstring) :
  purgeExpired now counts !! k =
    match counts !! k with
    | Some r => if decide (now > resetTime r) then None else Some r
    | None => None
    end.
Proof.
  unfold purgeExpired. rewrite map_lookup_filter.
  destruct (counts !! k) as [r|]; simpl; [|done].
  destruct (decide (now > resetTime r)).
  - rewrite option_guard_False; [done|]. simpl. tauto.
  - rewrite option_guard_True; [done|]. done.
Qed.

(** [lia] with the [>=?] tests of the source turned into [<=?]. *)
Ltac zlia :=
  rewrite ?Z.geb_leb in *;
  repeat match goal with
    | H : (_ <=? _) = true |- _ => apply Z.leb_le in H
    | H : (_ <=? _) = false |- _ => apply Z.leb_gt in H
    | |- (_ <=? _) = true => apply Z.leb_le
    | |- (_ <=? _) = false => apply Z.leb_gt
    end;
  lia.

Section FixedWindowFacts.

Variable limit : Z.
Hypothesis limit_pos : 1 ≤ limit.

Lemma check_fresh (now : Z) (key : jsstring) (counts : gmap jsstring RateRecord) :
  expired now (counts !! key) →
  fixedWindowCheck limit now key counts =
    ({| allowed := true; remaining := limit - 1; resetIn := TIME_WINDOW |},
     <[key := {| count := 1; resetTime := now + TIME_WINDOW |}]> counts).
Proof.
  unfold fixedWindowCheck, expired.
  destruct (counts !! key) as [r|] eqn:E; intros Hexp.
  - assert ((now >? resetTime r) = true) as -> by lia.
    rewrite lookup_delete_eq. by rewrite insert_delete_eq.
  - by rewrite E.
Qed.

Lemma check_live (now : Z) (key : jsstring) (counts : gmap jsstring RateRecord) r :
  counts !! key = Some r → now ≤ resetTime r →
  fixedWindowCheck limit now key counts =
    if count r >=? limit then
      ({| allowed := false; remaining := 0;
          resetIn := Z.max 0 (resetTime r - now) |}, counts)
    else
      ({| allowed := true; remaining := limit - (count r + 1);
          resetIn := resetTime r - now |},
       <[key := {| count := count r + 1; resetTime := resetTime r |}]> counts).
Proof.
  intros E Hlive. unfold fixedWindowCheck. rewrite E.
  assert ((now >? resetTime r) = false) as -> by lia.
  rewrite E. reflexivity.
Qed.

Lemma check_other (now : Z) (key k : jsstring) (counts : gmap jsstring RateRecord) :
  k ≠ key → (fixedWindowCheck limit now key counts).2 !! k = counts !! k.
Proof.
  intros Hne. unfold fixedWindowCheck.
  set (counts1 := match counts !! key with
                  | Some r => if now >? resetTime r then delete key counts else counts
                  | None => counts end).
  assert (counts1 !! k = counts !! k) as H1.
  { subst counts1. destruct (counts !! key) as [r|]; [|done].
    destruct (now >? resetTime r); [|done]. by rewrite lookup_delete_ne. }
  destruct (counts1 !! key) as [c|]; simpl.
  - destruct (count c >=? limit); simpl; [done|]. by rewrite lookup_insert_ne.
  - by rewrite lookup_insert_ne.
Qed.

(** While the record of [key] is live, its checks are answered from it: the
    [i]-th of them is allowed as long as the count it finds is below the
    ceiling. *)
Lemma answers_live (key : jsstring) (evs : list event) :
  ∀ (counts : gmap jsstring RateRecord) r,
    counts !! key = Some r →
    Forall (λ ev, match ev with
                  | Probe t k => k = key → t ≤ resetTime r
                  | Sweep t => t ≤ resetTime r
                  end) evs →
    ∀ (i : nat) t a,
      answers (fixedWindowCheck limit) key evs counts !! i = Some (t, a) →
      t ≤ resetTime r ∧
      a = if count r + Z.of_nat i >=? limit then
            {| allowed := false; remaining := 0;
               resetIn := Z.max 0 (resetTime r - t) |}
          else
            {| allowed := true; remaining := limit - (count r + Z.of_nat i + 1);
               resetIn := resetTime r - t |}.
Proof.
  induction evs as [|ev evs IH]; intros counts r Hk Hwin i t a Hi.
  - discriminate.
  - apply Forall_cons in Hwin as [Hev Hwin].
    destruct ev as [now k|now]; simpl in Hi.
    + destruct (decide (k = key)) as [->|Hne].
      * specialize (Hev eq_refl).
        pose proof (check_live now key counts r Hk Hev) as Hstep.
        destruct i as [|i]; simpl in Hi.
        -- inversion Hi; subst t a. split; [done|].
           rewrite Hstep. replace (count r + Z.of_nat 0) with (count r) by lia.
           destruct (count r >=? limit); reflexivity.
        -- rewrite Hstep in Hi.
           destruct (count r >=? limit) eqn:Hc; simpl in Hi.
           ++ destruct (IH counts r Hk Hwin i t a Hi) as [Ht Ha].
              split; [done|]. rewrite Ha.
              assert ((count r + Z.of_nat i >=? limit) = true) as -> by zlia.
              assert ((count r + Z.of_nat (S i) >=? limit) = true) as -> by zlia.
              reflexivity.
           ++ set (r' := {| count := count r + 1; resetTime := resetTime r |}) in *.
              assert (<[key := r']> counts !! key = Some r') as Hk'
                by apply lookup_insert_eq.
              destruct (IH _ r' Hk' Hwin i t a Hi) as [Ht Ha].
              split; [done|]. rewrite Ha. simpl.
              replace (count r + 1 + Z.of_nat i) with (count r + Z.of_nat (S i)) by lia.
              reflexivity.
      * eapply IH; [|exact Hwin|exact Hi]. simpl. by rewrite check_other.
    + eapply IH; [|exact Hwin|exact Hi]. simpl. rewrite purge_lookup, Hk.
      by rewrite decide_False by lia.
Qed.

(** A window opened at [t0]: the opening check and everything that follows
    it up to the reset instant. *)
Lemma answers_window (key : jsstring) (t0 : Z) (evs : list event)
    (counts : gmap jsstring RateRecord) (i : nat) t a :
  expired t0 (counts !! key) →
  Forall (in_window t0 key) evs →
  answers (fixedWindowCheck limit) key (Probe t0 key :: evs) counts !! i = Some (t, a) →
  t0 ≤ t ≤ t0 + TIME_WINDOW ∧
  a = if Z.of_nat i >=? limit then
        {| allowed := false; remaining := 0;
           resetIn := Z.max 0 (t0 + TIME_WINDOW - t) |}
      else
        {| allowed := true; remaining := limit - (Z.of_nat i + 1);
           resetIn := t0 + TIME_WINDOW - t |}.
Proof using limit_pos.
  intros Hexp Hwin Hi. simpl in Hi. rewrite decide_True in Hi by done.
  rewrite (check_fresh _ _ _ Hexp) in Hi. simpl in Hi.
  destruct i as [|i]; simpl in Hi.
  - inversion Hi; subst t a. unfold TIME_WINDOW. split; [lia|].
    assert ((Z.of_nat 0 >=? limit) = false) as -> by zlia.
    f_equal; lia.
  - set (r := {| count := 1; resetTime := t0 + TIME_WINDOW |}) in *.
    assert (<[key := r]> counts !! key = Some r) as Hk by apply lookup_insert_eq.
    assert (Forall (λ ev, match ev with
                          | Probe t k => k = key → t ≤ resetTime r
                          | Sweep t => t ≤ resetTime r
                          end) evs) as Hwin'.
    { eapply Forall_impl; [exact Hwin|]. intros [now k|now]; simpl; [|done].
      intros H E. specialize (H E). lia. }
    destruct (answers_live key evs _ r Hk Hwin' i t a Hi) as [Ht Ha].
    assert (t0 ≤ t) as Hlo.
    { clear -Hi Hwin. revert Hi. generalize (<[key:=r]> counts). revert i.
      induction evs as [|ev evs IH]; intros i m Hi; [discriminate|].
      apply Forall_cons in Hwin as [Hev Hwin].
      destruct ev as [now k|now]; simpl in Hi; [|by eapply IH].
      destruct (decide (k = key)) as [E|]; [|by eapply IH].
      destruct i as [|i]; simpl in Hi; [|by eapply IH].
      inversion Hi; subst. specialize (Hev eq_refl). lia. }
    simpl in Ht. split; [lia|]. rewrite Ha. simpl.
    replace (1 + Z.of_nat i) with (Z.of_nat (S i)) by lia.
    reflexivity.
Qed.

(** No stored count leaves the interval from one to the ceiling. *)
Lemma step_within_ceiling (ev : event) (counts : gmap jsstring RateRecord) :
  within_ceiling limit counts →
  within_ceiling limit (step (fixedWindowCheck limit) ev counts).
Proof using limit_pos.
  intros Hinv k r. destruct ev as [now key|now]; simpl.
  - destruct (decide (k = key)) as [->|Hne].
    + destruct (counts !! key) as [r0|] eqn:E.
      * destruct (decide (now > resetTime r0)).
        -- rewrite check_fresh by (rewrite E; done). simpl.
           rewrite lookup_insert_eq. intros [= <-]. simpl. lia.
        -- rewrite (check_live _ _ _ r0 E) by lia.
           pose proof (Hinv _ _ E).
           destruct (count r0 >=? limit) eqn:Hc; simpl.
           ++ rewrite E. by intros [= <-].
           ++ rewrite lookup_insert_eq. intros [= <-]. simpl. zlia.
      * rewrite check_fresh by (rewrite E; done). simpl.
        rewrite lookup_insert_eq. intros [= <-]. simpl. lia.
    + rewrite check_other by done. apply Hinv.
  - rewrite purge_lookup. destruct (counts !! k) as [r0|] eqn:E; [|done].
    destruct (decide (now > resetTime r0)); [done|]. intros [= <-]. by eapply Hinv.
Qed.

Lemma run_within_ceiling (evs : list event) (counts : gmap jsstring RateRecord) :
  within_ceiling limit counts →
  within_ceiling limit (run (fixedWindowCheck limit) evs counts).
Proof using limit_pos.
  revert counts. induction evs as [|ev evs IH]; intros counts Hinv; [done|].
  simpl. apply IH. by apply step_within_ceiling.
Qed.

End FixedWindowFacts.

Lemma limiter_of_fixedWindow check N :
  limiter_of check N → check = fixedWindowCheck N ∧ 1 ≤ N.
Proof.
  intros [[-> ->]|[-> ->]]; (split; [reflexivity|]);
    unfold ChatRoute.REQUEST_LIMIT, TokenRoute.TOKEN_REQUEST_LIMIT; lia.
Qed.

(** C1, amended. In the window that a check of a key opens at [t0] (from
    [t0] to the reset instant [t0 + TIME_WINDOW], whatever the other keys
    and the sweep do meanwhile), the chat limiter with ceiling 10 and the
    token limiter with ceiling 20 allow exactly the first [N] checks of the
    key and deny every further one with [remaining = 0] and a [resetIn]
    between 0 and the window length; [resetIn] is strictly positive except
    for a check made exactly at the reset instant. From the empty map, no
    stored count ever exceeds [N]. *)
Theorem rate_limit_window
    (check : Z → jsstring → gmap jsstring RateRecord
             → RateResult * gmap jsstring RateRecord)
    (N : Z) (key : jsstring) (t0 : Z) (evs : list event)
    (counts : gmap jsstring RateRecord) :
  limiter_of check N →
  expired t0 (counts !! key) →
  Forall (in_window t0 key) evs →
  (∀ (i : nat) (t : Z) (a : RateResult),
     answers check key (Probe t0 key :: evs) counts !! i = Some (t, a) →
     (Z.of_nat i < N → allowed a = true) ∧
     (N ≤ Z.of_nat i →
        allowed a = false ∧ remaining a = 0 ∧
        0 ≤ resetIn a ≤ TIME_WINDOW ∧
        (0 < resetIn a ↔ t < t0 + TIME_WINDOW)))
  ∧ (∀ history : list event, within_ceiling N (run check history ∅)).
Proof.
  intros Hlim Hexp Hwin.
  destruct (limiter_of_fixedWindow _ _ Hlim) as [-> HN]. split.
  - intros i t a Hi.
    destruct (answers_window N HN key t0 evs counts i t a Hexp Hwin Hi) as [Ht Ha].
    split; intros Hi'.
    + assert ((Z.of_nat i >=? N) = false) as E by zlia.
      rewrite E in Ha. by rewrite Ha.
    + assert ((Z.of_nat i >=? N) = true) as E by zlia.
      rewrite E in Ha. rewrite Ha. simpl. repeat split; lia.
  - intros history. apply run_within_ceiling; [done|].
    intros k r. by rewrite lookup_empty.
Qed.

Lemma rate_limit_window_witness :
  (∀ (i : nat) (t : Z) (a : RateResult),
     answers ChatRoute.checkRateLimit client_a (Probe 0 client_a :: sample_window) ∅ !! i
       = Some (t, a) →
     (Z.of_nat i < 10 → allowed a = true) ∧
     (10 ≤ Z.of_nat i →
        allowed a = false ∧ remaining a = 0 ∧
        0 ≤ resetIn a ≤ TIME_WINDOW ∧
        (0 < resetIn a ↔ t < 0 + TIME_WINDOW)))
  ∧ (∀ history : list event,
       within_ceiling 10 (run ChatRoute.checkRateLimit history ∅)).
Proof.
  apply (rate_limit_window ChatRoute.checkRateLimit 10 client_a 0 sample_window ∅).
  - left. split; reflexivity.
  - rewrite lookup_empty. exact I.
  - unfold sample_window.
    repeat (apply Forall_cons; split); try apply Forall_nil;
      unfold in_window, TIME_WINDOW; lia.
Defined.

(** C1 as stated fails at the reset instant: after ten checks at instant 0,
    the check made at instant 60000 belongs to the same window (the record
    is not yet expired), and is denied with [resetIn = 0]. *)
Lemma rate_limit_reset_instant_counterexample :
  expired 0 ((∅ : gmap jsstring RateRecord) !! client_a)
  ∧ Forall (in_window 0 client_a) burst_then_reset_instant
  ∧ answers ChatRoute.checkRateLimit client_a
      (Probe 0 client_a :: burst_then_reset_instant) ∅ !! 10%nat
    = Some (60000, {| allowed := false; remaining := 0; resetIn := 0 |})
  ∧ ¬ (0 < resetIn {| allowed := false; remaining := 0; resetIn := 0 |}).
Proof.
  split; [|split; [|split]].
  - rewrite lookup_empty. exact I.
  - unfold burst_then_reset_instant. simpl.
    repeat (apply Forall_cons; split); try apply Forall_nil;
      unfold in_window, TIME_WINDOW; lia.
  - vm_compute. reflexivity.
  - simpl. lia.
Qed.

(** C8. A check of a key whose record is expired (the instant is strictly
    past the record's reset time) is allowed, with the remaining budget of a
    new window, and replaces the record by one with count 1 that resets a
    window length later; the answer and the new record are the same when a
    sweep, at whatever instant, has gone over the map before. *)
Theorem expired_window_restarts
    (check : Z → jsstring → gmap jsstring RateRecord
             → RateResult * gmap jsstring RateRecord)
    (N : Z) (key : jsstring) (now : Z) (counts : gmap jsstring RateRecord)
    (r : RateRecord) (swept : Z) :
  limiter_of check N →
  counts !! key = Some r →
  now > resetTime r →
  check now key counts =
    ({| allowed := true; remaining := N - 1; resetIn := TIME_WINDOW |},
     <[key := {| count := 1; resetTime := now + TIME_WINDOW |}]> counts)
  ∧ check now key (purgeExpired swept counts) =
    ({| allowed := true; remaining := N - 1; resetIn := TIME_WINDOW |},
     <[key := {| count := 1; resetTime := now + TIME_WINDOW |}]>
       (purgeExpired swept counts)).
Proof.
  intros Hlim Hk Hexp.
  destruct (limiter_of_fixedWindow _ _ Hlim) as [-> _]. split.
  - apply check_fresh. by rewrite Hk.
  - apply check_fresh. rewrite purge_lookup, Hk.
    destruct (decide (swept > resetTime r)); simpl; done.
Qed.

Lemma expired_window_restarts_witness :
  TokenRoute.checkTokenRateLimit 60001 client_a exhausted_window =
    ({| allowed := true; remaining := 20 - 1; resetIn := TIME_WINDOW |},
     <[client_a := {| count := 1; resetTime := 60001 + TIME_WINDOW |}]>
       exhausted_window)
  ∧ TokenRoute.checkTokenRateLimit 60001 client_a
      (purgeExpired 60001 exhausted_window) =
    ({| allowed := true; remaining := 20 - 1; resetIn := TIME_WINDOW |},
     <[client_a := {| count := 1; resetTime := 60001 + TIME_WINDOW |}]>
       (purgeExpired 60001 exhausted_window)).
Proof.
  apply (expired_window_restarts TokenRoute.checkTokenRateLimit 20 client_a 60001
           exhausted_window {| count := 20; resetTime := 60000 |} 60001).
  - right. split; reflexivity.
  - apply lookup_singleton_eq.
  - simpl. lia.
Defined.

(** ** The speech pipeline *)

Lemma startsWith_truthy (s p : jsstring) :
  Js.startsWith s p = true → p ≠ [] → Js.truthy s = true.
Proof. destruct s, p; simpl; congruence. Qed.

Lemma startsWith_app (p s : jsstring) : Js.startsWith (p ++ s) p = true.
Proof.
  induction p as [|c p IH]; [by destruct s|]. simpl. by rewrite N.eqb_refl, IH.
Qed.

(** The guard [!s || !s.trim()] of the route holds exactly for the strings
    that [trim] empties. *)
Lemma blank_guard (s : jsstring) :
  negb (Js.truthy s) || negb (Js.truthy (Js.trim s)) = bool_decide (Js.trim s = []).
Proof.
  destruct s as [|c s]; [reflexivity|]. simpl Js.truthy. simpl negb.
  rewrite orb_false_l. destruct (Js.trim (c :: s)); reflexivity.
Qed.

Section Pipeline.

Context {flows : AiFlows}.

(** Past the limiter and the validation, the handler is the pipeline with
    the outer [catch] around it. *)
Lemma POST_reaches_pipeline (now sent : Z) (req : ChatRoute.Request)
    (counts : gmap jsstring RateRecord) (uri : jsstring) :
  reaches_pipeline now req counts uri →
  ChatRoute.POST now sent req counts =
    let checked := ChatRoute.checkRateLimit now (ChatRoute.getRateLimitKey req) counts in
    match ChatRoute.pipeline sent checked.1 uri with
    | (calls, Returned r) =>
        {| ChatRoute.response := r; ChatRoute.calls := calls;
           ChatRoute.counts := checked.2 |}
    | (calls, Thrown e) =>
        {| ChatRoute.response := ChatRoute.failure sent e;
           ChatRoute.calls := calls; ChatRoute.counts := checked.2 |}
    end.
Proof.
  intros (Hallowed & Hjson & Hprefix). unfold ChatRoute.POST.
  destruct (ChatRoute.checkRateLimit now (ChatRoute.getRateLimitKey req) counts)
    as [limiter counts'] eqn:E.
  simpl in *. rewrite Hallowed, Hjson. simpl.
  rewrite (startsWith_truthy _ _ Hprefix) by discriminate.
  rewrite Hprefix. simpl.
  destruct (ChatRoute.pipeline sent limiter uri) as [calls [r|e]]; reflexivity.
Qed.

(** A failure of stage 1 or 2, as the pipeline sees it. *)
Lemma pipeline_stage_failure (sent : Z) (limiter : RateResult) (uri : jsstring)
    (e : thrown) :
  stage_failure uri e →
  ∃ message, quota_message message ∧
    (ChatRoute.pipeline sent limiter uri).2 =
      if ChatRoute.isQuotaError e then
        Returned (ChatRoute.respond 429 (ChatRoute.quotaJson message))
      else Thrown e.
Proof.
  intros [H1 | (T & H1 & HT & H2)]; unfold ChatRoute.pipeline; rewrite H1.
  - eexists. split; [left; reflexivity|].
    simpl. destruct (ChatRoute.isQuotaError e); reflexivity.
  - eexists. split; [right; reflexivity|].
    rewrite blank_guard, bool_decide_false by done. rewrite H2. simpl.
    destruct (ChatRoute.isQuotaError e); reflexivity.
Qed.

Lemma quota_message_response (sent : Z) (limiter : RateResult) (uri : jsstring)
    (e : thrown) :
  stage_failure uri e → ChatRoute.isQuotaError e = true →
  ∃ message, quota_message message ∧
    (ChatRoute.pipeline sent limiter uri).2 =
      Returned (ChatRoute.respond 429 (ChatRoute.quotaJson message)).
Proof.
  intros Hfail Hq.
  destruct (pipeline_stage_failure sent limiter uri e Hfail) as (m & Hm & Hp).
  rewrite Hq in Hp. eauto.
Qed.

Lemma failure_status (sent : Z) (e : thrown) :
  ChatRoute.isQuotaError e = false →
  ChatRoute.status (ChatRoute.failure sent e) = generic_status e
  ∧ ChatRoute.quotaExceeded (ChatRoute.body (ChatRoute.failure sent e)) = false.
Proof.
  destruct e as [name message|]; simpl; [|done].
  intros Hq. apply orb_false_elim in Hq as [Hq _].
  apply orb_false_elim in Hq as [Hquota Hrate].
  unfold ChatRoute.failure. rewrite Hquota, Hrate. simpl.
  destruct (Js.includes message (js "timeout")); [done|].
  destruct (Js.includes message (js "network")); done.
Qed.

(** C2, amended. When the transcription stage or the response-generation
    stage fails with an [Error] whose message contains "quota", "rate limit"
    or "429", the endpoint answers 429 with [quotaExceeded: true]. Any other
    exception of those stages reaches the outer handler and is answered
    without the flag: with 504 when its message contains "timeout", else
    with 503 when it contains "network", else with 500. *)
Theorem stage_failures_classified (now sent : Z) (req : ChatRoute.Request)
    (counts : gmap jsstring RateRecord) (uri : jsstring) (e : thrown) :
  reaches_pipeline now req counts uri →
  stage_failure uri e →
  (ChatRoute.isQuotaError e = true →
     ChatRoute.status (ChatRoute.response (ChatRoute.POST now sent req counts)) = 429
     ∧ ChatRoute.quotaExceeded
         (ChatRoute.body (ChatRoute.response (ChatRoute.POST now sent req counts)))
       = true)
  ∧ (ChatRoute.isQuotaError e = false →
     ChatRoute.response (ChatRoute.POST now sent req counts) = ChatRoute.failure sent e
     ∧ ChatRoute.quotaExceeded
         (ChatRoute.body (ChatRoute.response (ChatRoute.POST now sent req counts)))
       = false
     ∧ ChatRoute.status (ChatRoute.response (ChatRoute.POST now sent req counts))
       = generic_status e).
Proof.
  intros Hreach Hfail. rewrite (POST_reaches_pipeline _ _ _ _ _ Hreach). simpl.
  destruct (pipeline_stage_failure sent
              (ChatRoute.checkRateLimit now (ChatRoute.getRateLimitKey req) counts).1
              uri e Hfail) as (m & _ & Hp).
  destruct (ChatRoute.pipeline _ _ _) as [calls res]. simpl in Hp. subst res.
  split; intros Hq; rewrite Hq; simpl.
  - done.
  - destruct (failure_status sent e Hq) as [Hs Hf]. done.
Qed.

(** C3. When the transcription stage yields a transcription that is empty or
    only whitespace, the endpoint answers 200 with an empty transcription,
    the "couldn't understand" text and an empty [audioDataUri], and the
    transcription stage is the only stage it has called. *)
Theorem silence_short_circuits (now sent : Z) (req : ChatRoute.Request)
    (counts : gmap jsstring RateRecord) (uri T : jsstring) :
  reaches_pipeline now req counts uri →
  transcribeUserSpeech uri = Returned T →
  Js.trim T = [] →
  ChatRoute.response (ChatRoute.POST now sent req counts) =
    {| ChatRoute.status := 200; ChatRoute.headers := [];
       ChatRoute.body :=
         {| ChatRoute.error := None; ChatRoute.rateLimitExceeded := false;
            ChatRoute.retryAfter := None; ChatRoute.quotaExceeded := false;
            ChatRoute.timestamp := None; ChatRoute.transcription := Some [];
            ChatRoute.aiResponse :=
              Some {| ChatRoute.text :=
                        js "Sorry, I couldn't understand that. Please try again.";
                      ChatRoute.audioDataUri := [] |} |} |}
  ∧ ChatRoute.calls (ChatRoute.POST now sent req counts) = [ChatRoute.CallTranscribe uri].
Proof.
  intros Hreach HT Hblank. rewrite (POST_reaches_pipeline _ _ _ _ _ Hreach). simpl.
  unfold ChatRoute.pipeline. rewrite HT, blank_guard, bool_decide_true by done.
  split; reflexivity.
Qed.

(** The text-to-speech flow answers a text without content with an empty
    audio field; it can only fail on a text with content. *)
Lemma convertTextToSpeech_fails (R : jsstring) (e : thrown) :
  convertTextToSpeech R = Thrown e → Js.trim R ≠ [].
Proof.
  unfold convertTextToSpeech. intros H E. rewrite E in H. discriminate.
Qed.

(** What the text-to-speech flow returns for a text with content carries
    the WAV prefix. *)
Lemma convertTextToSpeech_returns (R A : jsstring) :
  Js.trim R ≠ [] → convertTextToSpeech R = Returned A →
  Js.startsWith A (js "data:audio/wav;base64,") = true.
Proof.
  unfold convertTextToSpeech. intros HR.
  destruct (Js.trim R) as [|c r] eqn:E; [done|]. cbn [negb Js.truthy].
  destruct (aiGenerateSpeech R) as [[url|]|]; try discriminate.
  destruct (toWav _) as [wav|]; [|discriminate].
  intros H. assert (A = js "data:audio/wav;base64," ++ wav) as -> by congruence.
  apply startsWith_app.
Qed.

Lemma trim_content (s : jsstring) : Js.trim s ≠ [] → s ≠ [].
Proof. intros H ->. by apply H. Qed.

(** The 200 answers of the pipeline: the audio field is either empty (the
    two canned answers and the degraded one) or a WAV data URI. *)
Lemma pipeline_reply_audio (sent : Z) (limiter : RateResult) (uri : jsstring)
    (r : ChatRoute.Response) :
  (ChatRoute.pipeline sent limiter uri).2 = Returned r →
  ChatRoute.status r = 200 →
  ∃ ai, ChatRoute.aiResponse (ChatRoute.body r) = Some ai
        ∧ (ChatRoute.audioDataUri ai = []
           ∨ Js.startsWith (ChatRoute.audioDataUri ai) (js "data:audio/wav;base64,")
             = true).
Proof.
  unfold ChatRoute.pipeline.
  destruct (transcribeUserSpeech uri) as [T|e]; simpl.
  - rewrite blank_guard. case_bool_decide as ET; simpl.
    { intros [= <-] _. eexists. split; [reflexivity|]. by left. }
    destruct (generateAIResponse T) as [R|e]; simpl.
    + rewrite blank_guard. case_bool_decide as ER; simpl.
      { intros [= <-] _. eexists. split; [reflexivity|]. by left. }
      destruct (convertTextToSpeech R) as [A|e] eqn:EA; simpl; intros [= <-] _.
      * eexists. split; [reflexivity|]. right.
        by apply (convertTextToSpeech_returns R).
      * eexists. split; [reflexivity|]. by left.
    + destruct (ChatRoute.isQuotaError e); [|discriminate]. intros [= <-]. done.
  - destruct (ChatRoute.isQuotaError e); [|discriminate]. intros [= <-]. done.
Qed.

(** C4. When the transcription and the response-generation stages return
    and the speech-synthesis stage, called on the reply, fails, the
    endpoint answers 200 with the transcription and the reply text, both
    non-empty, and an empty [audioDataUri]. *)
Theorem speech_failure_degrades (now sent : Z) (req : ChatRoute.Request)
    (counts : gmap jsstring RateRecord) (uri T R : jsstring) (e : thrown) :
  reaches_pipeline now req counts uri →
  transcribeUserSpeech uri = Returned T →
  generateAIResponse T = Returned R →
  ChatRoute.CallSpeech R ∈ ChatRoute.calls (ChatRoute.POST now sent req counts) →
  convertTextToSpeech R = Thrown e →
  ChatRoute.response (ChatRoute.POST now sent req counts) =
    {| ChatRoute.status := 200; ChatRoute.headers := [];
       ChatRoute.body :=
         {| ChatRoute.error := None; ChatRoute.rateLimitExceeded := false;
            ChatRoute.retryAfter := None; ChatRoute.quotaExceeded := false;
            ChatRoute.timestamp := None; ChatRoute.transcription := Some T;
            ChatRoute.aiResponse :=
              Some {| ChatRoute.text := R; ChatRoute.audioDataUri := [] |} |} |}
  ∧ T ≠ [] ∧ R ≠ [].
Proof.
  intros Hreach HT HR Hcalled Hfail.
  rewrite (POST_reaches_pipeline _ _ _ _ _ Hreach) in *. simpl in *.
  unfold ChatRoute.pipeline in *. rewrite HT in *.
  rewrite blank_guard in *.
  destruct (decide (Js.trim T = [])) as [ET|ET].
  { rewrite bool_decide_true in Hcalled by done. simpl in Hcalled.
    apply list_elem_of_singleton in Hcalled. discriminate. }
  rewrite bool_decide_false in * by done. rewrite HR in *.
  rewrite blank_guard in *.
  pose proof (convertTextToSpeech_fails _ _ Hfail) as ER.
  rewrite bool_decide_false in * by done. rewrite Hfail. simpl.
  split; [reflexivity|]. split; by apply trim_content.
Qed.

(** A run in which every stage answers with content: the reply carries the
    transcription, the reply text and the audio, none of them empty. *)
Lemma full_run_reply (now sent : Z) (req : ChatRoute.Request)
    (counts : gmap jsstring RateRecord) (uri T R A : jsstring) :
  reaches_pipeline now req counts uri →
  transcribeUserSpeech uri = Returned T → Js.trim T ≠ [] →
  generateAIResponse T = Returned R → Js.trim R ≠ [] →
  convertTextToSpeech R = Returned A →
  ChatRoute.status (ChatRoute.response (ChatRoute.POST now sent req counts)) = 200
  ∧ ChatRoute.body (ChatRoute.response (ChatRoute.POST now sent req counts))
    = ChatRoute.replyJson T R A
  ∧ T ≠ [] ∧ R ≠ [] ∧ A ≠ [].
Proof.
  intros Hreach HT ET HR ER HA.
  rewrite (POST_reaches_pipeline _ _ _ _ _ Hreach). simpl.
  unfold ChatRoute.pipeline. rewrite HT, blank_guard, bool_decide_false by done.
  rewrite HR, blank_guard, bool_decide_false by done. rewrite HA. simpl.
  repeat split; try by apply trim_content.
  pose proof (convertTextToSpeech_returns R A ER HA) as Hprefix.
  intros ->. discriminate.
Qed.

End Pipeline.

Lemma sample_request_reaches_pipeline :
  reaches_pipeline 0 sample_request ∅ sample_uri.
Proof. vm_compute. repeat split; reflexivity. Qed.

Lemma stage_failures_classified_witness :
  ChatRoute.status
    (ChatRoute.response (ChatRoute.POST (flows := quotaFlows) 0 1 sample_request ∅)) = 429
  ∧ ChatRoute.quotaExceeded
      (ChatRoute.body
         (ChatRoute.response (ChatRoute.POST (flows := quotaFlows) 0 1 sample_request ∅)))
    = true.
Proof.
  apply (stage_failures_classified (flows := quotaFlows) 0 1 sample_request ∅ sample_uri
           (newError (js "[429 Too Many Requests] quota exceeded"))).
  - vm_compute. repeat split; reflexivity.
  - right. exists (js "what time is it"). repeat split.
    vm_compute. discriminate.
  - vm_compute. reflexivity.
Defined.

(** C2 as stated fails for a timeout: the transcription stage fails with an
    [Error] whose message carries none of the quota patterns, and the
    endpoint answers 504, not 500. *)
Lemma timeout_is_not_500_counterexample :
  reaches_pipeline 0 sample_request ∅ sample_uri
  ∧ stage_failure (flows := timeoutFlows) sample_uri (newError (js "upstream timeout"))
  ∧ ChatRoute.isQuotaError (newError (js "upstream timeout")) = false
  ∧ ChatRoute.status
      (ChatRoute.response (ChatRoute.POST (flows := timeoutFlows) 0 1 sample_request ∅))
    = 504
  ∧ ChatRoute.status
      (ChatRoute.response (ChatRoute.POST (flows := timeoutFlows) 0 1 sample_request ∅))
    ≠ 500.
Proof.
  split; [exact sample_request_reaches_pipeline|].
  split; [left; reflexivity|].
  split; [vm_compute; reflexivity|].
  split; [vm_compute; reflexivity|].
  vm_compute. discriminate.
Qed.

Lemma silence_short_circuits_witness :
  ChatRoute.response (ChatRoute.POST (flows := silentFlows) 0 1 sample_request ∅) =
    {| ChatRoute.status := 200; ChatRoute.headers := [];
       ChatRoute.body :=
         {| ChatRoute.error := None; ChatRoute.rateLimitExceeded := false;
            ChatRoute.retryAfter := None; ChatRoute.quotaExceeded := false;
            ChatRoute.timestamp := None; ChatRoute.transcription := Some [];
            ChatRoute.aiResponse :=
              Some {| ChatRoute.text :=
                        js "Sorry, I couldn't understand that. Please try again.";
                      ChatRoute.audioDataUri := [] |} |} |}
  ∧ ChatRoute.calls (ChatRoute.POST (flows := silentFlows) 0 1 sample_request ∅)
    = [ChatRoute.CallTranscribe sample_uri].
Proof.
  apply (silence_short_circuits (flows := silentFlows) 0 1 sample_request ∅
           sample_uri (js "  ")).
  - vm_compute. repeat split; reflexivity.
  - reflexivity.
  - vm_compute. reflexivity.
Defined.

Lemma speech_failure_degrades_witness :
  ChatRoute.response (ChatRoute.POST (flows := muteFlows) 0 1 sample_request ∅) =
    {| ChatRoute.status := 200; ChatRoute.headers := [];
       ChatRoute.body :=
         {| ChatRoute.error := None; ChatRoute.rateLimitExceeded := false;
            ChatRoute.retryAfter := None; ChatRoute.quotaExceeded := false;
            ChatRoute.timestamp := None;
            ChatRoute.transcription := Some (js "what time is it");
            ChatRoute.aiResponse :=
              Some {| ChatRoute.text := js "Noon."; ChatRoute.audioDataUri := [] |} |} |}
  ∧ js "what time is it" ≠ [] ∧ js "Noon." ≠ [].
Proof.
  apply (speech_failure_degrades (flows := muteFlows) 0 1 sample_request ∅
           sample_uri (js "what time is it") (js "Noon.")
           (newError (js "no media returned"))).
  - vm_compute. repeat split; reflexivity.
  - reflexivity.
  - reflexivity.
  - vm_compute. do 2 apply list_elem_of_further. apply list_elem_of_here.
  - vm_compute. reflexivity.
Defined.

(** ** The client controller *)

Section Controller.

Context {browser : Browser}.

Lemma status_200_ok (r : ChatRoute.Response) :
  ChatRoute.status r = 200 → UseChat.ok r = true.
Proof. unfold UseChat.ok. intros ->. reflexivity. Qed.

Lemma truthy_content (s : jsstring) : s ≠ [] → Js.truthy s = true.
Proof. by destruct s. Qed.

(** C9. When the answer to a dispatch is a 200 reply with a non-empty
    transcription, a non-empty reply text and a non-empty reply audio, the
    transcript after [sendAudioToApi] is the transcript before it followed
    by exactly two messages: the user's, carrying the transcription, then
    the assistant's, carrying the reply text. *)
Theorem full_reply_appends_user_then_assistant
    (fetch : jsstring → outcome ChatRoute.Response) (now landed : Z)
    (audioBlob : UseChat.Blob) (retryCount : Z) (st : UseChat.State)
    (r : ChatRoute.Response) (T R A : jsstring) :
  fetch (UseChat.readAsDataURL audioBlob) = Returned r →
  ChatRoute.status r = 200 →
  ChatRoute.transcription (ChatRoute.body r) = Some T →
  ChatRoute.aiResponse (ChatRoute.body r)
    = Some {| ChatRoute.text := R; ChatRoute.audioDataUri := A |} →
  T ≠ [] → R ≠ [] → A ≠ [] →
  UseChat.messages (UseChat.sendAudioToApi fetch now landed audioBlob retryCount st)
  = UseChat.messages st
    ++ [message_of (UseChat.idsDrawn st) landed T UseChat.user;
        message_of (S (UseChat.idsDrawn st)) landed R UseChat.assistant].
Proof.
  intros Hfetch Hstatus HT Hai HT' HR' HA'.
  unfold UseChat.sendAudioToApi, UseChat.receive. rewrite Hfetch.
  rewrite (status_200_ok _ Hstatus). cbn [negb]. rewrite HT, Hai.
  cbn [ChatRoute.text ChatRoute.audioDataUri].
  rewrite !truthy_content by done. cbn [andb].
  unfold UseChat.playAudio. destruct (audioPlay A); cbn; by rewrite <- app_assoc.
Qed.

(** C10. When the answer to a dispatch is a 200 reply whose
    [aiResponse.audioDataUri] is empty, [sendAudioToApi] appends no
    assistant message (the only message it may append is the user's, for a
    non-empty transcription), starts no audio, sets no timer and reports no
    error: the reply text is dropped. *)
Theorem empty_audio_reply_is_dropped
    (fetch : jsstring → outcome ChatRoute.Response) (now landed : Z)
    (audioBlob : UseChat.Blob) (retryCount : Z) (st : UseChat.State)
    (r : ChatRoute.Response) (ai : ChatRoute.AiResponse) :
  fetch (UseChat.readAsDataURL audioBlob) = Returned r →
  ChatRoute.status r = 200 →
  ChatRoute.aiResponse (ChatRoute.body r) = Some ai →
  ChatRoute.audioDataUri ai = [] →
  UseChat.messages (UseChat.sendAudioToApi fetch now landed audioBlob retryCount st)
  = UseChat.messages st
    ++ match ChatRoute.transcription (ChatRoute.body r) with
       | Some (c :: T) => [message_of (UseChat.idsDrawn st) landed (c :: T) UseChat.user]
       | _ => []
       end
  ∧ (∀ m, m ∈ UseChat.messages
                (UseChat.sendAudioToApi fetch now landed audioBlob retryCount st) →
          UseChat.role m = UseChat.assistant → m ∈ UseChat.messages st)
  ∧ UseChat.played (UseChat.sendAudioToApi fetch now landed audioBlob retryCount st)
    = UseChat.played st
  ∧ UseChat.timers (UseChat.sendAudioToApi fetch now landed audioBlob retryCount st)
    = UseChat.timers st
  ∧ UseChat.reported (UseChat.sendAudioToApi fetch now landed audioBlob retryCount st)
    = UseChat.reported st.
Proof.
  intros Hfetch Hstatus Hai Hempty.
  unfold UseChat.sendAudioToApi, UseChat.receive. rewrite Hfetch.
  rewrite (status_200_ok _ Hstatus). cbn [negb]. rewrite Hai, Hempty.
  cbn [Js.truthy]. rewrite andb_false_r.
  destruct (ChatRoute.transcription (ChatRoute.body r)) as [[|c T]|]; cbn.
  - rewrite app_nil_r. repeat split; done.
  - repeat split; try done.
    intros m Hm Hrole. apply elem_of_app in Hm as [Hm|Hm]; [done|].
    apply list_elem_of_singleton in Hm. subst m. discriminate.
  - rewrite app_nil_r. repeat split; done.
Qed.

End Controller.

Section EndToEnd.

Context {flows : AiFlows} {browser : Browser}.

(** Neither quota-exceeded message of the route carries a wording that the
    controller looks for. *)
Lemma quota_message_not_recognised (message : jsstring) :
  quota_message message →
  Js.truthy message = true
  ∧ Js.includes message (js "Quota exceeded") = false
  ∧ Js.includes message (js "rate limit") = false.
Proof. intros [-> | ->]; vm_compute; auto. Qed.

Lemma quota_failure_response (now sent : Z) (req : ChatRoute.Request)
    (counts : gmap jsstring RateRecord) (uri : jsstring) (e : thrown) :
  reaches_pipeline now req counts uri →
  stage_failure uri e →
  ChatRoute.isQuotaError e = true →
  ∃ message, quota_message message ∧
    ChatRoute.response (ChatRoute.POST now sent req counts)
    = ChatRoute.respond 429 (ChatRoute.quotaJson message).
Proof.
  intros Hreach Hfail Hq. rewrite (POST_reaches_pipeline _ _ _ _ _ Hreach). simpl.
  destruct (quota_message_response sent
              (ChatRoute.checkRateLimit now (ChatRoute.getRateLimitKey req) counts).1
              uri e Hfail Hq) as (m & Hm & Hp).
  exists m. split; [done|].
  destruct (ChatRoute.pipeline _ _ _) as [calls res]. simpl in Hp. by subst res.
Qed.

(** What the controller does with a quota-exceeded answer of the route. *)
Lemma quota_answer_handling (message : jsstring) (now landed : Z)
    (audioBlob : UseChat.Blob) (retryCount : Z) (st : UseChat.State) :
  quota_message message →
  let st' := UseChat.sendAudioToApi
               (λ _, Returned (ChatRoute.respond 429 (ChatRoute.quotaJson message)))
               now landed audioBlob retryCount st in
  UseChat.timers st' = UseChat.timers st
  ∧ UseChat.messages st'
    = UseChat.messages st
      ++ [message_of (UseChat.idsDrawn st) landed
            ([10060%N] ++ js " Error: " ++ message) UseChat.assistant]
  ∧ UseChat.reported st' = UseChat.reported st ++ [newError message]
  ∧ UseChat.dispatched st'
    = UseChat.dispatched st
      ++ [{| UseChat.at_ := now; UseChat.sentUri := UseChat.readAsDataURL audioBlob;
             UseChat.attempt := retryCount |}].
Proof.
  intros Hm. destruct (quota_message_not_recognised _ Hm) as (Ht & Hq & Hr).
  unfold UseChat.sendAudioToApi, UseChat.receive.
  cbn [UseChat.ok ChatRoute.status ChatRoute.respond ChatRoute.body
       ChatRoute.error ChatRoute.quotaJson Js.orElse].
  change ((200 <=? 429) && (429 <=? 299)) with false. cbn [negb].
  rewrite Ht, Hq, Hr. cbn [orb].
  unfold UseChat.recover.
  change (UseChat.isRateLimitError (newError message)) with false.
  cbn [andb]. cbn. repeat split; reflexivity.
Qed.

(** C5 at its failing input. When a stage of the pipeline fails with a
    quota-pattern error, the route answers 429 with one of its two
    quota-exceeded messages, and the controller, whatever the attempt, sets
    no retry timer for that answer: it appends the error text as an
    assistant message and reports a plain [Error]. *)
Theorem quota_exceeded_reply_is_not_retried (now sent : Z)
    (req : ChatRoute.Request) (counts : gmap jsstring RateRecord) (e : thrown)
    (dispatchedAt landed : Z) (audioBlob : UseChat.Blob) (retryCount : Z)
    (st : UseChat.State) :
  reaches_pipeline now req counts (UseChat.readAsDataURL audioBlob) →
  stage_failure (UseChat.readAsDataURL audioBlob) e →
  ChatRoute.isQuotaError e = true →
  ∃ message,
    ChatRoute.response (ChatRoute.POST now sent req counts)
    = ChatRoute.respond 429 (ChatRoute.quotaJson message)
    ∧ UseChat.timers
        (UseChat.sendAudioToApi
           (λ _, Returned (ChatRoute.response (ChatRoute.POST now sent req counts)))
           dispatchedAt landed audioBlob retryCount st)
      = UseChat.timers st
    ∧ UseChat.messages
        (UseChat.sendAudioToApi
           (λ _, Returned (ChatRoute.response (ChatRoute.POST now sent req counts)))
           dispatchedAt landed audioBlob retryCount st)
      = UseChat.messages st
        ++ [message_of (UseChat.idsDrawn st) landed
              ([10060%N] ++ js " Error: " ++ message) UseChat.assistant]
    ∧ UseChat.reported
        (UseChat.sendAudioToApi
           (λ _, Returned (ChatRoute.response (ChatRoute.POST now sent req counts)))
           dispatchedAt landed audioBlob retryCount st)
      = UseChat.reported st ++ [newError message].
Proof.
  intros Hreach Hfail Hq.
  destruct (quota_failure_response now sent req counts _ e Hreach Hfail Hq)
    as (message & Hm & Hresp).
  exists message. rewrite Hresp. split; [reflexivity|].
  destruct (quota_answer_handling message dispatchedAt landed audioBlob retryCount
              st Hm) as (H1 & H2 & H3 & _).
  done.
Qed.

End EndToEnd.

Section Retry.

Context {browser : Browser}.

(** One attempt that the controller takes for a rate-limit condition. *)
Lemma rate_limited_attempt (r : ChatRoute.Response) (now landed : Z)
    (audioBlob : UseChat.Blob) (retryCount : Z) (st : UseChat.State) :
  taken_for_rate_limit r →
  UseChat.sendAudioToApi (λ _, Returned r) now landed audioBlob retryCount st
  = UseChat.setIsThinking false
      (UseChat.recover landed audioBlob retryCount UseChat.rateLimitError
         (UseChat.recordDispatch
            {| UseChat.at_ := now; UseChat.sentUri := UseChat.readAsDataURL audioBlob;
               UseChat.attempt := retryCount |}
            (UseChat.stampRequest now (UseChat.setIsThinking true st)))).
Proof.
  intros [Hok Hwording]. unfold UseChat.sendAudioToApi, UseChat.receive.
  rewrite Hok. cbn [negb]. rewrite Hwording. reflexivity.
Qed.

Lemma rateLimitError_recognised :
  UseChat.isRateLimitError UseChat.rateLimitError = true.
Proof. reflexivity. Qed.

(** A rate-limited attempt below the retry ceiling, and the firing of the
    timer it sets. *)
Lemma retried_attempt (r : ChatRoute.Response) (now landed : Z)
    (audioBlob : UseChat.Blob) (retryCount : Z) (st : UseChat.State) :
  taken_for_rate_limit r →
  retryCount < UseChat.MAX_RETRIES →
  UseChat.timers st = [] →
  UseChat.popTimer
    (UseChat.sendAudioToApi (λ _, Returned r) now landed audioBlob retryCount st)
  = Some
      ({| UseChat.delay := UseChat.RETRY_DELAY * (retryCount + 1);
          UseChat.payload := audioBlob;
          UseChat.nextRetryCount := retryCount + 1 |},
       {| UseChat.messages :=
            UseChat.messages st
            ++ [message_of (UseChat.idsDrawn st) landed
                  (retry_notice (UseChat.RETRY_DELAY * (retryCount + 1) / 1000)
                     (retryCount + 1))
                  UseChat.assistant];
          UseChat.isThinking := false;
          UseChat.lastRequestTime := now;
          UseChat.cooldownRemaining :=
            Z.max 0 (Js.ceilDiv (now + UseChat.RATE_LIMIT_COOLDOWN - now) 1000);
          UseChat.idsDrawn := S (UseChat.idsDrawn st);
          UseChat.timers := [];
          UseChat.dispatched :=
            UseChat.dispatched st
            ++ [{| UseChat.at_ := now;
                   UseChat.sentUri := UseChat.readAsDataURL audioBlob;
                   UseChat.attempt := retryCount |}];
          UseChat.played := UseChat.played st;
          UseChat.reported := UseChat.reported st |}).
Proof.
  intros Htaken Hbelow Hidle. rewrite rate_limited_attempt by done.
  unfold UseChat.recover. rewrite rateLimitError_recognised.
  assert ((retryCount <? UseChat.MAX_RETRIES) = true) as -> by lia.
  destruct st; simpl in Hidle; subst. reflexivity.
Qed.

(** A rate-limited attempt at the retry ceiling. *)
Lemma last_attempt (r : ChatRoute.Response) (now landed : Z)
    (audioBlob : UseChat.Blob) (retryCount : Z) (st : UseChat.State) :
  taken_for_rate_limit r →
  UseChat.MAX_RETRIES ≤ retryCount →
  UseChat.sendAudioToApi (λ _, Returned r) now landed audioBlob retryCount st
  = {| UseChat.messages :=
         UseChat.messages st
         ++ [message_of (UseChat.idsDrawn st) landed too_many_requests_notice
               UseChat.assistant];
       UseChat.isThinking := false;
       UseChat.lastRequestTime := now;
       UseChat.cooldownRemaining :=
         Z.max 0 (Js.ceilDiv (now + UseChat.RATE_LIMIT_COOLDOWN - now) 1000);
       UseChat.idsDrawn := S (UseChat.idsDrawn st);
       UseChat.timers := UseChat.timers st;
       UseChat.dispatched :=
         UseChat.dispatched st
         ++ [{| UseChat.at_ := now;
                UseChat.sentUri := UseChat.readAsDataURL audioBlob;
                UseChat.attempt := retryCount |}];
       UseChat.played := UseChat.played st;
       UseChat.reported := UseChat.reported st ++ [UseChat.rateLimitError] |}.
Proof.
  intros Htaken Hceiling. rewrite rate_limited_attempt by done.
  unfold UseChat.recover. rewrite rateLimitError_recognised.
  assert ((retryCount <? UseChat.MAX_RETRIES) = false) as -> by lia.
  destruct st. reflexivity.
Qed.

(** The retry mechanism of the controller, once an answer is taken for a
    rate-limit condition: the same audio is sent again 3 seconds after the
    first such answer and 6 seconds after the second, and the third such
    answer ends the attempts with the "too many requests" message. *)
Lemma rate_limit_error_retry_schedule (l1 l2 l3 : Z)
    (r1 r2 r3 : ChatRoute.Response) (now : Z) (audioBlob : UseChat.Blob)
    (st : UseChat.State) :
  taken_for_rate_limit r1 → taken_for_rate_limit r2 → taken_for_rate_limit r3 →
  UseChat.timers st = [] →
  let st' := UseChat.conversation
               [(l1, Returned r1); (l2, Returned r2); (l3, Returned r3)]
               now audioBlob 0 st in
  UseChat.dispatched st'
  = UseChat.dispatched st
    ++ [{| UseChat.at_ := now; UseChat.sentUri := UseChat.readAsDataURL audioBlob;
           UseChat.attempt := 0 |};
        {| UseChat.at_ := now + l1 + 3000;
           UseChat.sentUri := UseChat.readAsDataURL audioBlob;
           UseChat.attempt := 1 |};
        {| UseChat.at_ := now + l1 + 3000 + l2 + 6000;
           UseChat.sentUri := UseChat.readAsDataURL audioBlob;
           UseChat.attempt := 2 |}]
  ∧ UseChat.messages st'
    = UseChat.messages st
      ++ [message_of (UseChat.idsDrawn st) (now + l1)
            (retry_notice 3 1) UseChat.assistant;
          message_of (S (UseChat.idsDrawn st)) (now + l1 + 3000 + l2)
            (retry_notice 6 2) UseChat.assistant;
          message_of (S (S (UseChat.idsDrawn st))) (now + l1 + 3000 + l2 + 6000 + l3)
            too_many_requests_notice UseChat.assistant]
  ∧ UseChat.timers st' = []
  ∧ UseChat.reported st' = UseChat.reported st ++ [UseChat.rateLimitError].
Proof.
  intros H1 H2 H3 Hidle. cbn [UseChat.conversation].
  rewrite (retried_attempt r1) by (done || (unfold UseChat.MAX_RETRIES; lia)).
  cbv beta iota. cbn [UseChat.delay UseChat.payload UseChat.nextRetryCount].
  rewrite (retried_attempt r2) by (done || (unfold UseChat.MAX_RETRIES; lia)).
  cbv beta iota. cbn [UseChat.delay UseChat.payload UseChat.nextRetryCount].
  rewrite (last_attempt r3) by (done || (unfold UseChat.MAX_RETRIES; lia)).
  unfold UseChat.popTimer.
  cbn [UseChat.timers UseChat.messages UseChat.dispatched UseChat.reported
       UseChat.idsDrawn].
  rewrite <- !app_assoc. repeat split; reflexivity.
Qed.

End Retry.

(** ** Validation and the counter map *)

(** A check that allows the request counts it. *)
Lemma allowed_is_counted (limit now : Z) (key : jsstring)
    (counts : gmap jsstring RateRecord) :
  allowed (fixedWindowCheck limit now key counts).1 = true →
  counted now key counts (fixedWindowCheck limit now key counts).2.
Proof.
  intros Hallowed. unfold counted, counted_record.
  destruct (counts !! key) as [r|] eqn:E.
  - destruct (decide (now > resetTime r)) as [Hexp|Hlive].
    + rewrite check_fresh in * by (rewrite E; done). simpl.
      split; [done|]. rewrite lookup_insert_eq. intros [= <-]. simpl in Hexp.
      unfold TIME_WINDOW in Hexp. lia.
    + rewrite (check_live _ _ _ _ r E) in * by lia.
      destruct (count r >=? limit); simpl in *; [discriminate|].
      split; [done|]. rewrite lookup_insert_eq. intros [= Hr].
      apply (f_equal count) in Hr. simpl in Hr. lia.
  - rewrite check_fresh in * by (rewrite E; done). simpl.
    split; [done|]. by rewrite lookup_insert_eq.
Qed.

Lemma chat_failure_status (sent : Z) (e : thrown) :
  ChatRoute.status (ChatRoute.failure sent e) ≠ 400.
Proof.
  unfold ChatRoute.failure. destruct e as [name message|]; [|done].
  destruct (Js.includes message (js "timeout")); [done|].
  destruct (Js.includes message (js "network")); [done|].
  destruct (Js.includes message (js "quota") || Js.includes message (js "rate limit"));
    done.
Qed.

Lemma token_failure_status (sent : Z) (e : thrown) :
  TokenRoute.status (TokenRoute.failure sent e) ≠ 400.
Proof.
  unfold TokenRoute.failure. destruct e as [name message|]; [|done].
  destruct (Js.includes message (js "Invalid API key")); [done|].
  destruct (Js.includes message (js "timeout")); done.
Qed.

Section Validation.

Context {flows : AiFlows} {sdk : LiveKitSdk}.

Lemma pipeline_status (sent : Z) (limiter : RateResult) (uri : jsstring)
    (r : ChatRoute.Response) :
  (ChatRoute.pipeline sent limiter uri).2 = Returned r → ChatRoute.status r ≠ 400.
Proof.
  unfold ChatRoute.pipeline.
  destruct (transcribeUserSpeech uri) as [T|e]; simpl.
  - destruct (negb (Js.truthy T) || negb (Js.truthy (Js.trim T))); simpl.
    { intros [= <-]. done. }
    destruct (generateAIResponse T) as [R|e]; simpl.
    + destruct (negb (Js.truthy R) || negb (Js.truthy (Js.trim R))); simpl.
      { intros [= <-]. done. }
      destruct (convertTextToSpeech R); simpl; intros [= <-]; done.
    + destruct (ChatRoute.isQuotaError e); [|discriminate]. intros [= <-]. done.
  - destruct (ChatRoute.isQuotaError e); [|discriminate]. intros [= <-]. done.
Qed.

(** Every path of the chat handler leaves the map as the rate check made it. *)
Lemma chat_POST_counts (now sent : Z) (req : ChatRoute.Request)
    (counts : gmap jsstring RateRecord) :
  ChatRoute.counts (ChatRoute.POST now sent req counts)
  = (ChatRoute.checkRateLimit now (ChatRoute.getRateLimitKey req) counts).2.
Proof.
  unfold ChatRoute.POST.
  destruct (ChatRoute.checkRateLimit now (ChatRoute.getRateLimitKey req) counts)
    as [limiter counts'].
  destruct (allowed limiter); simpl; [|done].
  destruct (ChatRoute.json req) as [[uri|]|e]; try done.
  destruct (Js.truthy uri); simpl; [|done].
  destruct (Js.startsWith uri (js "data:audio/")); simpl; [|done].
  destruct (ChatRoute.pipeline sent limiter uri) as [calls [r|e]]; done.
Qed.

Lemma chat_400 (now sent : Z) (req : ChatRoute.Request)
    (counts : gmap jsstring RateRecord) :
  ChatRoute.status (ChatRoute.response (ChatRoute.POST now sent req counts)) = 400 →
  allowed (ChatRoute.checkRateLimit now (ChatRoute.getRateLimitKey req) counts).1 = true
  ∧ ChatRoute.calls (ChatRoute.POST now sent req counts) = [].
Proof.
  unfold ChatRoute.POST.
  destruct (ChatRoute.checkRateLimit now (ChatRoute.getRateLimitKey req) counts)
    as [limiter counts'].
  destruct (allowed limiter) eqn:Hallowed; simpl; [|discriminate].
  destruct (ChatRoute.json req) as [[uri|]|e]; simpl.
  - destruct (Js.truthy uri); simpl; [|by split].
    destruct (Js.startsWith uri (js "data:audio/")); simpl; [|by split].
    pose proof (pipeline_status sent limiter uri) as Hp.
    destruct (ChatRoute.pipeline sent limiter uri) as [calls [r|e]]; simpl in *.
    + intros H. by destruct (Hp r eq_refl).
    + intros H. by destruct (chat_failure_status sent e).
  - by split.
  - intros H. by destruct (chat_failure_status sent e).
Qed.

Lemma token_POST_counts (env : TokenRoute.Env) (now sent : Z)
    (req : TokenRoute.Request) (counts : gmap jsstring RateRecord) :
  (TokenRoute.POST env now sent req counts).2
  = (TokenRoute.checkTokenRateLimit now (TokenRoute.getRateLimitKey req) counts).2.
Proof.
  unfold TokenRoute.POST.
  destruct (TokenRoute.checkTokenRateLimit now (TokenRoute.getRateLimitKey req) counts)
    as [limiter counts'].
  destruct (allowed limiter); simpl; [|done].
  destruct (TokenRoute.json req) as [[roomName participantName]|e]; [|done].
  destruct (TokenRoute.present roomName) as [room|]; [|done].
  destruct (TokenRoute.present participantName) as [part|]; [|done].
  destruct (negb _ || negb _); [done|].
  destruct (TokenRoute.present (TokenRoute.LIVEKIT_API_KEY env)); [|done].
  destruct (TokenRoute.present (TokenRoute.LIVEKIT_API_SECRET env)); [|done].
  destruct (TokenRoute.present (TokenRoute.NEXT_PUBLIC_LIVEKIT_URL env)); [|done].
  destruct (negb _ && negb _); [done|].
  destruct (toJwt _); done.
Qed.

Lemma token_400 (env : TokenRoute.Env) (now sent : Z)
    (req : TokenRoute.Request) (counts : gmap jsstring RateRecord) :
  TokenRoute.status (TokenRoute.POST env now sent req counts).1 = 400 →
  allowed (TokenRoute.checkTokenRateLimit now (TokenRoute.getRateLimitKey req)
             counts).1 = true.
Proof.
  unfold TokenRoute.POST.
  destruct (TokenRoute.checkTokenRateLimit now (TokenRoute.getRateLimitKey req) counts)
    as [limiter counts'].
  destruct (allowed limiter) eqn:Hallowed; simpl; [done|discriminate].
Qed.

(** C6, amended. A request that either endpoint rejects with 400 has been
    counted by the rate limiter, which runs before the validation: the
    record of the request's key is created, restarted or incremented, so the
    counter map is not the one the request found. This is its only effect:
    the records of the other keys are unchanged and, on the chat endpoint, no
    stage of the pipeline is called. *)
Theorem validation_rejection_is_counted (env : TokenRoute.Env) (now sent : Z)
    (chat : ChatRoute.Request) (token : TokenRoute.Request)
    (counts : gmap jsstring RateRecord) :
  (ChatRoute.status (ChatRoute.response (ChatRoute.POST now sent chat counts)) = 400 →
     counted now (ChatRoute.getRateLimitKey chat) counts
       (ChatRoute.counts (ChatRoute.POST now sent chat counts))
     ∧ ChatRoute.counts (ChatRoute.POST now sent chat counts) ≠ counts
     ∧ ChatRoute.calls (ChatRoute.POST now sent chat counts) = [])
  ∧ (TokenRoute.status (TokenRoute.POST env now sent token counts).1 = 400 →
     counted now (TokenRoute.getRateLimitKey token) counts
       (TokenRoute.POST env now sent token counts).2
     ∧ (TokenRoute.POST env now sent token counts).2 ≠ counts).
Proof.
  split; intros H400.
  - destruct (chat_400 _ _ _ _ H400) as [Hallowed Hcalls].
    rewrite chat_POST_counts. rewrite checkRateLimit_fixedWindow in *.
    pose proof (allowed_is_counted _ _ _ _ Hallowed) as Hc.
    split; [done|]. split; [|done].
    intros E. destruct Hc as [_ Hne]. by rewrite E in Hne.
  - pose proof (token_400 _ _ _ _ _ H400) as Hallowed.
    rewrite token_POST_counts. rewrite checkTokenRateLimit_fixedWindow in *.
    pose proof (allowed_is_counted _ _ _ _ Hallowed) as Hc.
    split; [done|].
    intros E. destruct Hc as [_ Hne]. by rewrite E in Hne.
Qed.

End Validation.

(** ** Token issuance *)

Lemma inClass_identifier (c : N) :
  TokenRoute.inClass TokenRoute.identifierClass c = true ↔ identifier_char c.
Proof.
  unfold TokenRoute.inClass, TokenRoute.identifierClass, identifier_char. simpl.
  rewrite !orb_true_iff, !andb_true_iff, !N.leb_le, !N.eqb_eq. intuition lia.
Qed.

(** The regular expression of the route accepts exactly the non-empty
    strings of letters, digits, hyphens and underscores. *)
Lemma test_identifier (s : jsstring) :
  TokenRoute.testOneOrMore TokenRoute.identifierClass s = true ↔ identifier s.
Proof.
  unfold TokenRoute.testOneOrMore, identifier. split.
  - destruct s as [|c s]; [discriminate|]. intros H. split; [done|].
    apply Forall_forall. intros x Hx. apply inClass_identifier.
    rewrite forallb_forall in H. apply H. by apply list_elem_of_In.
  - intros [Hne H]. destruct s as [|c s]; [done|].
    apply forallb_forall. intros x Hx. apply inClass_identifier.
    rewrite Forall_forall in H. apply H. by apply list_elem_of_In.
Qed.

Lemma present_Some (v : option jsstring) (s : jsstring) :
  TokenRoute.present v = Some s ↔ v = Some s ∧ s ≠ [].
Proof.
  unfold TokenRoute.present. destruct v as [[|c t]|]; simpl; split;
    intros H; try discriminate; try (destruct H; congruence).
  - injection H as <-. done.
Qed.

(** The route's decision on the two fields. *)
Lemma both_identifiers_test (roomName participantName : option jsstring) :
  both_identifiers roomName participantName ↔
  match TokenRoute.present roomName, TokenRoute.present participantName with
  | Some room, Some part =>
      negb (TokenRoute.testOneOrMore TokenRoute.identifierClass room)
      || negb (TokenRoute.testOneOrMore TokenRoute.identifierClass part) = false
  | _, _ => False
  end.
Proof.
  split.
  - intros (room & part & -> & -> & Hr & Hp).
    assert (TokenRoute.present (Some room) = Some room) as ->
      by (apply present_Some; split; [done|apply Hr]).
    assert (TokenRoute.present (Some part) = Some part) as ->
      by (apply present_Some; split; [done|apply Hp]).
    apply test_identifier in Hr, Hp. by rewrite Hr, Hp.
  - destruct (TokenRoute.present roomName) as [room|] eqn:Er; [|done].
    destruct (TokenRoute.present participantName) as [part|] eqn:Ep; [|done].
    apply present_Some in Er as [-> _], Ep as [-> _].
    intros H. apply orb_false_elim in H as [Hr Hp].
    apply negb_false_iff in Hr, Hp. apply test_identifier in Hr, Hp.
    by exists room, part.
Qed.

Section Issuance.

Context {sdk : LiveKitSdk}.

(** C7. For a token request that the limiter allows, with the provider
    configuration present (key, secret and a WebSocket URL) and a signer that
    returns, the route answers 200 exactly when both identifiers are
    non-empty strings of letters, digits, hyphens and underscores, and
    answers 400 otherwise. The 200 answer is the issued credential and
    nothing else: the token that the signer returned for the access token
    built from the configured key and secret and the two identifiers, the
    configured URL, 600 seconds and the two identifiers. "abc-1" and
    "bob_2" are such identifiers, "abc 1" is not. *)
Theorem token_issued_iff_identifiers (env : TokenRoute.Env) (now sent : Z)
    (req : TokenRoute.Request) (counts : gmap jsstring RateRecord)
    (roomName participantName : option jsstring) :
  allowed (TokenRoute.checkTokenRateLimit now (TokenRoute.getRateLimitKey req)
             counts).1 = true →
  TokenRoute.json req = Returned (roomName, participantName) →
  configured env →
  (∀ at_, ∃ token, toJwt at_ = Returned token) →
  (TokenRoute.status (TokenRoute.POST env now sent req counts).1 = 200
   ↔ both_identifiers roomName participantName)
  ∧ (both_identifiers roomName participantName →
     ∃ room' part key secret wsUrl token,
       roomName = Some room' ∧ participantName = Some part
       ∧ TokenRoute.LIVEKIT_API_KEY env = Some key
       ∧ TokenRoute.LIVEKIT_API_SECRET env = Some secret
       ∧ TokenRoute.NEXT_PUBLIC_LIVEKIT_URL env = Some wsUrl
       ∧ toJwt {| apiKey := key; apiSecret := secret; identity := part;
                  name := part; ttl := js "10m"; metadataCreatedAt := sent;
                  metadataRoomName := room';
                  grant := {| room := room'; roomJoin := true; canPublish := true;
                              canSubscribe := true; canPublishData := true |} |}
         = Returned token
       ∧ TokenRoute.body (TokenRoute.POST env now sent req counts).1
         = {| TokenRoute.error := None; TokenRoute.rateLimitExceeded := false;
              TokenRoute.retryAfter := None; TokenRoute.timestamp := None;
              TokenRoute.credential :=
                Some {| TokenRoute.token := token; TokenRoute.url := wsUrl;
                        TokenRoute.expiresIn := 600;
                        TokenRoute.roomName := room';
                        TokenRoute.participantName := part |} |})
  ∧ (¬ both_identifiers roomName participantName →
     TokenRoute.status (TokenRoute.POST env now sent req counts).1 = 400)
  ∧ identifier (js "abc-1") ∧ identifier (js "bob_2") ∧ ¬ identifier (js "abc 1").
Proof.
  intros Hallowed Hjson (key & secret & wsUrl & Hk & Hk' & Hs & Hs' & Hu & Hws) Hsign.
  assert (identifier (js "abc-1") ∧ identifier (js "bob_2") ∧ ¬ identifier (js "abc 1"))
    as Hex.
  { rewrite <- !test_identifier. vm_compute. repeat split; congruence. }
  pose proof (both_identifiers_test roomName participantName) as Hdec.
  unfold TokenRoute.POST.
  destruct (TokenRoute.checkTokenRateLimit now (TokenRoute.getRateLimitKey req) counts)
    as [limiter counts'].
  simpl in Hallowed. rewrite Hallowed, Hjson. cbn [negb].
  destruct (TokenRoute.present roomName) as [room|] eqn:Er.
  2: { cbn [fst TokenRoute.status TokenRoute.respond].
       repeat split; try apply Hex; try tauto; try discriminate. }
  destruct (TokenRoute.present participantName) as [part|] eqn:Ep.
  2: { cbn [fst TokenRoute.status TokenRoute.respond].
       repeat split; try apply Hex; try tauto; try discriminate. }
  destruct (negb _ || negb _) eqn:Etest.
  { cbn [fst TokenRoute.status TokenRoute.respond].
    assert (¬ both_identifiers roomName participantName) as Hno
      by (rewrite Hdec; discriminate).
    repeat split; try apply Hex; try tauto; try discriminate. }
  assert (Js.truthy wsUrl = true) as Hut.
  { destruct Hws as [H|H]; by apply (startsWith_truthy _ _ H). }
  assert (TokenRoute.present (TokenRoute.LIVEKIT_API_KEY env) = Some key) as ->
    by (by apply present_Some).
  assert (TokenRoute.present (TokenRoute.LIVEKIT_API_SECRET env) = Some secret) as ->
    by (by apply present_Some).
  assert (TokenRoute.present (TokenRoute.NEXT_PUBLIC_LIVEKIT_URL env) = Some wsUrl) as ->.
  { apply present_Some. split; [done|]. by destruct wsUrl. }
  assert (negb (Js.startsWith wsUrl (js "ws://"))
          && negb (Js.startsWith wsUrl (js "wss://")) = false) as ->.
  { destruct Hws as [-> | ->]; simpl; [done|]. apply andb_false_r. }
  match goal with
  | |- context [match toJwt ?a with _ => _ end] =>
      destruct (Hsign a) as [tok Htok]; rewrite Htok
  end.
  cbn [fst TokenRoute.status TokenRoute.body].
  apply present_Some in Er as [-> _], Ep as [-> _].
  assert (both_identifiers (Some room) (Some part)) as Hyes by (by rewrite Hdec).
  split; [tauto|]. split; [|split; [tauto|apply Hex]].
  intros _. exists room, part, key, secret, wsUrl, tok.
  do 6 (split; [done|]). reflexivity.
Qed.

End Issuance.

(** ** Worked instances *)

Lemma full_reply_appends_user_then_assistant_witness :
  UseChat.messages
    (UseChat.sendAudioToApi (browser := scriptedBrowser)
       (λ _, Returned
               (ChatRoute.response
                  (ChatRoute.POST (flows := workingFlows) 0 1 sample_request ∅)))
       2 3 sample_blob 0 UseChat.initial)
  = UseChat.messages UseChat.initial
    ++ [message_of (browser := scriptedBrowser) (UseChat.idsDrawn UseChat.initial) 3
          (js "what time is it") UseChat.user;
        message_of (browser := scriptedBrowser) (S (UseChat.idsDrawn UseChat.initial)) 3
          (js "Noon.") UseChat.assistant].
Proof.
  apply (full_reply_appends_user_then_assistant (browser := scriptedBrowser)
           (λ _, Returned
                   (ChatRoute.response
                      (ChatRoute.POST (flows := workingFlows) 0 1 sample_request ∅)))
           2 3 sample_blob 0 UseChat.initial
           (ChatRoute.response
              (ChatRoute.POST (flows := workingFlows) 0 1 sample_request ∅))
           (js "what time is it") (js "Noon.")
           (js "data:audio/wav;base64,UklGRg==")).
  - reflexivity.
  - vm_compute. reflexivity.
  - vm_compute. reflexivity.
  - vm_compute. reflexivity.
  - vm_compute. discriminate.
  - vm_compute. discriminate.
  - vm_compute. discriminate.
Defined.

Lemma empty_audio_reply_is_dropped_witness :
  UseChat.messages
    (UseChat.sendAudioToApi (browser := scriptedBrowser)
       (λ _, Returned
               (ChatRoute.response
                  (ChatRoute.POST (flows := muteFlows) 0 1 sample_request ∅)))
       2 3 sample_blob 0 UseChat.initial)
  = UseChat.messages UseChat.initial
    ++ match ChatRoute.transcription
               (ChatRoute.body
                  (ChatRoute.response
                     (ChatRoute.POST (flows := muteFlows) 0 1 sample_request ∅))) with
       | Some (c :: T) =>
           [message_of (browser := scriptedBrowser) (UseChat.idsDrawn UseChat.initial) 3
              (c :: T) UseChat.user]
       | _ => []
       end
  ∧ (∀ m, m ∈ UseChat.messages
                (UseChat.sendAudioToApi (browser := scriptedBrowser)
                   (λ _, Returned
                           (ChatRoute.response
                              (ChatRoute.POST (flows := muteFlows) 0 1 sample_request ∅)))
                   2 3 sample_blob 0 UseChat.initial) →
          UseChat.role m = UseChat.assistant → m ∈ UseChat.messages UseChat.initial)
  ∧ UseChat.played
      (UseChat.sendAudioToApi (browser := scriptedBrowser)
         (λ _, Returned
                 (ChatRoute.response
                    (ChatRoute.POST (flows := muteFlows) 0 1 sample_request ∅)))
         2 3 sample_blob 0 UseChat.initial)
    = UseChat.played UseChat.initial
  ∧ UseChat.timers
      (UseChat.sendAudioToApi (browser := scriptedBrowser)
         (λ _, Returned
                 (ChatRoute.response
                    (ChatRoute.POST (flows := muteFlows) 0 1 sample_request ∅)))
         2 3 sample_blob 0 UseChat.initial)
    = UseChat.timers UseChat.initial
  ∧ UseChat.reported
      (UseChat.sendAudioToApi (browser := scriptedBrowser)
         (λ _, Returned
                 (ChatRoute.response
                    (ChatRoute.POST (flows := muteFlows) 0 1 sample_request ∅)))
         2 3 sample_blob 0 UseChat.initial)
    = UseChat.reported UseChat.initial.
Proof.
  apply (empty_audio_reply_is_dropped (browser := scriptedBrowser)
           (λ _, Returned
                   (ChatRoute.response
                      (ChatRoute.POST (flows := muteFlows) 0 1 sample_request ∅)))
           2 3 sample_blob 0 UseChat.initial
           (ChatRoute.response
              (ChatRoute.POST (flows := muteFlows) 0 1 sample_request ∅))
           {| ChatRoute.text := js "Noon."; ChatRoute.audioDataUri := [] |}).
  - reflexivity.
  - vm_compute. reflexivity.
  - vm_compute. reflexivity.
  - reflexivity.
Defined.

Lemma quota_exceeded_reply_is_not_retried_witness :
  ∃ message,
    ChatRoute.response (ChatRoute.POST (flows := quotaFlows) 0 1 sample_request ∅)
    = ChatRoute.respond 429 (ChatRoute.quotaJson message)
    ∧ UseChat.timers
        (UseChat.sendAudioToApi (browser := scriptedBrowser)
           (λ _, Returned
                   (ChatRoute.response
                      (ChatRoute.POST (flows := quotaFlows) 0 1 sample_request ∅)))
           2 3 sample_blob 0 UseChat.initial)
      = UseChat.timers UseChat.initial
    ∧ UseChat.messages
        (UseChat.sendAudioToApi (browser := scriptedBrowser)
           (λ _, Returned
                   (ChatRoute.response
                      (ChatRoute.POST (flows := quotaFlows) 0 1 sample_request ∅)))
           2 3 sample_blob 0 UseChat.initial)
      = UseChat.messages UseChat.initial
        ++ [message_of (browser := scriptedBrowser) (UseChat.idsDrawn UseChat.initial) 3
              ([10060%N] ++ js " Error: " ++ message) UseChat.assistant]
    ∧ UseChat.reported
        (UseChat.sendAudioToApi (browser := scriptedBrowser)
           (λ _, Returned
                   (ChatRoute.response
                      (ChatRoute.POST (flows := quotaFlows) 0 1 sample_request ∅)))
           2 3 sample_blob 0 UseChat.initial)
      = UseChat.reported UseChat.initial ++ [newError message].
Proof.
  apply (quota_exceeded_reply_is_not_retried (flows := quotaFlows)
           (browser := scriptedBrowser) 0 1 sample_request ∅
           (newError (js "[429 Too Many Requests] quota exceeded"))
           2 3 sample_blob 0 UseChat.initial).
  - vm_compute. repeat split; reflexivity.
  - right. exists (js "what time is it"). repeat split.
    vm_compute. discriminate.
  - vm_compute. reflexivity.
Defined.

(** The same exchange, evaluated: the route's answer to the quota failure
    of the generation stage, and the single message the controller shows
    for it. *)
Example quota_failure_exchange :
  ChatRoute.response (ChatRoute.POST (flows := quotaFlows) 0 1 sample_request ∅)
  = ChatRoute.respond 429
      (ChatRoute.quotaJson (js "AI service is busy. Please try again shortly."))
  ∧ UseChat.text <$>
      UseChat.messages
        (UseChat.conversation (browser := scriptedBrowser)
           [(1, Returned
                  (ChatRoute.response
                     (ChatRoute.POST (flows := quotaFlows) 0 1 sample_request ∅)))]
           0 sample_blob 0 UseChat.initial)
    = [[10060%N] ++ js " Error: AI service is busy. Please try again shortly."]
  ∧ UseChat.dispatched
      (UseChat.conversation (browser := scriptedBrowser)
         [(1, Returned
                (ChatRoute.response
                   (ChatRoute.POST (flows := quotaFlows) 0 1 sample_request ∅)))]
         0 sample_blob 0 UseChat.initial)
    = [{| UseChat.at_ := 0; UseChat.sentUri := sample_uri; UseChat.attempt := 0 |}].
Proof. vm_compute. repeat split; reflexivity. Qed.

(** The retry mechanism on an answer whose wording the controller does
    look for: two retries, 3 and 6 seconds after the answers, then the
    final message. *)
Example retry_schedule_instance :
  UseChat.at_ <$>
    UseChat.dispatched
      (UseChat.conversation (browser := scriptedBrowser)
         [(1, Returned rate_limit_reply); (1, Returned rate_limit_reply);
          (1, Returned rate_limit_reply)]
         0 sample_blob 0 UseChat.initial)
  = [0; 3001; 9002]
  ∧ UseChat.text <$>
      UseChat.messages
        (UseChat.conversation (browser := scriptedBrowser)
           [(1, Returned rate_limit_reply); (1, Returned rate_limit_reply);
            (1, Returned rate_limit_reply)]
           0 sample_blob 0 UseChat.initial)
    = [[9203%N] ++ js " Rate limit reached. Retrying in 3 seconds... (1/2)";
       [9203%N] ++ js " Rate limit reached. Retrying in 6 seconds... (2/2)";
       too_many_requests_notice].
Proof. vm_compute. split; reflexivity. Qed.

Lemma validation_rejection_is_counted_witness :
  (counted 0 (ChatRoute.getRateLimitKey request_without_audio) ∅
     (ChatRoute.counts
        (ChatRoute.POST (flows := workingFlows) 0 1 request_without_audio ∅))
   ∧ ChatRoute.counts
       (ChatRoute.POST (flows := workingFlows) 0 1 request_without_audio ∅) ≠ ∅
   ∧ ChatRoute.calls
       (ChatRoute.POST (flows := workingFlows) 0 1 request_without_audio ∅) = [])
  ∧ (counted 0
       (TokenRoute.getRateLimitKey
          (token_request (Some (js "abc 1")) (Some (js "bob_2")))) ∅
       (TokenRoute.POST (sdk := scriptedSdk) sample_env 0 1
          (token_request (Some (js "abc 1")) (Some (js "bob_2"))) ∅).2
     ∧ (TokenRoute.POST (sdk := scriptedSdk) sample_env 0 1
          (token_request (Some (js "abc 1")) (Some (js "bob_2"))) ∅).2 ≠ ∅).
Proof.
  destruct (validation_rejection_is_counted (flows := workingFlows) (sdk := scriptedSdk)
              sample_env 0 1 request_without_audio
              (token_request (Some (js "abc 1")) (Some (js "bob_2"))) ∅)
    as [Hchat Htoken].
  split; [apply Hchat | apply Htoken]; vm_compute; reflexivity.
Defined.

(** C6 as stated fails on the first request of a client when that request
    lacks its audio: the answer is 400, and the map, empty before, now holds
    a record for the client. *)
Lemma rejected_request_is_counted_counterexample :
  ChatRoute.status
    (ChatRoute.response
       (ChatRoute.POST (flows := workingFlows) 0 1 request_without_audio ∅)) = 400
  ∧ ChatRoute.counts
      (ChatRoute.POST (flows := workingFlows) 0 1 request_without_audio ∅) !! client_a
    = Some {| count := 1; resetTime := 60000 |}
  ∧ ChatRoute.counts
      (ChatRoute.POST (flows := workingFlows) 0 1 request_without_audio ∅) ≠ ∅.
Proof.
  split; [vm_compute; reflexivity|].
  assert (ChatRoute.counts
            (ChatRoute.POST (flows := workingFlows) 0 1 request_without_audio ∅)
          !! client_a = Some {| count := 1; resetTime := 60000 |}) as H
    by (vm_compute; reflexivity).
  split; [exact H|]. intros E. rewrite E, lookup_empty in H. discriminate.
Qed.

Lemma token_issued_iff_identifiers_witness :
  (TokenRoute.status
     (TokenRoute.POST (sdk := scriptedSdk) sample_env 0 1
        (token_request (Some (js "abc-1")) (Some (js "bob_2"))) ∅).1 = 200
   ↔ both_identifiers (Some (js "abc-1")) (Some (js "bob_2")))
  ∧ (both_identifiers (Some (js "abc-1")) (Some (js "bob_2")) →
     ∃ room' part key secret wsUrl token,
       Some (js "abc-1") = Some room' ∧ Some (js "bob_2") = Some part
       ∧ TokenRoute.LIVEKIT_API_KEY sample_env = Some key
       ∧ TokenRoute.LIVEKIT_API_SECRET sample_env = Some secret
       ∧ TokenRoute.NEXT_PUBLIC_LIVEKIT_URL sample_env = Some wsUrl
       ∧ toJwt (LiveKitSdk := scriptedSdk)
           {| apiKey := key; apiSecret := secret; identity := part;
              name := part; ttl := js "10m"; metadataCreatedAt := 1;
              metadataRoomName := room';
              grant := {| room := room'; roomJoin := true; canPublish := true;
                          canSubscribe := true; canPublishData := true |} |}
         = Returned token
       ∧ TokenRoute.body
           (TokenRoute.POST (sdk := scriptedSdk) sample_env 0 1
              (token_request (Some (js "abc-1")) (Some (js "bob_2"))) ∅).1
         = {| TokenRoute.error := None; TokenRoute.rateLimitExceeded := false;
              TokenRoute.retryAfter := None; TokenRoute.timestamp := None;
              TokenRoute.credential :=
                Some {| TokenRoute.token := token; TokenRoute.url := wsUrl;
                        TokenRoute.expiresIn := 600;
                        TokenRoute.roomName := room';
                        TokenRoute.participantName := part |} |})
  ∧ (¬ both_identifiers (Some (js "abc-1")) (Some (js "bob_2")) →
     TokenRoute.status
       (TokenRoute.POST (sdk := scriptedSdk) sample_env 0 1
          (token_request (Some (js "abc-1")) (Some (js "bob_2"))) ∅).1 = 400)
  ∧ identifier (js "abc-1") ∧ identifier (js "bob_2") ∧ ¬ identifier (js "abc 1").
Proof.
  apply (token_issued_iff_identifiers (sdk := scriptedSdk) sample_env 0 1
           (token_request (Some (js "abc-1")) (Some (js "bob_2"))) ∅
           (Some (js "abc-1")) (Some (js "bob_2"))).
  - vm_compute. reflexivity.
  - reflexivity.
  - exists (js "APIkey"), (js "secret"), (js "wss://voice.example.livekit.cloud").
    repeat split; try (vm_compute; discriminate). right. vm_compute. reflexivity.
  - intros at_. eexists. reflexivity.
Defined.

(** The two scenarios of the token route, evaluated. *)
Example token_scenarios :
  TokenRoute.status
    (TokenRoute.POST (sdk := scriptedSdk) sample_env 0 1
       (token_request (Some (js "abc-1")) (Some (js "bob_2"))) ∅).1 = 200
  ∧ TokenRoute.status
      (TokenRoute.POST (sdk := scriptedSdk) sample_env 0 1
         (token_request (Some (js "abc 1")) (Some (js "bob_2"))) ∅).1 = 400.
Proof. vm_compute. split; reflexivity. Qed.

(** * Further properties *)

(** Membership in an explicit list. *)
Ltac in_list :=
  repeat first [apply list_elem_of_here | apply list_elem_of_further].

(** ** The rate limiter, further *)

(** X1. A check of one key, by either limiter, leaves the record of every
    other key as it was. *)
Theorem check_leaves_other_keys
    (check : Z → jsstring → gmap jsstring RateRecord
             → RateResult * gmap jsstring RateRecord)
    (N now : Z) (key other : jsstring) (counts : gmap jsstring RateRecord) :
  limiter_of check N →
  other ≠ key →
  (check now key counts).2 !! other = counts !! other.
Proof.
  intros Hlim Hne. destruct (limiter_of_fixedWindow _ _ Hlim) as [-> _].
  by apply check_other.
Qed.

Lemma check_leaves_other_keys_witness :
  (ChatRoute.checkRateLimit 5 client_a
     (<[client_b := {| count := 3; resetTime := 70 |}]> ∅)).2 !! client_b
  = (<[client_b := {| count := 3; resetTime := 70 |}]> ∅ : gmap jsstring RateRecord)
    !! client_b.
Proof.
  apply (check_leaves_other_keys ChatRoute.checkRateLimit 10 5 client_a client_b).
  - left. split; reflexivity.
  - vm_compute. discriminate.
Defined.

Lemma fixedWindow_denied (limit now : Z) (key : jsstring)
    (counts : gmap jsstring RateRecord) :
  allowed (fixedWindowCheck limit now key counts).1 = false →
  (fixedWindowCheck limit now key counts).2 = counts
  ∧ remaining (fixedWindowCheck limit now key counts).1 = 0
  ∧ ∃ r, counts !! key = Some r ∧ now ≤ resetTime r ∧ limit ≤ count r
         ∧ resetIn (fixedWindowCheck limit now key counts).1 = resetTime r - now.
Proof.
  intros Hdenied.
  destruct (counts !! key) as [r|] eqn:E.
  - destruct (decide (now > resetTime r)) as [Hexp|Hlive].
    + rewrite check_fresh in Hdenied by (rewrite E; done). discriminate.
    + rewrite (check_live _ _ _ _ r E) in * by lia.
      destruct (count r >=? limit) eqn:Hc; simpl in *; [|discriminate].
      split; [done|]. split; [done|]. exists r. repeat split; try zlia.
  - rewrite check_fresh in Hdenied by (rewrite E; done). discriminate.
Qed.

(** X2. A check that either limiter denies changes nothing in the map: the
    key has a live record whose count has reached the ceiling, the answer
    carries [remaining = 0] and the time left until that record resets. *)
Theorem denied_check_changes_nothing
    (check : Z → jsstring → gmap jsstring RateRecord
             → RateResult * gmap jsstring RateRecord)
    (N now : Z) (key : jsstring) (counts : gmap jsstring RateRecord) :
  limiter_of check N →
  allowed (check now key counts).1 = false →
  (check now key counts).2 = counts
  ∧ remaining (check now key counts).1 = 0
  ∧ ∃ r, counts !! key = Some r ∧ now ≤ resetTime r ∧ N ≤ count r
         ∧ resetIn (check now key counts).1 = resetTime r - now.
Proof.
  intros Hlim Hdenied. destruct (limiter_of_fixedWindow _ _ Hlim) as [-> _].
  by apply fixedWindow_denied.
Qed.

Lemma denied_check_changes_nothing_witness :
  (TokenRoute.checkTokenRateLimit 100 client_a exhausted_window).2 = exhausted_window
  ∧ remaining (TokenRoute.checkTokenRateLimit 100 client_a exhausted_window).1 = 0
  ∧ ∃ r, exhausted_window !! client_a = Some r ∧ 100 ≤ resetTime r ∧ 20 ≤ count r
         ∧ resetIn (TokenRoute.checkTokenRateLimit 100 client_a exhausted_window).1
           = resetTime r - 100.
Proof.
  apply (denied_check_changes_nothing TokenRoute.checkTokenRateLimit 20 100 client_a
           exhausted_window).
  - right. split; reflexivity.
  - vm_compute. reflexivity.
Defined.

Section ClockFacts.

Variable limit : Z.

Lemma step_resets_within (now : Z) (ev : event) (counts : gmap jsstring RateRecord) :
  event_time ev ≤ now →
  resets_within now counts →
  resets_within now (step (fixedWindowCheck limit) ev counts).
Proof.
  intros Ht Hinv k r. destruct ev as [t key|t]; simpl in *.
  - destruct (decide (k = key)) as [->|Hne].
    + destruct (counts !! key) as [r0|] eqn:E.
      * destruct (decide (t > resetTime r0)).
        -- rewrite check_fresh by (rewrite E; done). simpl.
           rewrite lookup_insert_eq. intros [= <-]. simpl. lia.
        -- rewrite (check_live _ _ _ _ r0 E) by lia.
           pose proof (Hinv _ _ E).
           destruct (count r0 >=? limit); simpl.
           ++ rewrite E. by intros [= <-].
           ++ rewrite lookup_insert_eq. intros [= <-]. done.
      * rewrite check_fresh by (rewrite E; done). simpl.
        rewrite lookup_insert_eq. intros [= <-]. simpl. lia.
    + rewrite check_other by done. apply Hinv.
  - rewrite purge_lookup. destruct (counts !! k) as [r0|] eqn:E; [|done].
    destruct (decide (t > resetTime r0)); [done|]. intros [= <-]. by eapply Hinv.
Qed.

Lemma run_resets_within (now : Z) (history : list event)
    (counts : gmap jsstring RateRecord) :
  Forall (λ ev, event_time ev ≤ now) history →
  resets_within now counts →
  resets_within now (run (fixedWindowCheck limit) history counts).
Proof.
  revert counts. induction history as [|ev history IH]; intros counts Hall Hinv;
    [done|].
  apply Forall_cons in Hall as [Hev Hall]. simpl. apply IH; [done|].
  by apply step_resets_within.
Qed.

(** The answer of a check on a map whose counts and reset times are in
    range. *)
Lemma check_bounds (now : Z) (key : jsstring) (counts : gmap jsstring RateRecord) :
  1 ≤ limit →
  within_ceiling limit counts →
  resets_within now counts →
  0 ≤ remaining (fixedWindowCheck limit now key counts).1 ≤ limit - 1
  ∧ 0 ≤ resetIn (fixedWindowCheck limit now key counts).1 ≤ TIME_WINDOW.
Proof.
  intros Hpos Hceil Hreset.
  destruct (counts !! key) as [r|] eqn:E.
  - destruct (decide (now > resetTime r)) as [Hexp|Hlive].
    + rewrite check_fresh by (rewrite E; done). simpl. unfold TIME_WINDOW. lia.
    + rewrite (check_live _ _ _ _ r E) by lia.
      pose proof (Hceil _ _ E). pose proof (Hreset _ _ E).
      destruct (count r >=? limit) eqn:Hc; simpl; zlia.
  - rewrite check_fresh by (rewrite E; done). simpl. unfold TIME_WINDOW. lia.
Qed.

End ClockFacts.

Lemma ceilDiv_seconds (ms : Z) :
  0 ≤ ms ≤ TIME_WINDOW → 0 ≤ Js.ceilDiv ms 1000 ≤ 60.
Proof.
  unfold Js.ceilDiv, TIME_WINDOW. intros H.
  assert (-60 ≤ (- ms) / 1000) by (apply Z.div_le_lower_bound; lia).
  assert ((- ms) / 1000 ≤ 0) by (apply Z.div_le_upper_bound; lia).
  lia.
Qed.

(** Bounds of the answer to a check after any traffic from the empty map,
    when no earlier event bears a later instant. *)
Lemma reachable_check_bounds (limit now : Z) (key : jsstring)
    (history : list event) :
  1 ≤ limit →
  Forall (λ ev, event_time ev ≤ now) history →
  0 ≤ remaining (fixedWindowCheck limit now key
                   (run (fixedWindowCheck limit) history ∅)).1 ≤ limit - 1
  ∧ 0 ≤ resetIn (fixedWindowCheck limit now key
                   (run (fixedWindowCheck limit) history ∅)).1 ≤ TIME_WINDOW.
Proof.
  intros HN Hclock. apply check_bounds; [done| |].
  - apply run_within_ceiling; [done|]. intros k r. by rewrite lookup_empty.
  - apply run_resets_within; [done|]. intros k r. by rewrite lookup_empty.
Qed.

(** X3. After any traffic that started from the empty map, a check made
    when the clock has not run backwards (no earlier event bears a later
    instant) is answered with [remaining] between 0 and [N - 1] and with
    [resetIn] between 0 and the window length, so the number of seconds a
    route announces for it, [Math.ceil(resetIn / 1000)], lies between 0
    and 60. *)
Theorem answer_bounds
    (check : Z → jsstring → gmap jsstring RateRecord
             → RateResult * gmap jsstring RateRecord)
    (N now : Z) (key : jsstring) (history : list event) :
  limiter_of check N →
  Forall (λ ev, event_time ev ≤ now) history →
  0 ≤ remaining (check now key (run check history ∅)).1 ≤ N - 1
  ∧ 0 ≤ resetIn (check now key (run check history ∅)).1 ≤ TIME_WINDOW
  ∧ 0 ≤ Js.ceilDiv (resetIn (check now key (run check history ∅)).1) 1000 ≤ 60.
Proof.
  intros Hlim Hclock. destruct (limiter_of_fixedWindow _ _ Hlim) as [-> HN].
  destruct (reachable_check_bounds N now key history HN Hclock) as [Hrem Hin].
  split; [done|]. split; [done|]. by apply ceilDiv_seconds.
Qed.

Lemma answer_bounds_witness :
  0 ≤ remaining (ChatRoute.checkRateLimit 60000 client_a
                   (run ChatRoute.checkRateLimit
                      (Probe 0 client_a :: burst_then_reset_instant) ∅)).1 ≤ 10 - 1
  ∧ 0 ≤ resetIn (ChatRoute.checkRateLimit 60000 client_a
                   (run ChatRoute.checkRateLimit
                      (Probe 0 client_a :: burst_then_reset_instant) ∅)).1 ≤ TIME_WINDOW
  ∧ 0 ≤ Js.ceilDiv
          (resetIn (ChatRoute.checkRateLimit 60000 client_a
                      (run ChatRoute.checkRateLimit
                         (Probe 0 client_a :: burst_then_reset_instant) ∅)).1) 1000
      ≤ 60.
Proof.
  apply (answer_bounds ChatRoute.checkRateLimit 10 60000 client_a
           (Probe 0 client_a :: burst_then_reset_instant)).
  - left. split; reflexivity.
  - unfold burst_then_reset_instant. simpl.
    repeat (apply Forall_cons; split); try apply Forall_nil; simpl; lia.
Defined.

(** X4. The sweep is invisible to the callers of a limiter: a check made
    after a sweep that ran no later than the check is answered as it would
    have been without the sweep, and leaves the same record under its key. *)
Theorem sweep_is_transparent
    (check : Z → jsstring → gmap jsstring RateRecord
             → RateResult * gmap jsstring RateRecord)
    (N swept now : Z) (key : jsstring) (counts : gmap jsstring RateRecord) :
  limiter_of check N →
  swept ≤ now →
  (check now key (purgeExpired swept counts)).1 = (check now key counts).1
  ∧ (check now key (purgeExpired swept counts)).2 !! key
    = (check now key counts).2 !! key.
Proof.
  intros Hlim Hle. destruct (limiter_of_fixedWindow _ _ Hlim) as [-> _].
  destruct (counts !! key) as [r|] eqn:E.
  - destruct (decide (now > resetTime r)) as [Hexp|Hlive].
    + rewrite !check_fresh; simpl.
      * by rewrite !lookup_insert_eq.
      * by rewrite E.
      * rewrite purge_lookup, E. by destruct (decide (swept > resetTime r)).
    + assert (purgeExpired swept counts !! key = Some r) as E'.
      { rewrite purge_lookup, E. by rewrite decide_False by lia. }
      rewrite (check_live _ _ _ _ r E), (check_live _ _ _ _ r E') by lia.
      destruct (count r >=? N); simpl; [by rewrite E, E'|].
      by rewrite !lookup_insert_eq.
  - rewrite !check_fresh; simpl.
    + by rewrite !lookup_insert_eq.
    + by rewrite E.
    + by rewrite purge_lookup, E.
Qed.

Lemma sweep_is_transparent_witness :
  (TokenRoute.checkTokenRateLimit 60001 client_a (purgeExpired 60001 exhausted_window)).1
  = (TokenRoute.checkTokenRateLimit 60001 client_a exhausted_window).1
  ∧ (TokenRoute.checkTokenRateLimit 60001 client_a
       (purgeExpired 60001 exhausted_window)).2 !! client_a
    = (TokenRoute.checkTokenRateLimit 60001 client_a exhausted_window).2 !! client_a.
Proof.
  apply (sweep_is_transparent TokenRoute.checkTokenRateLimit 20 60001 60001 client_a
           exhausted_window).
  - right. split; reflexivity.
  - lia.
Defined.

(** X5. The sweep keeps exactly the records that have not expired, and a
    later sweep makes an earlier one redundant. *)
Theorem sweep_keeps_live_records (earlier later : Z)
    (counts : gmap jsstring RateRecord) :
  earlier ≤ later →
  (∀ (k : jsstring) r,
     purgeExpired later counts !! k = Some r
     ↔ counts !! k = Some r ∧ later ≤ resetTime r)
  ∧ purgeExpired later (purgeExpired earlier counts) = purgeExpired later counts.
Proof.
  intros Hle. split.
  - intros k r. rewrite purge_lookup.
    destruct (counts !! k) as [r0|];
      [|split; [discriminate|intros [? _]; discriminate]].
    destruct (decide (later > resetTime r0)); split.
    + discriminate.
    + intros [[= ->] ?]. lia.
    + intros [= ->]. split; [done|lia].
    + by intros [[= ->] _].
  - apply map_eq. intros k. rewrite !purge_lookup.
    destruct (counts !! k) as [r0|]; [|done].
    destruct (decide (earlier > resetTime r0)); [|done].
    by rewrite decide_True by lia.
Qed.

Lemma sweep_keeps_live_records_witness :
  (∀ (k : jsstring) r,
     purgeExpired 60001 exhausted_window !! k = Some r
     ↔ exhausted_window !! k = Some r ∧ 60001 ≤ resetTime r)
  ∧ purgeExpired 60001 (purgeExpired 100 exhausted_window)
    = purgeExpired 60001 exhausted_window.
Proof.
  apply (sweep_keeps_live_records 100 60001 exhausted_window). lia.
Defined.

(** ** The chat route, further *)

Section ChatRouteFacts.

Context {flows : AiFlows}.

Lemma chat_POST_denied (now sent : Z) (req : ChatRoute.Request)
    (counts : gmap jsstring RateRecord) :
  allowed (ChatRoute.checkRateLimit now (ChatRoute.getRateLimitKey req) counts).1
    = false →
  ChatRoute.POST now sent req counts =
    let limiter :=
      (ChatRoute.checkRateLimit now (ChatRoute.getRateLimitKey req) counts).1 in
    let waitSeconds := Js.ceilDiv (resetIn limiter) 1000 in
    {| ChatRoute.response :=
         {| ChatRoute.status := 429;
            ChatRoute.headers :=
              [("Retry-After"%string, ChatRoute.HText (Js.toString waitSeconds));
               ("X-RateLimit-Limit"%string,
                ChatRoute.HText (Js.toString ChatRoute.REQUEST_LIMIT));
               ("X-RateLimit-Remaining"%string, ChatRoute.HText (js "0"));
               ("X-RateLimit-Reset"%string,
                ChatRoute.HInstant (sent + resetIn limiter))];
            ChatRoute.body :=
              {| ChatRoute.error :=
                   Some (js "Rate limit exceeded. Please wait "
                         ++ Js.toString waitSeconds
                         ++ js " seconds before trying again.");
                 ChatRoute.rateLimitExceeded := true;
                 ChatRoute.retryAfter := Some waitSeconds;
                 ChatRoute.quotaExceeded := false; ChatRoute.timestamp := None;
                 ChatRoute.transcription := None; ChatRoute.aiResponse := None |} |};
       ChatRoute.calls := [];
       ChatRoute.counts :=
         (ChatRoute.checkRateLimit now (ChatRoute.getRateLimitKey req) counts).2 |}.
Proof.
  intros Hdenied. unfold ChatRoute.POST.
  destruct (ChatRoute.checkRateLimit now (ChatRoute.getRateLimitKey req) counts)
    as [limiter counts'].
  simpl in Hdenied. rewrite Hdenied. reflexivity.
Qed.

(** X6. A chat request that the limiter denies, after any traffic from the
    empty map and with a clock that has not run backwards, is answered 429
    with [rateLimitExceeded: true] and a [retryAfter] between 0 and 60
    seconds, the same number as in the [Retry-After] header and in the
    message; no stage of the pipeline is called and the counter map is left
    as the request found it. *)
Theorem chat_rate_limited_answer (now sent : Z) (req : ChatRoute.Request)
    (history : list event) :
  Forall (λ ev, event_time ev ≤ now) history →
  allowed (ChatRoute.checkRateLimit now (ChatRoute.getRateLimitKey req)
             (run ChatRoute.checkRateLimit history ∅)).1 = false →
  ∃ seconds,
    0 ≤ seconds ≤ 60
    ∧ ChatRoute.status
        (ChatRoute.response
           (ChatRoute.POST now sent req (run ChatRoute.checkRateLimit history ∅))) = 429
    ∧ ChatRoute.body
        (ChatRoute.response
           (ChatRoute.POST now sent req (run ChatRoute.checkRateLimit history ∅)))
      = {| ChatRoute.error :=
             Some (js "Rate limit exceeded. Please wait " ++ Js.toString seconds
                   ++ js " seconds before trying again.");
           ChatRoute.rateLimitExceeded := true;
           ChatRoute.retryAfter := Some seconds;
           ChatRoute.quotaExceeded := false; ChatRoute.timestamp := None;
           ChatRoute.transcription := None; ChatRoute.aiResponse := None |}
    ∧ chat_header "Retry-After"
        (ChatRoute.response
           (ChatRoute.POST now sent req (run ChatRoute.checkRateLimit history ∅)))
      = Some (ChatRoute.HText (Js.toString seconds))
    ∧ ChatRoute.calls
        (ChatRoute.POST now sent req (run ChatRoute.checkRateLimit history ∅)) = []
    ∧ ChatRoute.counts
        (ChatRoute.POST now sent req (run ChatRoute.checkRateLimit history ∅))
      = run ChatRoute.checkRateLimit history ∅.
Proof.
  intros Hclock Hdenied. rewrite (chat_POST_denied _ _ _ _ Hdenied).
  rewrite checkRateLimit_fixedWindow in *.
  destruct (reachable_check_bounds ChatRoute.REQUEST_LIMIT now
              (ChatRoute.getRateLimitKey req) history) as [_ Hin];
    [unfold ChatRoute.REQUEST_LIMIT; lia|done|].
  destruct (fixedWindow_denied _ _ _ _ Hdenied) as (Hsame & _).
  eexists. split; [by apply ceilDiv_seconds|].
  cbn [ChatRoute.response ChatRoute.status ChatRoute.body ChatRoute.calls
       ChatRoute.counts].
  repeat split; try reflexivity. exact Hsame.
Qed.

(** The two guards on a field that is absent or a string. *)
Lemma string_field_validation (now sent : Z) (req : ChatRoute.Request)
    (counts : gmap jsstring RateRecord) (field : option jsstring) :
  allowed (ChatRoute.checkRateLimit now (ChatRoute.getRateLimitKey req) counts).1
    = true →
  ChatRoute.json req = Returned field →
  (ChatRoute.status (ChatRoute.response (ChatRoute.POST now sent req counts)) = 400
   ↔ ¬ audio_uri field)
  ∧ (¬ audio_uri field →
     ChatRoute.response (ChatRoute.POST now sent req counts)
     = ChatRoute.respond 400
         (ChatRoute.errorJson
            (match field with
             | Some (_ :: _) => js "Invalid audio data format"
             | _ => js "Missing audioDataUri"
             end))).
Proof.
  intros Hallowed Hjson.
  assert (audio_uri field ∨ ¬ audio_uri field) as [Huri|Hno].
  { destruct field as [uri|]; [|right; intros (u & [=] & _)].
    destruct (Js.startsWith uri (js "data:audio/")) eqn:H.
    - left. by exists uri.
    - right. intros (u & [= <-] & Hu). congruence. }
  - destruct Huri as (uri & -> & Hprefix).
    assert (reaches_pipeline now req counts uri) as Hreach by done.
    assert (audio_uri (Some uri)) as Huri by (by exists uri).
    split; [|tauto]. split; [|tauto]. intros H400. exfalso.
    rewrite (POST_reaches_pipeline _ _ _ _ _ Hreach) in H400. simpl in H400.
    pose proof (pipeline_status sent
                  (ChatRoute.checkRateLimit now (ChatRoute.getRateLimitKey req) counts).1
                  uri) as Hp.
    destruct (ChatRoute.pipeline _ _ _) as [calls [r|e]]; simpl in *.
    + by apply (Hp r).
    + by apply (chat_failure_status sent e).
  - assert (ChatRoute.response (ChatRoute.POST now sent req counts)
            = ChatRoute.respond 400
                (ChatRoute.errorJson
                   (match field with
                    | Some (_ :: _) => js "Invalid audio data format"
                    | _ => js "Missing audioDataUri"
                    end))) as Hresp.
    { unfold ChatRoute.POST.
      destruct (ChatRoute.checkRateLimit now (ChatRoute.getRateLimitKey req) counts)
        as [limiter counts'].
      simpl in Hallowed. rewrite Hallowed, Hjson. cbn [negb].
      destruct field as [[|c uri]|]; try reflexivity.
      cbn [Js.truthy negb].
      destruct (Js.startsWith (c :: uri) (js "data:audio/")) eqn:Hprefix;
        [|reflexivity].
      exfalso. apply Hno. by exists (c :: uri). }
    rewrite Hresp. split; [|done]. split; [done|reflexivity].
Qed.

(** A body that cannot be read goes to the outer handler. *)
Lemma chat_POST_thrown (now sent : Z) (req : ChatRoute.Request)
    (counts : gmap jsstring RateRecord) (e : thrown) :
  allowed (ChatRoute.checkRateLimit now (ChatRoute.getRateLimitKey req) counts).1
    = true →
  ChatRoute.json req = Thrown e →
  ChatRoute.POST now sent req counts
  = {| ChatRoute.response := ChatRoute.failure sent e; ChatRoute.calls := [];
       ChatRoute.counts :=
         (ChatRoute.checkRateLimit now (ChatRoute.getRateLimitKey req) counts).2 |}.
Proof.
  intros Hallowed Hjson. unfold ChatRoute.POST.
  destruct (ChatRoute.checkRateLimit now (ChatRoute.getRateLimitKey req) counts)
    as [limiter counts'].
  simpl in Hallowed. by rewrite Hallowed, Hjson.
Qed.

(** X7. For a chat request that the limiter allows and whose body is a JSON
    object, the answer is 400 exactly when the [audioDataUri] field is
    absent or falsy ("Missing audioDataUri") or is a non-empty string
    without the "data:audio/" prefix ("Invalid audio data format"). A
    truthy field that is not a string is not rejected with 400: the prefix
    test throws, no stage is called and the outer handler answers 500. *)
Theorem chat_validation (now sent : Z) (req : ChatRoute.Request)
    (counts : gmap jsstring RateRecord) (field : option JsonValue) :
  allowed (ChatRoute.checkRateLimit now (ChatRoute.getRateLimitKey req) counts).1
    = true →
  ChatRoute.json req = readAudioDataUri field →
  (ChatRoute.status (ChatRoute.response (ChatRoute.POST now sent req counts)) = 400
   ↔ falsy_field field ∨ lacks_audio_prefix field)
  ∧ (falsy_field field →
     ChatRoute.response (ChatRoute.POST now sent req counts)
     = ChatRoute.respond 400 (ChatRoute.errorJson (js "Missing audioDataUri")))
  ∧ (lacks_audio_prefix field →
     ChatRoute.response (ChatRoute.POST now sent req counts)
     = ChatRoute.respond 400 (ChatRoute.errorJson (js "Invalid audio data format")))
  ∧ (truthy_non_string field →
     ChatRoute.response (ChatRoute.POST now sent req counts)
     = ChatRoute.failure sent startsWithTypeError
     ∧ ChatRoute.status (ChatRoute.response (ChatRoute.POST now sent req counts)) = 500
     ∧ ChatRoute.calls (ChatRoute.POST now sent req counts) = []).
Proof.
  intros Hallowed Hjson.
  assert (∀ v, field = Some v → truthyValue v = true → (∀ s, v ≠ JString s) →
          ChatRoute.POST now sent req counts
          = {| ChatRoute.response := ChatRoute.failure sent startsWithTypeError;
               ChatRoute.calls := [];
               ChatRoute.counts :=
                 (ChatRoute.checkRateLimit now (ChatRoute.getRateLimitKey req)
                    counts).2 |}) as Hthrows.
  { intros v -> Htruthy Hkind. apply chat_POST_thrown; [done|].
    rewrite Hjson. unfold readAudioDataUri.
    destruct v; try (by rewrite Htruthy). by destruct (Hkind s). }
  assert (ChatRoute.status (ChatRoute.failure sent startsWithTypeError) = 500)
    as H500 by (vm_compute; reflexivity).
  assert (∀ v, field = Some v → truthyValue v = false → (∀ s, v ≠ JString s) →
          ChatRoute.json req = Returned None) as Hmissing.
  { intros v -> Hfalsy Hkind. rewrite Hjson. unfold readAudioDataUri.
    destruct v; try (by rewrite Hfalsy). by destruct (Hkind s). }
  assert (falsy_field field ∨ lacks_audio_prefix field ∨ truthy_non_string field
          ∨ ∃ uri, field = Some (JString uri)
                   ∧ Js.startsWith uri (js "data:audio/") = true) as Hcases.
  { destruct field as [v|]; [|by left].
    destruct (truthyValue v) eqn:Htruthy; [|by left].
    destruct v as [|b|z|s|]; try (right; right; left; eexists; by repeat split).
    destruct (Js.startsWith s (js "data:audio/")) eqn:Hprefix.
    - right. right. right. by exists s.
    - right. left. exists s. repeat split; [|done]. by destruct s. }
  assert (falsy_field field →
          ChatRoute.response (ChatRoute.POST now sent req counts)
          = ChatRoute.respond 400 (ChatRoute.errorJson (js "Missing audioDataUri")))
    as Hfalsy.
  { intros Hf. destruct field as [v|].
    - destruct (string_field_validation now sent req counts
                  (match v with JString s => Some s | _ => None end) Hallowed)
        as [_ Hresp].
      { destruct v; try (by apply (Hmissing _ eq_refl Hf)).
        by rewrite Hjson. }
      rewrite Hresp.
      + destruct v as [| | |[|c s]|]; try reflexivity. discriminate Hf.
      + intros (uri & Huri & Hprefix). destruct v as [| | |[|c s]|]; try discriminate.
        injection Huri as <-. discriminate Hprefix.
    - destruct (string_field_validation now sent req counts None Hallowed)
        as [_ Hresp]; [by rewrite Hjson|].
      apply Hresp. by intros (uri & [=] & _). }
  assert (lacks_audio_prefix field →
          ChatRoute.response (ChatRoute.POST now sent req counts)
          = ChatRoute.respond 400
              (ChatRoute.errorJson (js "Invalid audio data format"))) as Hlacks.
  { intros (s & -> & Hne & Hprefix).
    destruct (string_field_validation now sent req counts (Some s) Hallowed)
      as [_ Hresp]; [by rewrite Hjson|].
    rewrite Hresp.
    - by destruct s.
    - intros (uri & [= <-] & Hyes). congruence. }
  split; [|split; [done|split; [done|]]].
  - split.
    + intros H400.
      destruct Hcases as [Hf | [Hl | [(v & Hv & Ht & Hk) | (uri & -> & Hprefix)]]];
        [by left | by right | |].
      * rewrite (Hthrows v Hv Ht Hk) in H400. cbn [ChatRoute.response] in H400.
        rewrite H500 in H400. discriminate.
      * exfalso.
        destruct (string_field_validation now sent req counts (Some uri) Hallowed)
          as [Hiff _]; [by rewrite Hjson|].
        apply Hiff in H400. apply H400. by exists uri.
    + intros [Hf | Hl]; [rewrite (Hfalsy Hf) | rewrite (Hlacks Hl)]; reflexivity.
  - intros (v & Hv & Ht & Hk). rewrite (Hthrows v Hv Ht Hk).
    cbn [ChatRoute.response ChatRoute.calls]. by rewrite H500.
Qed.

(** X8. Whatever the request and whatever the collaborators do, the chat
    route answers with one of the statuses 200, 400, 429, 500, 503, 504. *)
Theorem chat_status_codes (now sent : Z) (req : ChatRoute.Request)
    (counts : gmap jsstring RateRecord) :
  ChatRoute.status (ChatRoute.response (ChatRoute.POST now sent req counts))
  ∈ [200; 400; 429; 500; 503; 504].
Proof.
  assert (∀ e, ChatRoute.status (ChatRoute.failure sent e)
               ∈ [200; 400; 429; 500; 503; 504]) as Hfail.
  { intros [name message|]; unfold ChatRoute.failure; [|in_list].
    destruct (Js.includes message (js "timeout")); [in_list|].
    destruct (Js.includes message (js "network")); [in_list|].
    destruct (Js.includes message (js "quota") || Js.includes message (js "rate limit"));
      in_list. }
  unfold ChatRoute.POST.
  destruct (ChatRoute.checkRateLimit now (ChatRoute.getRateLimitKey req) counts)
    as [limiter counts'].
  destruct (allowed limiter); cbn [negb]; [|in_list].
  destruct (ChatRoute.json req) as [[uri|]|e]; [| in_list | apply Hfail].
  destruct (Js.truthy uri); cbn [negb]; [|in_list].
  destruct (Js.startsWith uri (js "data:audio/")); cbn [negb]; [|in_list].
  unfold ChatRoute.pipeline.
  destruct (transcribeUserSpeech uri) as [T|e].
  - destruct (negb (Js.truthy T) || negb (Js.truthy (Js.trim T))); [in_list|].
    destruct (generateAIResponse T) as [R|e].
    + destruct (negb (Js.truthy R) || negb (Js.truthy (Js.trim R))); [in_list|].
      destruct (convertTextToSpeech R); in_list.
    + destruct (ChatRoute.isQuotaError e); [in_list|apply Hfail].
  - destruct (ChatRoute.isQuotaError e); [in_list|apply Hfail].
Qed.

(** X10. When the response-generation stage returns a reply that is empty
    or only whitespace, the endpoint answers 200 with the transcription, the
    "not sure how to respond" text and an empty [audioDataUri], and the
    speech stage is not called. *)
Theorem empty_reply_short_circuits (now sent : Z) (req : ChatRoute.Request)
    (counts : gmap jsstring RateRecord) (uri T R : jsstring) :
  reaches_pipeline now req counts uri →
  transcribeUserSpeech uri = Returned T →
  Js.trim T ≠ [] →
  generateAIResponse T = Returned R →
  Js.trim R = [] →
  ChatRoute.response (ChatRoute.POST now sent req counts)
  = ChatRoute.respond 200
      (ChatRoute.replyJson T (js "I'm not sure how to respond to that.") [])
  ∧ ChatRoute.calls (ChatRoute.POST now sent req counts)
    = [ChatRoute.CallTranscribe uri; ChatRoute.CallGenerate T].
Proof.
  intros Hreach HT ET HR ER. rewrite (POST_reaches_pipeline _ _ _ _ _ Hreach). simpl.
  unfold ChatRoute.pipeline. rewrite HT, blank_guard, bool_decide_false by done.
  rewrite HR, blank_guard, bool_decide_true by done. split; reflexivity.
Qed.

(** X11. When the body of a chat request that the limiter allows cannot be
    parsed, the exception goes to the outer handler: no stage is called and
    the answer is never 400; unless the exception's message carries one of
    the handler's wordings, it is 500 with that message. *)
Theorem unparsable_body_is_a_failure (now sent : Z) (req : ChatRoute.Request)
    (counts : gmap jsstring RateRecord) (e : thrown) :
  allowed (ChatRoute.checkRateLimit now (ChatRoute.getRateLimitKey req) counts).1
    = true →
  ChatRoute.json req = Thrown e →
  ChatRoute.response (ChatRoute.POST now sent req counts) = ChatRoute.failure sent e
  ∧ ChatRoute.calls (ChatRoute.POST now sent req counts) = []
  ∧ ChatRoute.status (ChatRoute.response (ChatRoute.POST now sent req counts)) ≠ 400
  ∧ (∀ name message,
       e = ErrorObj name message →
       Js.includes message (js "timeout") = false →
       Js.includes message (js "network") = false →
       Js.includes message (js "quota") = false →
       Js.includes message (js "rate limit") = false →
       ChatRoute.status (ChatRoute.response (ChatRoute.POST now sent req counts)) = 500
       ∧ ChatRoute.error
           (ChatRoute.body (ChatRoute.response (ChatRoute.POST now sent req counts)))
         = Some message).
Proof.
  intros Hallowed Hjson.
  assert (ChatRoute.POST now sent req counts
          = {| ChatRoute.response := ChatRoute.failure sent e; ChatRoute.calls := [];
               ChatRoute.counts :=
                 (ChatRoute.checkRateLimit now (ChatRoute.getRateLimitKey req)
                    counts).2 |}) as ->.
  { unfold ChatRoute.POST.
    destruct (ChatRoute.checkRateLimit now (ChatRoute.getRateLimitKey req) counts)
      as [limiter counts'].
    simpl in Hallowed. by rewrite Hallowed, Hjson. }
  cbn [ChatRoute.response ChatRoute.calls].
  split; [done|]. split; [done|]. split; [apply chat_failure_status|].
  intros name message -> H1 H2 H3 H4. unfold ChatRoute.failure.
  rewrite H1, H2, H3, H4. split; reflexivity.
Qed.

(** X12. The text-to-speech flow: a text without content gets an empty
    audio field whatever the model would answer; for a text with content,
    a model that produces no media makes the flow fail with "no media
    returned", and whatever the flow returns is a WAV data URI. *)
Theorem convertTextToSpeech_shape (text : jsstring) :
  (Js.trim text = [] → convertTextToSpeech text = Returned [])
  ∧ (Js.trim text ≠ [] → aiGenerateSpeech text = Returned None →
     convertTextToSpeech text = Thrown (newError (js "no media returned")))
  ∧ (∀ audio, Js.trim text ≠ [] → convertTextToSpeech text = Returned audio →
     Js.startsWith audio (js "data:audio/wav;base64,") = true ∧ audio ≠ []).
Proof.
  split; [|split].
  - intros E. unfold convertTextToSpeech. by rewrite E.
  - intros E Hnone. unfold convertTextToSpeech.
    destruct (Js.trim text); [done|]. cbn [negb Js.truthy]. by rewrite Hnone.
  - intros audio E Hret.
    pose proof (convertTextToSpeech_returns text audio E Hret) as Hprefix.
    split; [done|]. intros ->. discriminate.
Qed.

End ChatRouteFacts.

(** X9. The answer of the chat route depends on the three stages only
    along one chain: the transcription of the request's audio, then, when
    that has content, the reply to that transcription, then, when that has
    content, the speech for that reply. Collaborators that answer alike
    along this chain give the same response, and leave the same counter
    map, however they differ on any other input. *)
Theorem stages_consulted_along_chain (flows flows' : AiFlows) (now sent : Z)
    (req : ChatRoute.Request) (counts : gmap jsstring RateRecord) :
  (∀ uri, ChatRoute.json req = Returned (Some uri) →
          Js.startsWith uri (js "data:audio/") = true →
          agree_along_chain flows flows' uri) →
  ChatRoute.POST (flows := flows) now sent req counts
  = ChatRoute.POST (flows := flows') now sent req counts.
Proof.
  intros Hagree. unfold ChatRoute.POST.
  destruct (ChatRoute.checkRateLimit now (ChatRoute.getRateLimitKey req) counts)
    as [limiter counts'].
  destruct (allowed limiter); cbn [negb]; [|reflexivity].
  destruct (ChatRoute.json req) as [[uri|]|e]; try reflexivity.
  destruct (Js.truthy uri); cbn [negb]; [|reflexivity].
  destruct (Js.startsWith uri (js "data:audio/")) eqn:Hprefix; cbn [negb];
    [|reflexivity].
  destruct (Hagree uri eq_refl Hprefix) as [HT Hnext].
  assert (ChatRoute.pipeline (flows := flows) sent limiter uri
          = ChatRoute.pipeline (flows := flows') sent limiter uri) as ->;
    [|reflexivity].
  unfold ChatRoute.pipeline. rewrite <- HT.
  destruct (transcribeUserSpeech (AiFlows := flows) uri) as [T|e]; [|reflexivity].
  rewrite blank_guard. case_bool_decide as HblankT; [reflexivity|].
  destruct (Hnext T eq_refl HblankT) as [HR Hlast]. rewrite <- HR.
  destruct (generateAIResponse (AiFlows := flows) T) as [R|e]; [|reflexivity].
  rewrite blank_guard. case_bool_decide as HblankR; [reflexivity|].
  by rewrite (Hlast R eq_refl HblankR).
Qed.

Lemma stages_consulted_along_chain_witness :
  ChatRoute.POST (flows := workingFlows) 0 1 sample_request ∅
  = ChatRoute.POST (flows := pickyFlows) 0 1 sample_request ∅.
Proof.
  apply (stages_consulted_along_chain workingFlows pickyFlows 0 1 sample_request ∅).
  intros uri Hjson _.
  assert (uri = sample_uri) as ->
    by (unfold sample_request in Hjson; cbn in Hjson; congruence).
  split; [vm_compute; reflexivity|].
  intros T HT _.
  assert (T = js "what time is it") as ->
    by (cbn in HT; congruence).
  split; [vm_compute; reflexivity|].
  intros R HR _.
  assert (R = js "Noon.") as -> by (cbn in HR; congruence).
  vm_compute. reflexivity.
Defined.

Lemma chat_rate_limited_answer_witness :
  ∃ seconds,
    0 ≤ seconds ≤ 60
    ∧ ChatRoute.status
        (ChatRoute.response
           (ChatRoute.POST (flows := workingFlows) 1500 1501 sample_request
              (run ChatRoute.checkRateLimit ten_probes ∅))) = 429
    ∧ ChatRoute.body
        (ChatRoute.response
           (ChatRoute.POST (flows := workingFlows) 1500 1501 sample_request
              (run ChatRoute.checkRateLimit ten_probes ∅)))
      = {| ChatRoute.error :=
             Some (js "Rate limit exceeded. Please wait " ++ Js.toString seconds
                   ++ js " seconds before trying again.");
           ChatRoute.rateLimitExceeded := true;
           ChatRoute.retryAfter := Some seconds;
           ChatRoute.quotaExceeded := false; ChatRoute.timestamp := None;
           ChatRoute.transcription := None; ChatRoute.aiResponse := None |}
    ∧ chat_header "Retry-After"
        (ChatRoute.response
           (ChatRoute.POST (flows := workingFlows) 1500 1501 sample_request
              (run ChatRoute.checkRateLimit ten_probes ∅)))
      = Some (ChatRoute.HText (Js.toString seconds))
    ∧ ChatRoute.calls
        (ChatRoute.POST (flows := workingFlows) 1500 1501 sample_request
           (run ChatRoute.checkRateLimit ten_probes ∅)) = []
    ∧ ChatRoute.counts
        (ChatRoute.POST (flows := workingFlows) 1500 1501 sample_request
           (run ChatRoute.checkRateLimit ten_probes ∅))
      = run ChatRoute.checkRateLimit ten_probes ∅.
Proof.
  apply (chat_rate_limited_answer (flows := workingFlows) 1500 1501 sample_request
           ten_probes).
  - unfold ten_probes. simpl.
    repeat (apply Forall_cons; split); try apply Forall_nil; simpl; lia.
  - vm_compute. reflexivity.
Defined.

Lemma chat_validation_witness :
  ChatRoute.response
    (ChatRoute.POST (flows := workingFlows) 0 1 request_with_number ∅)
  = ChatRoute.failure 1 startsWithTypeError
  ∧ ChatRoute.status
      (ChatRoute.response
         (ChatRoute.POST (flows := workingFlows) 0 1 request_with_number ∅)) = 500
  ∧ ChatRoute.calls
      (ChatRoute.POST (flows := workingFlows) 0 1 request_with_number ∅) = [].
Proof.
  apply (chat_validation (flows := workingFlows) 0 1 request_with_number ∅
           (Some (JNumber false))).
  - vm_compute. reflexivity.
  - reflexivity.
  - exists (JNumber false). split; [reflexivity|]. split; [reflexivity|].
    intros s. discriminate.
Defined.

Lemma empty_reply_short_circuits_witness :
  ChatRoute.response (ChatRoute.POST (flows := speechlessFlows) 0 1 sample_request ∅)
  = ChatRoute.respond 200
      (ChatRoute.replyJson (js "what time is it")
         (js "I'm not sure how to respond to that.") [])
  ∧ ChatRoute.calls (ChatRoute.POST (flows := speechlessFlows) 0 1 sample_request ∅)
    = [ChatRoute.CallTranscribe sample_uri;
       ChatRoute.CallGenerate (js "what time is it")].
Proof.
  apply (empty_reply_short_circuits (flows := speechlessFlows) 0 1 sample_request ∅
           sample_uri (js "what time is it") (js " ")).
  - vm_compute. repeat split; reflexivity.
  - reflexivity.
  - vm_compute. discriminate.
  - reflexivity.
  - vm_compute. reflexivity.
Defined.

Lemma unparsable_body_is_a_failure_witness :
  ChatRoute.status
    (ChatRoute.response
       (ChatRoute.POST (flows := workingFlows) 0 1 unparsable_request ∅)) = 500
  ∧ ChatRoute.error
      (ChatRoute.body
         (ChatRoute.response
            (ChatRoute.POST (flows := workingFlows) 0 1 unparsable_request ∅)))
    = Some (js "Unexpected end of JSON input").
Proof.
  destruct (unparsable_body_is_a_failure (flows := workingFlows) 0 1
              unparsable_request ∅
              (ErrorObj (js "SyntaxError") (js "Unexpected end of JSON input")))
    as (_ & _ & _ & H).
  - vm_compute. reflexivity.
  - reflexivity.
  - apply (H (js "SyntaxError") (js "Unexpected end of JSON input"));
      vm_compute; reflexivity.
Defined.

Lemma convertTextToSpeech_shape_witness :
  convertTextToSpeech (flows := workingFlows) (js "  ") = Returned []
  ∧ convertTextToSpeech (flows := muteFlows) (js "Noon.")
    = Thrown (newError (js "no media returned"))
  ∧ Js.startsWith (js "data:audio/wav;base64,UklGRg==") (js "data:audio/wav;base64,")
    = true.
Proof.
  split; [|split].
  - apply (proj1 (convertTextToSpeech_shape (flows := workingFlows) (js "  "))).
    vm_compute. reflexivity.
  - apply (proj1 (proj2 (convertTextToSpeech_shape (flows := muteFlows) (js "Noon."))));
      vm_compute; [discriminate|reflexivity].
  - apply (proj1 (proj2 (proj2 (convertTextToSpeech_shape (flows := workingFlows)
                                  (js "Noon.")))
                    (js "data:audio/wav;base64,UklGRg==")
                    ltac:(vm_compute; discriminate) ltac:(vm_compute; reflexivity))).
Defined.

(** ** The token route, further *)

Lemma token_failure_codes (sent : Z) (e : thrown) :
  TokenRoute.status (TokenRoute.failure sent e) ∈ [401; 500; 504]
  ∧ TokenRoute.credential (TokenRoute.body (TokenRoute.failure sent e)) = None.
Proof.
  unfold TokenRoute.failure. destruct e as [name message|]; [|split; [in_list|done]].
  destruct (Js.includes message (js "Invalid API key")); [split; [in_list|done]|].
  destruct (Js.includes message (js "timeout")); (split; [in_list|done]).
Qed.

Lemma token_failure_not_200 (sent : Z) (e : thrown) :
  TokenRoute.status (TokenRoute.failure sent e) ≠ 200.
Proof.
  unfold TokenRoute.failure. destruct e as [name message|]; [|done].
  destruct (Js.includes message (js "Invalid API key")); [done|].
  destruct (Js.includes message (js "timeout")); done.
Qed.

Lemma health_set_present (v : option jsstring) :
  TokenHealth.set v = true ↔ is_Some (TokenRoute.present v).
Proof.
  unfold TokenHealth.set, TokenRoute.present.
  destruct v as [[|c s]|]; simpl; split; intros H; try done;
    try (by destruct H); by eexists.
Qed.

Section TokenRouteFacts.

Context {sdk : LiveKitSdk}.

(** What a 200 answer of the token route rests on. *)
Lemma token_200 (env : TokenRoute.Env) (now sent : Z) (req : TokenRoute.Request)
    (counts : gmap jsstring RateRecord) :
  TokenRoute.status (TokenRoute.POST env now sent req counts).1 = 200 →
  ∃ room part key secret wsUrl token,
    TokenRoute.json req = Returned (Some room, Some part)
    ∧ identifier room ∧ identifier part
    ∧ TokenRoute.present (TokenRoute.LIVEKIT_API_KEY env) = Some key
    ∧ TokenRoute.present (TokenRoute.LIVEKIT_API_SECRET env) = Some secret
    ∧ TokenRoute.present (TokenRoute.NEXT_PUBLIC_LIVEKIT_URL env) = Some wsUrl
    ∧ toJwt {| apiKey := key; apiSecret := secret; identity := part; name := part;
               ttl := js "10m"; metadataCreatedAt := sent; metadataRoomName := room;
               grant := {| room := room; roomJoin := true; canPublish := true;
                           canSubscribe := true; canPublishData := true |} |}
      = Returned token
    ∧ TokenRoute.body (TokenRoute.POST env now sent req counts).1
      = {| TokenRoute.error := None; TokenRoute.rateLimitExceeded := false;
           TokenRoute.retryAfter := None; TokenRoute.timestamp := None;
           TokenRoute.credential :=
             Some {| TokenRoute.token := token; TokenRoute.url := wsUrl;
                     TokenRoute.expiresIn := 600; TokenRoute.roomName := room;
                     TokenRoute.participantName := part |} |}.
Proof.
  unfold TokenRoute.POST.
  destruct (TokenRoute.checkTokenRateLimit now (TokenRoute.getRateLimitKey req) counts)
    as [limiter counts'].
  destruct (allowed limiter); cbn [negb]; [|discriminate].
  destruct (TokenRoute.json req) as [[roomName participantName]|e].
  2: { intros H. by destruct (token_failure_not_200 sent e). }
  destruct (TokenRoute.present roomName) as [room|] eqn:Er; [|discriminate].
  destruct (TokenRoute.present participantName) as [part|] eqn:Ep; [|discriminate].
  destruct (negb _ || negb _) eqn:Etest; [discriminate|].
  destruct (TokenRoute.present (TokenRoute.LIVEKIT_API_KEY env)) as [key|];
    [|discriminate].
  destruct (TokenRoute.present (TokenRoute.LIVEKIT_API_SECRET env)) as [secret|];
    [|discriminate].
  destruct (TokenRoute.present (TokenRoute.NEXT_PUBLIC_LIVEKIT_URL env)) as [wsUrl|];
    [|discriminate].
  destruct (negb _ && negb _); [discriminate|].
  destruct (toJwt _) as [token|e] eqn:Esign.
  2: { intros H. by destruct (token_failure_not_200 sent e). }
  intros _. apply present_Some in Er as [-> _], Ep as [-> _].
  apply orb_false_elim in Etest as [Hr Hp].
  apply negb_false_iff in Hr, Hp. apply test_identifier in Hr, Hp.
  exists room, part, key, secret, wsUrl, token.
  do 7 (split; [done|]). reflexivity.
Qed.

(** X13. Whatever the request, the configuration and the signer, the token
    route answers with one of the statuses 200, 400, 401, 429, 500, 504. *)
Theorem token_status_codes (env : TokenRoute.Env) (now sent : Z)
    (req : TokenRoute.Request) (counts : gmap jsstring RateRecord) :
  TokenRoute.status (TokenRoute.POST env now sent req counts).1
  ∈ [200; 400; 401; 429; 500; 504].
Proof.
  assert (∀ e, TokenRoute.status (TokenRoute.failure sent e)
               ∈ [200; 400; 401; 429; 500; 504]) as Hfail.
  { intros e. destruct (token_failure_codes sent e) as [Hc _].
    apply elem_of_cons in Hc as [->|Hc]; [in_list|].
    apply elem_of_cons in Hc as [->|Hc]; [in_list|].
    apply list_elem_of_singleton in Hc as ->. in_list. }
  unfold TokenRoute.POST.
  destruct (TokenRoute.checkTokenRateLimit now (TokenRoute.getRateLimitKey req) counts)
    as [limiter counts'].
  destruct (allowed limiter); cbn [negb]; [|in_list].
  destruct (TokenRoute.json req) as [[roomName participantName]|e]; [|apply Hfail].
  destruct (TokenRoute.present roomName); [|in_list].
  destruct (TokenRoute.present participantName); [|in_list].
  destruct (negb _ || negb _); [in_list|].
  destruct (TokenRoute.present (TokenRoute.LIVEKIT_API_KEY env)); [|in_list].
  destruct (TokenRoute.present (TokenRoute.LIVEKIT_API_SECRET env)); [|in_list].
  destruct (TokenRoute.present (TokenRoute.NEXT_PUBLIC_LIVEKIT_URL env)); [|in_list].
  destruct (negb _ && negb _); [in_list|].
  destruct (toJwt _); [in_list|apply Hfail].
Qed.

(** X14. A 200 answer of the token route carries the token that the signer
    returned for a credential whose identity and display name are the
    request's participant name and whose grant and metadata name the
    request's room, with the join, publish, subscribe and data grants and a
    ten-minute lifetime; the answer echoes the two names, gives the
    configured URL and announces 600 seconds. *)
Theorem token_answer_matches_request (env : TokenRoute.Env) (now sent : Z)
    (req : TokenRoute.Request) (counts : gmap jsstring RateRecord) :
  TokenRoute.status (TokenRoute.POST env now sent req counts).1 = 200 →
  ∃ at_ credential,
    toJwt at_ = Returned (TokenRoute.token credential)
    ∧ TokenRoute.credential (TokenRoute.body (TokenRoute.POST env now sent req counts).1)
      = Some credential
    ∧ TokenRoute.json req
      = Returned (Some (TokenRoute.roomName credential),
                  Some (TokenRoute.participantName credential))
    ∧ identity at_ = TokenRoute.participantName credential
    ∧ name at_ = TokenRoute.participantName credential
    ∧ room (grant at_) = TokenRoute.roomName credential
    ∧ metadataRoomName at_ = TokenRoute.roomName credential
    ∧ (roomJoin (grant at_) && canPublish (grant at_) && canSubscribe (grant at_)
       && canPublishData (grant at_)) = true
    ∧ ttl at_ = js "10m"
    ∧ TokenRoute.expiresIn credential = 600
    ∧ TokenRoute.NEXT_PUBLIC_LIVEKIT_URL env = Some (TokenRoute.url credential).
Proof.
  intros H200.
  destruct (token_200 env now sent req counts H200)
    as (room' & part & key & secret & wsUrl & token & Hjson & _ & _ & _ & _ & Hu
        & Hsign & Hbody).
  exists {| apiKey := key; apiSecret := secret; identity := part; name := part;
            ttl := js "10m"; metadataCreatedAt := sent; metadataRoomName := room';
            grant := {| room := room'; roomJoin := true; canPublish := true;
                        canSubscribe := true; canPublishData := true |} |},
         {| TokenRoute.token := token; TokenRoute.url := wsUrl;
            TokenRoute.expiresIn := 600; TokenRoute.roomName := room';
            TokenRoute.participantName := part |}.
  rewrite Hbody. apply present_Some in Hu as [Hu _].
  cbn. do 10 (split; [done|]). done.
Qed.

(** X15. The health probe reports "ok" exactly when the key, the secret and
    the URL are all set to non-empty values. When it does not, no request
    gets a token from the route, whatever the signer would do. *)
Theorem health_probe_and_issuance (env : TokenRoute.Env) (probed : Z) :
  (TokenHealth.status (TokenHealth.GET env probed) = js "ok"
   ↔ is_Some (TokenRoute.present (TokenRoute.LIVEKIT_API_KEY env))
     ∧ is_Some (TokenRoute.present (TokenRoute.LIVEKIT_API_SECRET env))
     ∧ is_Some (TokenRoute.present (TokenRoute.NEXT_PUBLIC_LIVEKIT_URL env)))
  ∧ (TokenHealth.status (TokenHealth.GET env probed) ≠ js "ok" →
     TokenHealth.status (TokenHealth.GET env probed) = js "misconfigured"
     ∧ ∀ (now sent : Z) (req : TokenRoute.Request)
         (counts : gmap jsstring RateRecord),
         TokenRoute.status (TokenRoute.POST env now sent req counts).1 ≠ 200).
Proof.
  assert (TokenHealth.status (TokenHealth.GET env probed) = js "ok"
          ↔ is_Some (TokenRoute.present (TokenRoute.LIVEKIT_API_KEY env))
            ∧ is_Some (TokenRoute.present (TokenRoute.LIVEKIT_API_SECRET env))
            ∧ is_Some (TokenRoute.present (TokenRoute.NEXT_PUBLIC_LIVEKIT_URL env)))
    as Hok.
  { rewrite <- !health_set_present. unfold TokenHealth.GET. cbn.
    destruct (TokenHealth.set (TokenRoute.LIVEKIT_API_KEY env)),
             (TokenHealth.set (TokenRoute.LIVEKIT_API_SECRET env)),
             (TokenHealth.set (TokenRoute.NEXT_PUBLIC_LIVEKIT_URL env)); cbn;
      split; try tauto; try (intros H; vm_compute in H; discriminate);
      try (intros (? & ? & ?); discriminate). }
  split; [exact Hok|]. intros Hnot. split.
  - unfold TokenHealth.GET in *. cbn in *.
    by destruct (TokenHealth.set _ && TokenHealth.set _ && TokenHealth.set _).
  - intros now sent req counts H200. apply Hnot, Hok.
    destruct (token_200 env now sent req counts H200)
      as (? & ? & key & secret & wsUrl & ? & _ & _ & _ & Hk & Hs & Hu & _).
    rewrite Hk, Hs, Hu. repeat split; by eexists.
Qed.

End TokenRouteFacts.

Lemma token_answer_matches_request_witness :
  ∃ at_ credential,
    toJwt (LiveKitSdk := scriptedSdk) at_ = Returned (TokenRoute.token credential)
    ∧ TokenRoute.credential
        (TokenRoute.body
           (TokenRoute.POST (sdk := scriptedSdk) sample_env 0 1
              (token_request (Some (js "abc-1")) (Some (js "bob_2"))) ∅).1)
      = Some credential
    ∧ TokenRoute.json (token_request (Some (js "abc-1")) (Some (js "bob_2")))
      = Returned (Some (TokenRoute.roomName credential),
                  Some (TokenRoute.participantName credential))
    ∧ identity at_ = TokenRoute.participantName credential
    ∧ name at_ = TokenRoute.participantName credential
    ∧ room (grant at_) = TokenRoute.roomName credential
    ∧ metadataRoomName at_ = TokenRoute.roomName credential
    ∧ (roomJoin (grant at_) && canPublish (grant at_) && canSubscribe (grant at_)
       && canPublishData (grant at_)) = true
    ∧ ttl at_ = js "10m"
    ∧ TokenRoute.expiresIn credential = 600
    ∧ TokenRoute.NEXT_PUBLIC_LIVEKIT_URL sample_env = Some (TokenRoute.url credential).
Proof.
  apply (token_answer_matches_request (sdk := scriptedSdk) sample_env 0 1
           (token_request (Some (js "abc-1")) (Some (js "bob_2"))) ∅).
  vm_compute. reflexivity.
Defined.

Lemma health_probe_and_issuance_witness :
  TokenHealth.status (TokenHealth.GET half_env 0) = js "misconfigured"
  ∧ ∀ (now sent : Z) (req : TokenRoute.Request) (counts : gmap jsstring RateRecord),
      TokenRoute.status
        (TokenRoute.POST (sdk := scriptedSdk) half_env now sent req counts).1 ≠ 200.
Proof.
  apply (health_probe_and_issuance (sdk := scriptedSdk) half_env 0).
  vm_compute. discriminate.
Defined.

(** X16. The token route validates the identifiers before it reads the
    configuration or calls the signer: a request that it answers 400 gets
    the same answer, and leaves the same counter map, under any other
    configuration and any other signer. *)
Theorem token_validation_comes_first (sdk sdk' : LiveKitSdk)
    (env env' : TokenRoute.Env) (now sent sent' : Z) (req : TokenRoute.Request)
    (counts : gmap jsstring RateRecord) :
  TokenRoute.status (TokenRoute.POST (sdk := sdk) env now sent req counts).1 = 400 →
  TokenRoute.POST (sdk := sdk') env' now sent' req counts
  = TokenRoute.POST (sdk := sdk) env now sent req counts.
Proof.
  unfold TokenRoute.POST.
  destruct (TokenRoute.checkTokenRateLimit now (TokenRoute.getRateLimitKey req) counts)
    as [limiter counts'].
  destruct (allowed limiter); cbn [negb]; [|discriminate].
  destruct (TokenRoute.json req) as [[roomName participantName]|e].
  2: { intros H. by destruct (token_failure_status sent e). }
  destruct (TokenRoute.present roomName) as [room|]; [|done].
  destruct (TokenRoute.present participantName) as [part|]; [|done].
  destruct (negb _ || negb _); [done|].
  destruct (TokenRoute.present (TokenRoute.LIVEKIT_API_KEY env)); [|discriminate].
  destruct (TokenRoute.present (TokenRoute.LIVEKIT_API_SECRET env)); [|discriminate].
  destruct (TokenRoute.present (TokenRoute.NEXT_PUBLIC_LIVEKIT_URL env));
    [|discriminate].
  destruct (negb _ && negb _); [discriminate|].
  destruct (toJwt _) as [token|e]; [discriminate|].
  intros H. by destruct (token_failure_status sent e).
Qed.

Lemma token_validation_comes_first_witness :
  TokenRoute.POST (sdk := scriptedSdk) half_env 0 7
    (token_request (Some (js "abc 1")) (Some (js "bob_2"))) ∅
  = TokenRoute.POST (sdk := scriptedSdk) sample_env 0 1
      (token_request (Some (js "abc 1")) (Some (js "bob_2"))) ∅.
Proof.
  apply (token_validation_comes_first scriptedSdk scriptedSdk sample_env half_env 0 1 7
           (token_request (Some (js "abc 1")) (Some (js "bob_2"))) ∅).
  vm_compute. reflexivity.
Defined.

Lemma uuid_char_identifier (c : N) : uuid_char c → identifier_char c.
Proof. unfold uuid_char, identifier_char. lia. Qed.

Lemma identifier_lit_app (prefix s : jsstring) :
  identifier prefix → Forall identifier_char s → identifier (prefix ++ s).
Proof.
  intros [Hne Hp] Hs. split.
  - destruct prefix; [done|discriminate].
  - by apply Forall_app.
Qed.

(** X17. The identifiers the widget sends, the room name
    "landing-voice-ai-room" and "user-" followed by a UUID, always pass the
    token route's validation: a widget request that the limiter allows is
    never answered 400. *)
Theorem widget_identifiers_pass {sdk : LiveKitSdk} {browser : Browser}
    (env : TokenRoute.Env) (now sent : Z) (req : TokenRoute.Request)
    (counts : gmap jsstring RateRecord) (n : nat) :
  Forall uuid_char (uuidv4 n) →
  allowed (TokenRoute.checkTokenRateLimit now (TokenRoute.getRateLimitKey req)
             counts).1 = true →
  TokenRoute.json req
    = Returned (Some Widget.roomName, Some (Widget.participantName n)) →
  both_identifiers (Some Widget.roomName) (Some (Widget.participantName n))
  ∧ TokenRoute.status (TokenRoute.POST env now sent req counts).1 ≠ 400.
Proof.
  intros Huuid Hallowed Hjson.
  assert (both_identifiers (Some Widget.roomName) (Some (Widget.participantName n)))
    as Hboth.
  { exists Widget.roomName, (Widget.participantName n).
    split; [done|]. split; [done|]. split.
    - apply test_identifier. vm_compute. reflexivity.
    - apply identifier_lit_app.
      + apply test_identifier. vm_compute. reflexivity.
      + eapply Forall_impl; [exact Huuid|]. apply uuid_char_identifier. }
  split; [exact Hboth|].
  pose proof (proj1 (both_identifiers_test _ _) Hboth) as Htest.
  unfold TokenRoute.POST.
  destruct (TokenRoute.checkTokenRateLimit now (TokenRoute.getRateLimitKey req) counts)
    as [limiter counts'].
  simpl in Hallowed. rewrite Hallowed, Hjson. cbn [negb].
  destruct (TokenRoute.present (Some Widget.roomName)) as [room|]; [|done].
  destruct (TokenRoute.present (Some (Widget.participantName n))) as [part|]; [|done].
  rewrite Htest.
  destruct (TokenRoute.present (TokenRoute.LIVEKIT_API_KEY env)); [|discriminate].
  destruct (TokenRoute.present (TokenRoute.LIVEKIT_API_SECRET env)); [|discriminate].
  destruct (TokenRoute.present (TokenRoute.NEXT_PUBLIC_LIVEKIT_URL env));
    [|discriminate].
  destruct (negb _ && negb _); [discriminate|].
  destruct (toJwt _) as [token|e]; [discriminate|].
  apply token_failure_status.
Qed.

Lemma widget_identifiers_pass_witness :
  both_identifiers (Some Widget.roomName)
    (Some (Widget.participantName (browser := uuidBrowser) 7))
  ∧ TokenRoute.status
      (TokenRoute.POST (sdk := scriptedSdk) sample_env 0 1
         (token_request (Some Widget.roomName)
            (Some (Widget.participantName (browser := uuidBrowser) 7))) ∅).1 ≠ 400.
Proof.
  apply (widget_identifiers_pass (sdk := scriptedSdk) (browser := uuidBrowser)
           sample_env 0 1
           (token_request (Some Widget.roomName)
              (Some (Widget.participantName (browser := uuidBrowser) 7))) ∅ 7).
  - let l := eval vm_compute in (uuidv4 (Browser := uuidBrowser) 7) in
    change (Forall uuid_char l).
    repeat (apply Forall_cons; split; [unfold uuid_char; lia|]). by apply Forall_nil.
  - vm_compute. reflexivity.
  - reflexivity.
Defined.

(** ** The client controller, further *)

Lemma ceilDiv_positive (x : Z) :
  0 < x ≤ 5000 → 1 ≤ Js.ceilDiv x 1000 ≤ 5.
Proof.
  unfold Js.ceilDiv. intros H.
  assert (-5 ≤ (- x) / 1000) by (apply Z.div_le_lower_bound; lia).
  assert ((- x) / 1000 < 0) by (apply Z.div_lt_upper_bound; lia).
  lia.
Qed.

Section HookFacts.

Context {browser : Browser}.

(** X18. [canMakeRequest] lets a request through, and leaves the state as
    it is, exactly when at least 5 seconds have passed since the last
    dispatch; before that it answers no and appends a single assistant
    message that announces the seconds left, rounded up, between 1 and 5. *)
Theorem cooldown_gate (now : Z) (st : UseChat.State) :
  UseChat.lastRequestTime st ≤ now →
  (UseChat.lastRequestTime st + 5000 ≤ now → Hook.canMakeRequest now st = (true, st))
  ∧ (now < UseChat.lastRequestTime st + 5000 →
     ∃ waitSeconds,
       1 ≤ waitSeconds ≤ 5
       ∧ 1000 * (waitSeconds - 1) < UseChat.lastRequestTime st + 5000 - now
           ≤ 1000 * waitSeconds
       ∧ Hook.canMakeRequest now st
         = (false,
            UseChat.addMessage now (wait_notice waitSeconds) UseChat.assistant st)).
Proof.
  intros Hclock. unfold Hook.canMakeRequest, UseChat.RATE_LIMIT_COOLDOWN. split.
  - intros Hdone.
    by assert ((now - UseChat.lastRequestTime st <? 5000) = false) as -> by lia.
  - intros Hwait.
    assert ((now - UseChat.lastRequestTime st <? 5000) = true) as -> by lia.
    exists (Js.ceilDiv (5000 - (now - UseChat.lastRequestTime st)) 1000).
    split; [apply ceilDiv_positive; lia|]. split; [|reflexivity].
    unfold Js.ceilDiv.
    pose proof (Z.div_mod (- (5000 - (now - UseChat.lastRequestTime st))) 1000).
    pose proof (Z.mod_pos_bound (- (5000 - (now - UseChat.lastRequestTime st))) 1000).
    lia.
Qed.

(** What [sendAudioToApi] does on every path. *)
Lemma sendAudioToApi_frame (fetch : jsstring → outcome ChatRoute.Response)
    (now landed : Z) (audioBlob : UseChat.Blob) (retryCount : Z)
    (st : UseChat.State) :
  UseChat.isThinking
    (UseChat.sendAudioToApi fetch now landed audioBlob retryCount st) = false
  ∧ UseChat.lastRequestTime
      (UseChat.sendAudioToApi fetch now landed audioBlob retryCount st) = now
  ∧ UseChat.dispatched
      (UseChat.sendAudioToApi fetch now landed audioBlob retryCount st)
    = UseChat.dispatched st
      ++ [{| UseChat.at_ := now; UseChat.sentUri := UseChat.readAsDataURL audioBlob;
             UseChat.attempt := retryCount |}].
Proof.
  unfold UseChat.sendAudioToApi, UseChat.receive, UseChat.recover, UseChat.playAudio.
  repeat case_match; simplify_eq; cbn; done.
Qed.

(** What [sendAudioToApi] appends to the transcript: at most two messages. *)
Lemma sendAudioToApi_appends (fetch : jsstring → outcome ChatRoute.Response)
    (now landed : Z) (audioBlob : UseChat.Blob) (retryCount : Z)
    (st : UseChat.State) :
  ∃ new,
    UseChat.messages (UseChat.sendAudioToApi fetch now landed audioBlob retryCount st)
    = UseChat.messages st ++ new
    ∧ (length new ≤ 2)%nat.
Proof.
  unfold UseChat.sendAudioToApi, UseChat.receive, UseChat.recover, UseChat.playAudio.
  repeat case_match; simplify_eq; cbn;
    first [ exists []; split; [by rewrite app_nil_r|simpl; lia]
          | eexists [_]; split; [reflexivity|simpl; lia]
          | eexists [_; _]; split; [by rewrite <- app_assoc|simpl; lia] ].
Qed.

(** X19. Whatever the answer and whatever the attempt, [sendAudioToApi]
    leaves [isThinking] false (also when it has scheduled a retry), has sent
    exactly one request, carrying the data URI of its blob, has stamped the
    request time with the instant of the call, and has only appended to the
    transcript, at most two messages. *)
Theorem sendAudioToApi_on_every_path
    (fetch : jsstring → outcome ChatRoute.Response) (now landed : Z)
    (audioBlob : UseChat.Blob) (retryCount : Z) (st : UseChat.State) :
  UseChat.isThinking
    (UseChat.sendAudioToApi fetch now landed audioBlob retryCount st) = false
  ∧ UseChat.lastRequestTime
      (UseChat.sendAudioToApi fetch now landed audioBlob retryCount st) = now
  ∧ UseChat.dispatched
      (UseChat.sendAudioToApi fetch now landed audioBlob retryCount st)
    = UseChat.dispatched st
      ++ [{| UseChat.at_ := now; UseChat.sentUri := UseChat.readAsDataURL audioBlob;
             UseChat.attempt := retryCount |}]
  ∧ ∃ new,
      UseChat.messages
        (UseChat.sendAudioToApi fetch now landed audioBlob retryCount st)
      = UseChat.messages st ++ new
      ∧ (length new ≤ 2)%nat.
Proof.
  destruct (sendAudioToApi_frame fetch now landed audioBlob retryCount st)
    as (H1 & H2 & H3).
  do 3 (split; [done|]). apply sendAudioToApi_appends.
Qed.

(** X21. A failure that is not a rate-limit error, be it the [Error] that
    a rejected [fetch] carries or the one made for an answer outside the
    2xx range without the wordings the controller looks for, is never
    retried: the controller appends one assistant message with the error's
    message, reports the error once and sets no timer. *)
Theorem other_failures_are_not_retried
    (fetch : jsstring → outcome ChatRoute.Response) (now landed : Z)
    (audioBlob : UseChat.Blob) (retryCount : Z) (st : UseChat.State)
    (name message : jsstring) :
  raised_by (fetch (UseChat.readAsDataURL audioBlob)) (ErrorObj name message) →
  name ≠ js "RateLimitError" →
  UseChat.messages (UseChat.sendAudioToApi fetch now landed audioBlob retryCount st)
  = UseChat.messages st
    ++ [message_of (UseChat.idsDrawn st) landed
          ([10060%N] ++ js " Error: " ++ message) UseChat.assistant]
  ∧ UseChat.reported (UseChat.sendAudioToApi fetch now landed audioBlob retryCount st)
    = UseChat.reported st ++ [ErrorObj name message]
  ∧ UseChat.timers (UseChat.sendAudioToApi fetch now landed audioBlob retryCount st)
    = UseChat.timers st
  ∧ UseChat.played (UseChat.sendAudioToApi fetch now landed audioBlob retryCount st)
    = UseChat.played st.
Proof.
  intros Hraised Hname.
  assert (UseChat.isRateLimitError (ErrorObj name message) = false) as Hkind.
  { unfold UseChat.isRateLimitError, UseChat.errorName.
    apply bool_decide_eq_false. congruence. }
  assert (UseChat.receive landed (fetch (UseChat.readAsDataURL audioBlob))
            (UseChat.recordDispatch
               {| UseChat.at_ := now;
                  UseChat.sentUri := UseChat.readAsDataURL audioBlob;
                  UseChat.attempt := retryCount |}
               (UseChat.stampRequest now (UseChat.setIsThinking true st)))
          = (UseChat.recordDispatch
               {| UseChat.at_ := now;
                  UseChat.sentUri := UseChat.readAsDataURL audioBlob;
                  UseChat.attempt := retryCount |}
               (UseChat.stampRequest now (UseChat.setIsThinking true st)),
             Some (ErrorObj name message))) as Hreceive.
  { unfold UseChat.receive.
    destruct Hraised as [-> | (r & -> & Hok & ->)]; [done|].
    rewrite Hok. cbn [negb]. by destruct (_ || _). }
  unfold UseChat.sendAudioToApi. rewrite Hreceive.
  unfold UseChat.recover. rewrite Hkind. cbn [andb UseChat.errorMessage].
  destruct st. done.
Qed.

End HookFacts.

Lemma cooldown_gate_witness :
  ∃ waitSeconds,
    1 ≤ waitSeconds ≤ 5
    ∧ 1000 * (waitSeconds - 1) < UseChat.lastRequestTime just_dispatched + 5000 - 3500
        ≤ 1000 * waitSeconds
    ∧ Hook.canMakeRequest (browser := scriptedBrowser) 3500 just_dispatched
      = (false,
         UseChat.addMessage (browser := scriptedBrowser) 3500 (wait_notice waitSeconds)
           UseChat.assistant just_dispatched).
Proof.
  apply (cooldown_gate (browser := scriptedBrowser) 3500 just_dispatched);
    vm_compute; congruence.
Defined.

Lemma other_failures_are_not_retried_witness :
  UseChat.messages
    (UseChat.sendAudioToApi (browser := scriptedBrowser)
       (λ _, Thrown (ErrorObj (js "TypeError") (js "Failed to fetch")))
       0 1 sample_blob 0 UseChat.initial)
  = UseChat.messages UseChat.initial
    ++ [message_of (browser := scriptedBrowser) (UseChat.idsDrawn UseChat.initial) 1
          ([10060%N] ++ js " Error: " ++ js "Failed to fetch") UseChat.assistant]
  ∧ UseChat.reported
      (UseChat.sendAudioToApi (browser := scriptedBrowser)
         (λ _, Thrown (ErrorObj (js "TypeError") (js "Failed to fetch")))
         0 1 sample_blob 0 UseChat.initial)
    = UseChat.reported UseChat.initial
      ++ [ErrorObj (js "TypeError") (js "Failed to fetch")]
  ∧ UseChat.timers
      (UseChat.sendAudioToApi (browser := scriptedBrowser)
         (λ _, Thrown (ErrorObj (js "TypeError") (js "Failed to fetch")))
         0 1 sample_blob 0 UseChat.initial)
    = UseChat.timers UseChat.initial
  ∧ UseChat.played
      (UseChat.sendAudioToApi (browser := scriptedBrowser)
         (λ _, Thrown (ErrorObj (js "TypeError") (js "Failed to fetch")))
         0 1 sample_blob 0 UseChat.initial)
    = UseChat.played UseChat.initial.
Proof.
  apply (other_failures_are_not_retried (browser := scriptedBrowser)
           (λ _, Thrown (ErrorObj (js "TypeError") (js "Failed to fetch")))
           0 1 sample_blob 0 UseChat.initial (js "TypeError") (js "Failed to fetch")).
  - left. reflexivity.
  - vm_compute. discriminate.
Defined.

Section RetryFacts.

Context {browser : Browser}.

(** The timers [sendAudioToApi] leaves: those it found and, below the retry
    ceiling only, the one of the retry it schedules. *)
Lemma sendAudioToApi_timers (fetch : jsstring → outcome ChatRoute.Response)
    (now landed : Z) (audioBlob : UseChat.Blob) (retryCount : Z)
    (st : UseChat.State) :
  UseChat.timers (UseChat.sendAudioToApi fetch now landed audioBlob retryCount st)
  = UseChat.timers st
  ∨ (retryCount < UseChat.MAX_RETRIES
     ∧ UseChat.timers (UseChat.sendAudioToApi fetch now landed audioBlob retryCount st)
       = UseChat.timers st
         ++ [{| UseChat.delay := UseChat.RETRY_DELAY * (retryCount + 1);
                UseChat.payload := audioBlob;
                UseChat.nextRetryCount := retryCount + 1 |}]).
Proof.
  unfold UseChat.sendAudioToApi, UseChat.receive, UseChat.recover, UseChat.playAudio.
  repeat case_match; simplify_eq; cbn; try (by left);
    right; (split; [|done]);
    match goal with
    | H : _ && (_ <? _) = true |- _ => apply andb_true_iff in H as [_ H]; lia
    end.
Qed.

Lemma popTimer_dispatched (st st' : UseChat.State) (t : UseChat.Timer) :
  UseChat.popTimer st = Some (t, st') →
  UseChat.dispatched st' = UseChat.dispatched st
  ∧ UseChat.timers st = t :: UseChat.timers st'.
Proof.
  unfold UseChat.popTimer. destruct (UseChat.timers st) as [|t0 rest] eqn:E;
    [discriminate|]. intros [= <- <-]. done.
Qed.

(** The requests of one recording, from attempt [retryCount] on. *)
Lemma conversation_dispatches
    (exchanges : list (Z * outcome ChatRoute.Response)) (audioBlob : UseChat.Blob) :
  ∀ (now retryCount : Z) (st : UseChat.State),
    UseChat.timers st = [] →
    0 ≤ retryCount →
    ∃ new,
      UseChat.dispatched (UseChat.conversation exchanges now audioBlob retryCount st)
      = UseChat.dispatched st ++ new
      ∧ Z.of_nat (length new) ≤ Z.max 1 (3 - retryCount)
      ∧ (length new ≤ length exchanges)%nat
      ∧ Forall (λ d, UseChat.sentUri d = UseChat.readAsDataURL audioBlob) new
      ∧ UseChat.attempt <$> new = seqZ retryCount (Z.of_nat (length new)).
Proof.
  induction exchanges as [|[latency answer] later IH]; intros now retryCount st Hidle Hrc.
  - exists []. simpl. rewrite app_nil_r. repeat split; try done; lia.
  - cbn [UseChat.conversation].
    destruct (sendAudioToApi_frame (λ _, answer) now (now + latency) audioBlob
                retryCount st) as (_ & _ & Hd).
    destruct (sendAudioToApi_timers (λ _, answer) now (now + latency) audioBlob
                retryCount st) as [Ht | [Hbelow Ht]]; rewrite Hidle in Ht.
    + unfold UseChat.popTimer. rewrite Ht.
      eexists [_]. split; [exact Hd|]. simpl.
      repeat split; try lia; try (by apply Forall_singleton); try reflexivity.
    + destruct (UseChat.popTimer _) as [[t st']|] eqn:Epop.
      * destruct (popTimer_dispatched _ _ _ Epop) as [Hd' Ht'].
        rewrite Ht in Ht'. simpl in Ht'. injection Ht' as <- Hrest.
        cbn [UseChat.delay UseChat.payload UseChat.nextRetryCount].
        destruct (IH (now + latency + UseChat.RETRY_DELAY * (retryCount + 1))
                    (retryCount + 1) st' (eq_sym Hrest) ltac:(lia))
          as (new & Hnew & Hlen & Hlen' & Huri & Hattempts).
        eexists (_ :: new). split; [rewrite Hnew, Hd', Hd, <- app_assoc; reflexivity|].
        unfold UseChat.MAX_RETRIES in Hbelow. simpl length.
        split; [lia|]. split; [lia|]. split; [by apply Forall_cons|].
        rewrite fmap_cons, Hattempts. cbn [UseChat.attempt].
        rewrite (seqZ_cons retryCount) by lia.
        f_equal. f_equal; lia.
      * unfold UseChat.popTimer in Epop. rewrite Ht in Epop. discriminate.
Qed.

(** X22. One recording leads to at most three requests, whatever the
    answers are and however many of them there are: the requests carry the
    same audio, the data URI of the recorded blob, and are numbered 0, 1,
    2 in order. *)
Theorem at_most_three_dispatches
    (exchanges : list (Z * outcome ChatRoute.Response)) (now : Z)
    (audioBlob : UseChat.Blob) (st : UseChat.State) :
  UseChat.timers st = [] →
  ∃ new,
    UseChat.dispatched (UseChat.conversation exchanges now audioBlob 0 st)
    = UseChat.dispatched st ++ new
    ∧ (length new ≤ 3)%nat
    ∧ Forall (λ d, UseChat.sentUri d = UseChat.readAsDataURL audioBlob) new
    ∧ UseChat.attempt <$> new = seqZ 0 (Z.of_nat (length new)).
Proof.
  intros Hidle.
  destruct (conversation_dispatches exchanges audioBlob now 0 st Hidle ltac:(lia))
    as (new & Hnew & Hlen & _ & Huri & Hattempts).
  exists new. repeat split; try done. lia.
Qed.

(** An attempt answered with a full reply. *)
Lemma replied_attempt (r : ChatRoute.Response) (now landed : Z)
    (audioBlob : UseChat.Blob) (retryCount : Z) (st : UseChat.State)
    (T R A : jsstring) :
  ChatRoute.status r = 200 →
  ChatRoute.transcription (ChatRoute.body r) = Some T →
  ChatRoute.aiResponse (ChatRoute.body r)
    = Some {| ChatRoute.text := R; ChatRoute.audioDataUri := A |} →
  T ≠ [] → R ≠ [] → A ≠ [] →
  UseChat.sendAudioToApi (λ _, Returned r) now landed audioBlob retryCount st
  = {| UseChat.messages :=
         UseChat.messages st
         ++ [message_of (UseChat.idsDrawn st) landed T UseChat.user;
             message_of (S (UseChat.idsDrawn st)) landed R UseChat.assistant];
       UseChat.isThinking := false;
       UseChat.lastRequestTime := now;
       UseChat.cooldownRemaining :=
         Z.max 0 (Js.ceilDiv (now + UseChat.RATE_LIMIT_COOLDOWN - now) 1000);
       UseChat.idsDrawn := S (S (UseChat.idsDrawn st));
       UseChat.timers := UseChat.timers st;
       UseChat.dispatched :=
         UseChat.dispatched st
         ++ [{| UseChat.at_ := now;
                UseChat.sentUri := UseChat.readAsDataURL audioBlob;
                UseChat.attempt := retryCount |}];
       UseChat.played := UseChat.played st ++ [A];
       UseChat.reported :=
         UseChat.reported st
         ++ match audioPlay A with Some e => [e] | None => [] end |}.
Proof.
  intros Hstatus HT Hai HT' HR' HA'.
  unfold UseChat.sendAudioToApi, UseChat.receive.
  rewrite (status_200_ok _ Hstatus). cbn [negb]. rewrite HT, Hai.
  cbn [ChatRoute.text ChatRoute.audioDataUri].
  rewrite !truthy_content by done. cbn [andb].
  unfold UseChat.playAudio. destruct st.
  destruct (audioPlay A); cbn; rewrite <- ?app_assoc, ?app_nil_r; reflexivity.
Qed.

(** X23. A retry that succeeds: when the first answer is taken for a
    rate-limit condition and the second is a full reply, the audio is sent
    twice, 3 seconds apart from the first answer; the transcript gets the
    retry notice, then the user's message, then the assistant's; the reply
    audio is started and no timer is left, whatever further answers the
    network would have given. *)
Theorem retry_then_reply (l1 l2 : Z) (r1 r2 : ChatRoute.Response)
    (rest : list (Z * outcome ChatRoute.Response)) (now : Z)
    (audioBlob : UseChat.Blob) (st : UseChat.State) (T R A : jsstring) :
  taken_for_rate_limit r1 →
  ChatRoute.status r2 = 200 →
  ChatRoute.transcription (ChatRoute.body r2) = Some T →
  ChatRoute.aiResponse (ChatRoute.body r2)
    = Some {| ChatRoute.text := R; ChatRoute.audioDataUri := A |} →
  T ≠ [] → R ≠ [] → A ≠ [] →
  UseChat.timers st = [] →
  UseChat.dispatched
    (UseChat.conversation ((l1, Returned r1) :: (l2, Returned r2) :: rest)
       now audioBlob 0 st)
  = UseChat.dispatched st
    ++ [{| UseChat.at_ := now; UseChat.sentUri := UseChat.readAsDataURL audioBlob;
           UseChat.attempt := 0 |};
        {| UseChat.at_ := now + l1 + 3000;
           UseChat.sentUri := UseChat.readAsDataURL audioBlob;
           UseChat.attempt := 1 |}]
  ∧ UseChat.messages
      (UseChat.conversation ((l1, Returned r1) :: (l2, Returned r2) :: rest)
         now audioBlob 0 st)
    = UseChat.messages st
      ++ [message_of (UseChat.idsDrawn st) (now + l1) (retry_notice 3 1)
            UseChat.assistant;
          message_of (S (UseChat.idsDrawn st)) (now + l1 + 3000 + l2) T UseChat.user;
          message_of (S (S (UseChat.idsDrawn st))) (now + l1 + 3000 + l2) R
            UseChat.assistant]
  ∧ UseChat.played
      (UseChat.conversation ((l1, Returned r1) :: (l2, Returned r2) :: rest)
         now audioBlob 0 st)
    = UseChat.played st ++ [A]
  ∧ UseChat.timers
      (UseChat.conversation ((l1, Returned r1) :: (l2, Returned r2) :: rest)
         now audioBlob 0 st)
    = [].
Proof.
  intros H1 Hstatus HT Hai HT' HR' HA' Hidle. cbn [UseChat.conversation].
  rewrite (retried_attempt r1) by (done || (unfold UseChat.MAX_RETRIES; lia)).
  cbv beta iota. cbn [UseChat.delay UseChat.payload UseChat.nextRetryCount].
  change (UseChat.RETRY_DELAY * (0 + 1)) with 3000.
  rewrite (replied_attempt r2 _ _ _ _ _ T R A) by done.
  unfold UseChat.popTimer.
  cbn [UseChat.timers UseChat.messages UseChat.dispatched UseChat.played
       UseChat.idsDrawn].
  rewrite <- !app_assoc. repeat split; reflexivity.
Qed.



End RetryFacts.


Lemma at_most_three_dispatches_witness :
  ∃ new,
    UseChat.dispatched
      (UseChat.conversation (browser := scriptedBrowser)
         [(1, Returned rate_limit_reply); (1, Returned rate_limit_reply);
          (1, Returned rate_limit_reply); (1, Returned rate_limit_reply)]
         0 sample_blob 0 UseChat.initial)
    = UseChat.dispatched UseChat.initial ++ new
    ∧ (length new ≤ 3)%nat
    ∧ Forall (λ d, UseChat.sentUri d = UseChat.readAsDataURL sample_blob) new
    ∧ UseChat.attempt <$> new = seqZ 0 (Z.of_nat (length new)).
Proof.
  apply (at_most_three_dispatches (browser := scriptedBrowser)
           [(1, Returned rate_limit_reply); (1, Returned rate_limit_reply);
            (1, Returned rate_limit_reply); (1, Returned rate_limit_reply)]
           0 sample_blob UseChat.initial).
  reflexivity.
Defined.

Lemma retry_then_reply_witness :
  UseChat.dispatched
    (UseChat.conversation (browser := scriptedBrowser)
       [(1, Returned rate_limit_reply);
        (1, Returned
              (ChatRoute.response
                 (ChatRoute.POST (flows := workingFlows) 0 1 sample_request ∅)))]
       0 sample_blob 0 UseChat.initial)
  = UseChat.dispatched UseChat.initial
    ++ [{| UseChat.at_ := 0; UseChat.sentUri := UseChat.readAsDataURL sample_blob;
           UseChat.attempt := 0 |};
        {| UseChat.at_ := 0 + 1 + 3000;
           UseChat.sentUri := UseChat.readAsDataURL sample_blob;
           UseChat.attempt := 1 |}]
  ∧ UseChat.messages
      (UseChat.conversation (browser := scriptedBrowser)
         [(1, Returned rate_limit_reply);
          (1, Returned
                (ChatRoute.response
                   (ChatRoute.POST (flows := workingFlows) 0 1 sample_request ∅)))]
         0 sample_blob 0 UseChat.initial)
    = UseChat.messages UseChat.initial
      ++ [message_of (browser := scriptedBrowser) (UseChat.idsDrawn UseChat.initial)
            (0 + 1) (retry_notice 3 1) UseChat.assistant;
          message_of (browser := scriptedBrowser)
            (S (UseChat.idsDrawn UseChat.initial)) (0 + 1 + 3000 + 1)
            (js "what time is it") UseChat.user;
          message_of (browser := scriptedBrowser)
            (S (S (UseChat.idsDrawn UseChat.initial))) (0 + 1 + 3000 + 1)
            (js "Noon.") UseChat.assistant]
  ∧ UseChat.played
      (UseChat.conversation (browser := scriptedBrowser)
         [(1, Returned rate_limit_reply);
          (1, Returned
                (ChatRoute.response
                   (ChatRoute.POST (flows := workingFlows) 0 1 sample_request ∅)))]
         0 sample_blob 0 UseChat.initial)
    = UseChat.played UseChat.initial ++ [js "data:audio/wav;base64,UklGRg=="]
  ∧ UseChat.timers
      (UseChat.conversation (browser := scriptedBrowser)
         [(1, Returned rate_limit_reply);
          (1, Returned
                (ChatRoute.response
                   (ChatRoute.POST (flows := workingFlows) 0 1 sample_request ∅)))]
         0 sample_blob 0 UseChat.initial)
    = [].
Proof.
  apply (retry_then_reply (browser := scriptedBrowser) 1 1 rate_limit_reply
           (ChatRoute.response
              (ChatRoute.POST (flows := workingFlows) 0 1 sample_request ∅))
           [] 0 sample_blob UseChat.initial
           (js "what time is it") (js "Noon.") (js "data:audio/wav;base64,UklGRg==")).
  - vm_compute. split; reflexivity.
  - vm_compute. reflexivity.
  - vm_compute. reflexivity.
  - vm_compute. reflexivity.
  - vm_compute. discriminate.
  - vm_compute. discriminate.
  - vm_compute. discriminate.
  - reflexivity.
Defined.

Section WholeExchange.

Context {flows : AiFlows} {browser : Browser}.

(** X24. Silence leaves no trace in the widget: when the transcription of
    the audio that the controller sent is empty or only whitespace, the
    route's answer makes the controller append no message at all, start no
    audio, report no error and set no timer. *)
Theorem silence_leaves_no_trace (now sent : Z) (req : ChatRoute.Request)
    (counts : gmap jsstring RateRecord) (T : jsstring) (dispatchedAt landed : Z)
    (audioBlob : UseChat.Blob) (retryCount : Z) (st : UseChat.State) :
  reaches_pipeline now req counts (UseChat.readAsDataURL audioBlob) →
  transcribeUserSpeech (UseChat.readAsDataURL audioBlob) = Returned T →
  Js.trim T = [] →
  UseChat.messages
    (UseChat.sendAudioToApi
       (λ _, Returned (ChatRoute.response (ChatRoute.POST now sent req counts)))
       dispatchedAt landed audioBlob retryCount st)
  = UseChat.messages st
  ∧ UseChat.played
      (UseChat.sendAudioToApi
         (λ _, Returned (ChatRoute.response (ChatRoute.POST now sent req counts)))
         dispatchedAt landed audioBlob retryCount st)
    = UseChat.played st
  ∧ UseChat.reported
      (UseChat.sendAudioToApi
         (λ _, Returned (ChatRoute.response (ChatRoute.POST now sent req counts)))
         dispatchedAt landed audioBlob retryCount st)
    = UseChat.reported st
  ∧ UseChat.timers
      (UseChat.sendAudioToApi
         (λ _, Returned (ChatRoute.response (ChatRoute.POST now sent req counts)))
         dispatchedAt landed audioBlob retryCount st)
    = UseChat.timers st.
Proof.
  intros Hreach HT Hblank.
  assert (ChatRoute.response (ChatRoute.POST now sent req counts)
          = ChatRoute.respond 200
              (ChatRoute.replyJson []
                 (js "Sorry, I couldn't understand that. Please try again.") []))
    as ->.
  { rewrite (POST_reaches_pipeline _ _ _ _ _ Hreach). simpl.
    unfold ChatRoute.pipeline. by rewrite HT, blank_guard, bool_decide_true by done. }
  destruct st. repeat split; reflexivity.
Qed.

End WholeExchange.

Lemma silence_leaves_no_trace_witness :
  UseChat.messages
    (UseChat.sendAudioToApi (browser := scriptedBrowser)
       (λ _, Returned
               (ChatRoute.response
                  (ChatRoute.POST (flows := silentFlows) 0 1 sample_request ∅)))
       2 3 sample_blob 0 UseChat.initial)
  = UseChat.messages UseChat.initial
  ∧ UseChat.played
      (UseChat.sendAudioToApi (browser := scriptedBrowser)
         (λ _, Returned
                 (ChatRoute.response
                    (ChatRoute.POST (flows := silentFlows) 0 1 sample_request ∅)))
         2 3 sample_blob 0 UseChat.initial)
    = UseChat.played UseChat.initial
  ∧ UseChat.reported
      (UseChat.sendAudioToApi (browser := scriptedBrowser)
         (λ _, Returned
                 (ChatRoute.response
                    (ChatRoute.POST (flows := silentFlows) 0 1 sample_request ∅)))
         2 3 sample_blob 0 UseChat.initial)
    = UseChat.reported UseChat.initial
  ∧ UseChat.timers
      (UseChat.sendAudioToApi (browser := scriptedBrowser)
         (λ _, Returned
                 (ChatRoute.response
                    (ChatRoute.POST (flows := silentFlows) 0 1 sample_request ∅)))
         2 3 sample_blob 0 UseChat.initial)
    = UseChat.timers UseChat.initial.
Proof.
  apply (silence_leaves_no_trace (flows := silentFlows) (browser := scriptedBrowser)
           0 1 sample_request ∅ (js "  ") 2 3 sample_blob 0 UseChat.initial).
  - vm_compute. repeat split; reflexivity.
  - reflexivity.
  - vm_compute. reflexivity.
Defined.

(** ** Connecting *)

Section ConnectFacts.

Context {sdk : LiveKitSdk} {media : MediaSession}.

(** X25. When the token request fails, because [fetch] rejects or because
    the route's answer is outside the 2xx range, [connect] creates no room
    and reports two errors: the failure itself, with the route's [error]
    text when there is one, and then "Missing token or LiveKit URL.". *)
Theorem failed_token_request_reports_twice (answer : outcome TokenRoute.Response)
    (e : thrown) (s : Hook.Session) :
  token_refusal answer e →
  Hook.room (Hook.connect answer s) = Hook.room s
  ∧ Hook.isConnected (Hook.connect answer s) = Hook.isConnected s
  ∧ UseChat.reported (Hook.chat (Hook.connect answer s))
    = UseChat.reported (Hook.chat s)
      ++ [e; newError (js "Missing token or LiveKit URL.")]
  ∧ UseChat.messages (Hook.chat (Hook.connect answer s))
    = UseChat.messages (Hook.chat s).
Proof.
  intros Hrefusal. unfold Hook.connect, Hook.getLiveKitInfo.
  destruct Hrefusal as [-> | (r & -> & Hok & ->)]; [|rewrite Hok];
    cbn; rewrite <- app_assoc; done.
Qed.

(** X26. When the token route answers 200 with a non-empty token and the
    room accepts the connection, [connect] holds a room connected with the
    configured URL and with the token that the route issued, is connected,
    and has reported no error. *)
Theorem connect_uses_the_issued_token (env : TokenRoute.Env) (now sent : Z)
    (req : TokenRoute.Request) (counts : gmap jsstring RateRecord)
    (credential : TokenRoute.Credential) (s : Hook.Session) :
  TokenRoute.status (TokenRoute.POST env now sent req counts).1 = 200 →
  TokenRoute.credential (TokenRoute.body (TokenRoute.POST env now sent req counts).1)
    = Some credential →
  TokenRoute.token credential ≠ [] →
  roomConnect (TokenRoute.url credential) (TokenRoute.token credential) = None →
  Hook.room (Hook.connect (Returned (TokenRoute.POST env now sent req counts).1) s)
    = Some (TokenRoute.url credential, TokenRoute.token credential)
  ∧ TokenRoute.NEXT_PUBLIC_LIVEKIT_URL env = Some (TokenRoute.url credential)
  ∧ Hook.isConnected
      (Hook.connect (Returned (TokenRoute.POST env now sent req counts).1) s) = true
  ∧ Hook.chat (Hook.connect (Returned (TokenRoute.POST env now sent req counts).1) s)
    = Hook.chat s.
Proof.
  intros H200 Hcred Htoken Hroom.
  destruct (token_200 env now sent req counts H200)
    as (room' & part & key & secret & wsUrl & token & _ & _ & _ & _ & _ & Hu & _
        & Hbody).
  rewrite Hbody in Hcred. cbn in Hcred. injection Hcred as <-.
  cbn [TokenRoute.url TokenRoute.token] in *.
  apply present_Some in Hu as [Hu Hne].
  unfold Hook.connect, Hook.getLiveKitInfo, Hook.ok. rewrite H200.
  cbn [negb andb Z.leb Z.compare Pos.compare Pos.compare_cont].
  unfold Hook.connectionInfo. rewrite Hbody.
  cbn [TokenRoute.credential TokenRoute.token TokenRoute.url].
  rewrite !truthy_content by done. cbn [andb]. rewrite Hroom.
  cbn. done.
Qed.

End ConnectFacts.

Lemma failed_token_request_reports_twice_witness :
  Hook.room
    (Hook.connect (media := openMedia)
       (Returned (TokenRoute.POST (sdk := scriptedSdk) sample_env 0 1
                    (token_request (Some Widget.roomName) (Some (js "user-1")))
                    exhausted_window).1)
       Hook.initial)
  = Hook.room Hook.initial
  ∧ Hook.isConnected
      (Hook.connect (media := openMedia)
         (Returned (TokenRoute.POST (sdk := scriptedSdk) sample_env 0 1
                    (token_request (Some Widget.roomName) (Some (js "user-1")))
                    exhausted_window).1)
         Hook.initial)
    = Hook.isConnected Hook.initial
  ∧ UseChat.reported
      (Hook.chat
         (Hook.connect (media := openMedia)
            (Returned (TokenRoute.POST (sdk := scriptedSdk) sample_env 0 1
                    (token_request (Some Widget.roomName) (Some (js "user-1")))
                    exhausted_window).1)
            Hook.initial))
    = UseChat.reported (Hook.chat Hook.initial)
      ++ [newError (js "Too many token requests. Please wait 60 seconds.");
          newError (js "Missing token or LiveKit URL.")]
  ∧ UseChat.messages
      (Hook.chat
         (Hook.connect (media := openMedia)
            (Returned (TokenRoute.POST (sdk := scriptedSdk) sample_env 0 1
                    (token_request (Some Widget.roomName) (Some (js "user-1")))
                    exhausted_window).1)
            Hook.initial))
    = UseChat.messages (Hook.chat Hook.initial).
Proof.
  apply (failed_token_request_reports_twice (media := openMedia)
           (Returned (TokenRoute.POST (sdk := scriptedSdk) sample_env 0 1
                    (token_request (Some Widget.roomName) (Some (js "user-1")))
                    exhausted_window).1)
           (newError (js "Too many token requests. Please wait 60 seconds."))
           Hook.initial).
  right. eexists. split; [reflexivity|]. split; vm_compute; reflexivity.
Defined.

Lemma connect_uses_the_issued_token_witness :
  Hook.room
    (Hook.connect (media := openMedia)
       (Returned
          (TokenRoute.POST (sdk := scriptedSdk) sample_env 0 1
             (token_request (Some Widget.roomName) (Some (js "user-1"))) ∅).1)
       Hook.initial)
  = Some (js "wss://voice.example.livekit.cloud",
          js "jwt.user-1.landing-voice-ai-room")
  ∧ TokenRoute.NEXT_PUBLIC_LIVEKIT_URL sample_env
    = Some (js "wss://voice.example.livekit.cloud")
  ∧ Hook.isConnected
      (Hook.connect (media := openMedia)
         (Returned
            (TokenRoute.POST (sdk := scriptedSdk) sample_env 0 1
               (token_request (Some Widget.roomName) (Some (js "user-1"))) ∅).1)
         Hook.initial) = true
  ∧ Hook.chat
      (Hook.connect (media := openMedia)
         (Returned
            (TokenRoute.POST (sdk := scriptedSdk) sample_env 0 1
               (token_request (Some Widget.roomName) (Some (js "user-1"))) ∅).1)
         Hook.initial)
    = Hook.chat Hook.initial.
Proof.
  apply (connect_uses_the_issued_token (sdk := scriptedSdk) (media := openMedia)
           sample_env 0 1
           (token_request (Some Widget.roomName) (Some (js "user-1"))) ∅
           {| TokenRoute.token := js "jwt.user-1.landing-voice-ai-room";
              TokenRoute.url := js "wss://voice.example.livekit.cloud";
              TokenRoute.expiresIn := 600;
              TokenRoute.roomName := js "landing-voice-ai-room";
              TokenRoute.participantName := js "user-1" |}
           Hook.initial).
  - vm_compute. reflexivity.
  - vm_compute. reflexivity.
  - vm_compute. discriminate.
  - reflexivity.
Defined.

(** ** Recording *)

Section RecordingFacts.

Context {browser : Browser} {codec : Base64}.

(** X27. [startRecording] sets [isRecording] exactly when the session is
    connected to a room, is not thinking, at least 5 seconds have passed
    since the last dispatch, and the microphone, the publication of the
    track, the recorder and its start all succeed. *)
Theorem recording_starts_exactly_when (now : Z)
    (mic publish recorder started : outcome unit) (s : Hook.Session) :
  Hook.isRecording s = false →
  Hook.isRecording (Hook.startRecording now mic publish recorder started s) = true
  ↔ may_record now s
    ∧ mic = Returned () ∧ publish = Returned () ∧ recorder = Returned ()
    ∧ started = Returned ().
Proof.
  intros Hidle. unfold Hook.startRecording, Hook.canMakeRequest, may_record,
    UseChat.RATE_LIMIT_COOLDOWN.
  rewrite Hidle, orb_false_r.
  destruct (decide (is_Some (Hook.room s))) as [Hroom|Hroom].
  2:{ rewrite bool_decide_false by done. cbn [negb orb]. rewrite Hidle.
      split; [discriminate|]. by intros [[? _] _]. }
  rewrite bool_decide_true by done. cbn [negb orb].
  destruct (UseChat.isThinking (Hook.chat s)) eqn:Hthink.
  { rewrite Hidle. split; [discriminate|]. by intros [(_ & _ & ? & _) _]. }
  destruct (now - UseChat.lastRequestTime (Hook.chat s) <? 5000) eqn:Hcool.
  { cbn [negb Hook.withChat Hook.isRecording]. rewrite Hidle.
    split; [discriminate|]. intros [(_ & _ & _ & ?) _]. lia. }
  cbn [negb].
  destruct mic as [[]|e]; [|cbn; rewrite ?Hidle; split; [discriminate|];
                            by intros (_ & ? & _)].
  destruct publish as [[]|e]; [|cbn; rewrite ?Hidle; split; [discriminate|];
                                by intros (_ & _ & ? & _)].
  destruct recorder as [[]|e]; [|cbn; rewrite ?Hidle; split; [discriminate|];
                                 by intros (_ & _ & _ & ? & _)].
  destruct started as [[]|e]; [|cbn; rewrite ?Hidle; split; [discriminate|];
                                by intros (_ & _ & _ & _ & ?)].
  cbn. split; [intros _|done]. repeat split; try done. lia.
Qed.

(** X28. When a step of [startRecording] throws, the error is reported, one
    assistant message about the microphone is appended, and nothing is
    recorded or sent. A track published before the failure stays held:
    [stopRecording] does not release it, since [isRecording] is false. *)
Theorem failed_start_is_reported (now : Z)
    (mic publish recorder started : outcome unit) (e : thrown) (s : Hook.Session)
    (fetch : jsstring → outcome ChatRoute.Response) (later landed : Z)
    (final : list N) :
  may_record now s →
  first_failure mic publish recorder started e →
  UseChat.reported (Hook.chat (Hook.startRecording now mic publish recorder started s))
  = UseChat.reported (Hook.chat s) ++ [e]
  ∧ UseChat.messages
      (Hook.chat (Hook.startRecording now mic publish recorder started s))
    = UseChat.messages (Hook.chat s)
      ++ [message_of (UseChat.idsDrawn (Hook.chat s)) now microphone_notice
            UseChat.assistant]
  ∧ UseChat.dispatched
      (Hook.chat (Hook.startRecording now mic publish recorder started s))
    = UseChat.dispatched (Hook.chat s)
  ∧ Hook.isRecording (Hook.startRecording now mic publish recorder started s) = false
  ∧ Hook.localAudioTrack (Hook.startRecording now mic publish recorder started s)
    = returned mic && returned publish || Hook.localAudioTrack s
  ∧ Hook.stopRecording fetch later landed final
      (Hook.startRecording now mic publish recorder started s)
    = Hook.startRecording now mic publish recorder started s.
Proof.
  intros (Hroom & Hidle & Hthink & Hcool) Hfail.
  unfold Hook.startRecording, Hook.canMakeRequest, UseChat.RATE_LIMIT_COOLDOWN.
  rewrite bool_decide_true, Hidle, Hthink by done. cbn [negb orb].
  assert ((now - UseChat.lastRequestTime (Hook.chat s) <? 5000) = false) as ->
    by lia.
  cbn [negb]. unfold Hook.stopRecording.
  destruct Hfail as [-> | [[-> ->] | [(-> & -> & ->) | (-> & -> & -> & ->)]]];
    cbn; rewrite ?Hidle, ?andb_false_r; repeat split; done.
Qed.

Lemma record_fields (chunks : list (list N)) (s : Hook.Session) :
  Hook.chat (record chunks s) = Hook.chat s
  ∧ Hook.room (record chunks s) = Hook.room s
  ∧ Hook.isConnected (record chunks s) = Hook.isConnected s
  ∧ Hook.isRecording (record chunks s) = Hook.isRecording s
  ∧ Hook.mediaRecorder (record chunks s) = Hook.mediaRecorder s
  ∧ Hook.localAudioTrack (record chunks s) = Hook.localAudioTrack s
  ∧ concat (Hook.audioChunks (record chunks s))
    = concat (Hook.audioChunks s) ++ concat chunks.
Proof.
  revert s. induction chunks as [|data chunks IH]; intros s.
  { cbn. by rewrite app_nil_r. }
  unfold record in *. cbn [foldl].
  destruct (IH (Hook.onDataAvailable data s)) as (-> & -> & -> & -> & -> & -> & ->).
  unfold Hook.onDataAvailable.
  destruct (0 <? Z.of_nat (length data)) eqn:Hsize; cbn.
  - rewrite concat_app. cbn. by rewrite app_nil_r, <- app_assoc.
  - by assert (data = []) as -> by (destruct data; [done|apply Z.ltb_ge in Hsize; cbn [length] in Hsize; lia]).
Qed.

(** X29. Start, record, stop: from a session that may record, a recording
    whose steps all succeed and that is then stopped sends exactly one
    request, on attempt 0, whose [audioDataUri] is an audio/webm data URI of
    all the recorded data in order, the data handed over at the stop
    included; it passes the chat route's format check. Afterwards nothing
    is recording, the chunks are empty, the track is released, and a second
    [stopRecording] does nothing. *)
Theorem recording_round_trip (started stopped landed : Z)
    (chunks : list (list N)) (final : list N)
    (fetch : jsstring → outcome ChatRoute.Response) (s : Hook.Session)
    (fetch' : jsstring → outcome ChatRoute.Response) (later landed' : Z)
    (final' : list N) :
  may_record started s →
  let recording :=
    record chunks
      (Hook.startRecording started (Returned ()) (Returned ()) (Returned ())
         (Returned ()) s) in
  let uri :=
    js "data:audio/webm;base64,"
    ++ toBase64 (concat (Hook.audioChunks s) ++ concat chunks ++ final) in
  UseChat.dispatched (Hook.chat (Hook.stopRecording fetch stopped landed final recording))
  = UseChat.dispatched (Hook.chat s)
    ++ [{| UseChat.at_ := stopped; UseChat.sentUri := uri; UseChat.attempt := 0 |}]
  ∧ audio_uri (Some uri)
  ∧ Hook.isRecording (Hook.stopRecording fetch stopped landed final recording) = false
  ∧ Hook.audioChunks (Hook.stopRecording fetch stopped landed final recording) = []
  ∧ Hook.localAudioTrack (Hook.stopRecording fetch stopped landed final recording)
    = false
  ∧ Hook.room (Hook.stopRecording fetch stopped landed final recording) = Hook.room s
  ∧ Hook.stopRecording fetch' later landed' final'
      (Hook.stopRecording fetch stopped landed final recording)
    = Hook.stopRecording fetch stopped landed final recording.
Proof.
  intros (Hroom & Hidle & Hthink & Hcool) recording uri.
  assert (Hook.startRecording started (Returned ()) (Returned ()) (Returned ())
            (Returned ()) s
          = {| Hook.chat := Hook.chat s; Hook.room := Hook.room s;
               Hook.isConnected := Hook.isConnected s; Hook.isRecording := true;
               Hook.mediaRecorder := true; Hook.audioChunks := Hook.audioChunks s;
               Hook.localAudioTrack := true |}) as Hstart.
  { unfold Hook.startRecording, Hook.canMakeRequest, UseChat.RATE_LIMIT_COOLDOWN.
    rewrite bool_decide_true, Hidle, Hthink by done. cbn [negb orb].
    by assert ((started - UseChat.lastRequestTime (Hook.chat s) <? 5000) = false)
      as -> by lia. }
  destruct (record_fields chunks
              (Hook.startRecording started (Returned ()) (Returned ()) (Returned ())
                 (Returned ()) s))
    as (Hchat & Hr & _ & Hrec & Hmr & _ & Hdata).
  rewrite Hstart in Hchat, Hr, Hrec, Hmr, Hdata.
  cbn [Hook.chat Hook.room Hook.isRecording Hook.mediaRecorder Hook.audioChunks]
    in Hchat, Hr, Hrec, Hmr, Hdata.
  subst recording. rewrite Hstart. set (recording := record chunks _) in *.
  assert (concat (Hook.audioChunks (Hook.onDataAvailable final recording))
          = concat (Hook.audioChunks s) ++ concat chunks ++ final) as Hall.
  { unfold Hook.onDataAvailable.
    destruct (0 <? Z.of_nat (length final)) eqn:Hsize; cbn.
    - rewrite concat_app, Hdata. cbn. by rewrite app_nil_r, <- app_assoc.
    - assert (final = []) as -> by (destruct final; [done|apply Z.ltb_ge in Hsize; cbn [length] in Hsize; lia]).
      by rewrite Hdata, app_nil_r. }
  assert (Hook.chat (Hook.onDataAvailable final recording) = Hook.chat s
          ∧ Hook.room (Hook.onDataAvailable final recording) = Hook.room s)
    as [Hchat' Hroom'].
  { unfold Hook.onDataAvailable. by case_match. }
  unfold Hook.stopRecording. rewrite Hmr, Hrec. cbn [andb].
  cbn [Hook.chat Hook.room Hook.isRecording Hook.mediaRecorder Hook.audioChunks
       Hook.localAudioTrack].
  rewrite andb_false_r.
  destruct (sendAudioToApi_frame fetch stopped landed
              (Hook.recordedBlob (Hook.audioChunks (Hook.onDataAvailable final recording)))
              0 (Hook.chat (Hook.onDataAvailable final recording)))
    as (_ & _ & ->).
  unfold Hook.recordedBlob, UseChat.readAsDataURL. cbn [UseChat.type UseChat.base64].
  rewrite Hall, Hchat', Hroom'.
  repeat split; try done.
  exists uri. split; [done|]. apply (startsWith_app (js "data:audio/")).
Qed.

End RecordingFacts.

Lemma recording_starts_exactly_when_witness :
  Hook.isRecording
    (Hook.startRecording (browser := scriptedBrowser) 6000 (Returned ())
       (Returned ()) (Returned ()) (Returned ()) connected_session) = true.
Proof.
  apply (proj2 (recording_starts_exactly_when (browser := scriptedBrowser) 6000
                  (Returned ()) (Returned ()) (Returned ()) (Returned ())
                  connected_session ltac:(reflexivity))).
  split; [|repeat split; reflexivity].
  split; [by eexists|]. split; [reflexivity|]. split; [reflexivity|].
  vm_compute. discriminate.
Defined.

Lemma failed_start_is_reported_witness :
  UseChat.reported
    (Hook.chat
       (Hook.startRecording (browser := scriptedBrowser) 6000 (Returned ())
          (Returned ()) (Thrown notAllowed) (Returned ()) connected_session))
  = UseChat.reported (Hook.chat connected_session) ++ [notAllowed]
  ∧ Hook.localAudioTrack
      (Hook.startRecording (browser := scriptedBrowser) 6000 (Returned ())
         (Returned ()) (Thrown notAllowed) (Returned ()) connected_session)
    = true
  ∧ Hook.stopRecording (browser := scriptedBrowser) (codec := sampleCodec)
      (λ _, Thrown notAllowed) 7000 7100 [26%N]
      (Hook.startRecording (browser := scriptedBrowser) 6000 (Returned ())
         (Returned ()) (Thrown notAllowed) (Returned ()) connected_session)
    = Hook.startRecording (browser := scriptedBrowser) 6000 (Returned ())
        (Returned ()) (Thrown notAllowed) (Returned ()) connected_session.
Proof.
  destruct (failed_start_is_reported (browser := scriptedBrowser)
              (codec := sampleCodec) 6000 (Returned ()) (Returned ())
              (Thrown notAllowed) (Returned ()) notAllowed connected_session
              (λ _, Thrown notAllowed) 7000 7100 [26%N])
    as (Hreported & _ & _ & _ & Htrack & Hstop).
  - split; [by eexists|]. split; [reflexivity|]. split; [reflexivity|].
    vm_compute. discriminate.
  - right. right. left. repeat split; reflexivity.
  - split; [exact Hreported|]. split; [exact Htrack|exact Hstop].
Defined.

Lemma recording_round_trip_witness :
  UseChat.dispatched
    (Hook.chat
       (Hook.stopRecording (browser := scriptedBrowser) (codec := sampleCodec)
          (λ _, Thrown notAllowed) 7000 7100 [163%N]
          (record [[26; 69]%N; []; [223%N]]
             (Hook.startRecording (browser := scriptedBrowser) 6000 (Returned ())
                (Returned ()) (Returned ()) (Returned ()) connected_session))))
  = UseChat.dispatched (Hook.chat connected_session)
    ++ [{| UseChat.at_ := 7000;
           UseChat.sentUri :=
             js "data:audio/webm;base64,"
             ++ toBase64 (Base64 := sampleCodec) [26; 69; 223; 163]%N;
           UseChat.attempt := 0 |}].
Proof.
  apply (recording_round_trip (browser := scriptedBrowser) (codec := sampleCodec)
           6000 7000 7100 [[26; 69]%N; []; [223%N]] [163%N]
           (λ _, Thrown notAllowed) connected_session
           (λ _, Thrown notAllowed) 8000 8100 []).
  split; [by eexists|]. split; [reflexivity|]. split; [reflexivity|].
  vm_compute. discriminate.
Defined.

(** ** The countdown *)

Lemma seconds_left_drops (endTime now d : Z) :
  1000 ≤ d → 0 < seconds_left endTime now →
  seconds_left endTime (now + d) < seconds_left endTime now.
Proof.
  unfold seconds_left, Js.ceilDiv. intros Hd Hpos.
  pose proof (Z.div_mod (- (endTime - now)) 1000 ltac:(lia)).
  pose proof (Z.mod_pos_bound (- (endTime - now)) 1000 ltac:(lia)).
  pose proof (Z.div_mod (- (endTime - (now + d))) 1000 ltac:(lia)).
  pose proof (Z.mod_pos_bound (- (endTime - (now + d))) 1000 ltac:(lia)).
  lia.
Qed.

Lemma countdown_shape (endTime : Z) (delays : list Z) (now : Z) :
  Forall (λ d, 1000 ≤ d) delays →
  ∃ rest,
    Hook.countdown endTime now delays = seconds_left endTime now :: rest
    ∧ Forall (λ x, 0 ≤ x < seconds_left endTime now) rest
    ∧ StronglySorted (λ a b, b < a) (seconds_left endTime now :: rest)
    ∧ Z.of_nat (length rest) ≤ seconds_left endTime now
    ∧ (seconds_left endTime now ≤ Z.of_nat (length delays) →
       last (seconds_left endTime now :: rest) = Some 0).
Proof.
  revert now. induction delays as [|d later IH]; intros now Hdelays.
  - exists []. unfold Hook.countdown, Hook.updateTimer. fold (seconds_left endTime now).
    assert (0 ≤ seconds_left endTime now) by (unfold seconds_left; lia).
    split; [by case_match|]. split; [constructor|].
    split; [by repeat constructor|]. split; [simpl; lia|].
    simpl. intros ?. f_equal. lia.
  - apply Forall_cons in Hdelays as [Hd Hlater].
    assert (0 ≤ seconds_left endTime now) by (unfold seconds_left; lia).
    cbn [Hook.countdown]. unfold Hook.updateTimer. fold (seconds_left endTime now).
    destruct (0 <? seconds_left endTime now) eqn:Hagain.
    + destruct (IH (now + d) Hlater) as (rest & -> & Hall & Hsorted & Hlen & Hlast).
      pose proof (seconds_left_drops endTime now d Hd ltac:(lia)) as Hdrop.
      exists (seconds_left endTime (now + d) :: rest).
      split; [done|]. split.
      { constructor.
        - unfold seconds_left at 1. lia.
        - eapply Forall_impl; [exact Hall|]. simpl. lia. }
      split.
      { constructor; [done|]. constructor; [lia|].
        eapply Forall_impl; [exact Hall|]. simpl. lia. }
      split; [cbn [length]; lia|].
      intros Hmany. rewrite last_cons_cons. apply Hlast. cbn [length] in Hmany. lia.
    + exists []. split; [done|]. split; [constructor|].
      split; [by repeat constructor|]. split; [simpl; lia|].
      simpl. intros ?. f_equal. lia.
Qed.

(** X30. The countdown of [startCooldownTimer] runs down and stops: as long
    as no timer fires early, the values it shows start at the whole seconds
    left, rounded up, strictly decrease, and, once enough timers have
    fired, end at 0, after at most one update per second shown. *)
Theorem countdown_runs_down (endTime now : Z) (delays : list Z) :
  Forall (λ d, 1000 ≤ d) delays →
  seconds_left endTime now ≤ Z.of_nat (length delays) →
  head (Hook.countdown endTime now delays) = Some (seconds_left endTime now)
  ∧ StronglySorted (λ a b, b < a) (Hook.countdown endTime now delays)
  ∧ last (Hook.countdown endTime now delays) = Some 0
  ∧ Z.of_nat (length (Hook.countdown endTime now delays))
    ≤ seconds_left endTime now + 1.
Proof.
  intros Hdelays Hmany.
  destruct (countdown_shape endTime delays now Hdelays)
    as (rest & -> & _ & Hsorted & Hlen & Hlast).
  split; [done|]. split; [done|]. split; [by apply Hlast|]. cbn [length]. lia.
Qed.

Lemma countdown_runs_down_witness :
  head (Hook.countdown 5000 0 [1000; 1004; 1001; 1000; 1010]) = Some 5
  ∧ StronglySorted (λ a b, b < a)
      (Hook.countdown 5000 0 [1000; 1004; 1001; 1000; 1010])
  ∧ last (Hook.countdown 5000 0 [1000; 1004; 1001; 1000; 1010]) = Some 0
  ∧ Z.of_nat (length (Hook.countdown 5000 0 [1000; 1004; 1001; 1000; 1010]))
    ≤ 5 + 1.
Proof.
  apply (countdown_runs_down 5000 0 [1000; 1004; 1001; 1000; 1010]).
  - repeat constructor; lia.
  - vm_compute. discriminate.
Defined.
